(** * Usage-budgeted LLM orchestration of the digital wardrobe backend

    A shallow embedding of [backend/app/llm_service.py] (the classes
    [UsageTracker] and [LLMService]) and of [backend/app/llm_service_demo.py]
    (the class [DemoLLMService]), with the properties of the usage gate, of
    the cost estimate and of the demo fallback; then of the prompt builder,
    of [backend/app/outfit_recommender.py] and of the outfit endpoints of
    [backend/app/main.py], with the properties of the process around them. *)

From Stdlib Require Import ZArith Bool List String Ascii Lia SpecFloat.
From stdpp Require Import base option list gmap strings pretty.

Local Open Scope string_scope.
Local Open Scope Z_scope.

(** ** Python floats

    A Python [float] is an IEEE 754 binary64 number: 53 bits of mantissa,
    infinities at exponent 1024, every operation rounded to nearest even.
    The operations are those of the standard library's [SpecFloat]. *)

Module PyFloat.

Definition float : Type := spec_float.

Definition prec : Z := 53.
Definition emax : Z := 1024.

Definition add : float -> float -> float := SFadd prec emax.
Definition sub : float -> float -> float := SFsub prec emax.
Definition mul : float -> float -> float := SFmul prec emax.
Definition div : float -> float -> float := SFdiv prec emax.

(** [x >= y] and [x < y]; both are false as soon as one side is a NaN. *)
Definition ge (x y : float) : bool := SFleb y x.
Definition lt (x y : float) : bool := SFltb x y.

Definition zero : float := S754_zero false.

Definition is_finite (x : float) : bool :=
  match x with
  | S754_zero _ | S754_finite _ _ _ => true
  | S754_infinity _ | S754_nan => false
  end.

(** The quotient of two integers, correctly rounded: the value of a decimal
    literal [n / 10^k], and (when it is finite) of Python's [a / b] on
    integers. *)
Definition of_ratio (a b : Z) : float :=
  match a, b with
  | Z0, Zpos _ => S754_zero false
  | Z0, Zneg _ => S754_zero true
  | Zpos p, Zpos q => div (S754_finite false p 0) (S754_finite false q 0)
  | Zneg p, Zpos q => div (S754_finite true p 0) (S754_finite false q 0)
  | Zpos p, Zneg q => div (S754_finite false p 0) (S754_finite true q 0)
  | Zneg p, Zneg q => div (S754_finite true p 0) (S754_finite true q 0)
  | _, Z0 => S754_nan
  end.

(** [x * 10^ndigits] rounded to the nearest integer, ties to even, for a
    finite [x] of mantissa [m] and exponent [e]: the digits that both
    [format(x, ".2f")] and [round(x, 2)] keep. *)
Definition scaled_digits (m : positive) (e : Z) (ndigits : nat) : Z :=
  let n := Zpos m * 10 ^ Z.of_nat ndigits in
  match e with
  | Zneg k =>
      let d := 2 ^ Zpos k in
      let q := n / d in
      let r := n mod d in
      match 2 * r ?= d with
      | Lt => q
      | Eq => if Z.even q then q else q + 1
      | Gt => q + 1
      end
  | _ => n * 2 ^ e
  end.

Fixpoint zeros (n : nat) : string :=
  match n with O => "" | S n => String "0" (zeros n) end.

(** The decimal digits of [q >= 0] with a point before the last [ndigits]. *)
Definition fixed_point (q : Z) (ndigits : nat) : string :=
  let ds := pretty q in
  let ds := zeros (S ndigits - String.length ds) ++ ds in
  let k := (String.length ds - ndigits)%nat in
  match ndigits with
  | O => ds
  | _ => substring 0 k ds ++ "." ++ substring k ndigits ds
  end.

(** [format(x, ".<ndigits>f")], as in the f-strings [{x:.2f}]. *)
Definition format_f (ndigits : nat) (x : float) : string :=
  match x with
  | S754_nan => "nan"
  | S754_infinity s => if s then "-inf" else "inf"
  | S754_zero s => (if s then "-" else "") ++ fixed_point 0 ndigits
  | S754_finite s m e =>
      (if s then "-" else "") ++ fixed_point (scaled_digits m e ndigits) ndigits
  end.

(** [round(x, ndigits)] for a small non-negative [ndigits]: the nearest
    float to the decimal that [format_f] prints. *)
Definition round (x : float) (ndigits : nat) : float :=
  match x with
  | S754_finite s m e =>
      match scaled_digits m e ndigits with
      | Z0 => S754_zero s
      | q => of_ratio (if s then - q else q) (10 ^ Z.of_nat ndigits)
      end
  | _ => x
  end.

End PyFloat.

Abbreviation float := PyFloat.float.

(** ** Calendar values of Python's [datetime] module *)

Record date := mk_date { year : Z; month : Z; day : Z }.

Record datetime := mk_datetime {
  date_of : date;          (* [dt.date()] *)
  hour : Z;
  minute : Z;
  second : Z;
  microsecond : Z
}.

(** [d1 > d2] on dates: the order of the triples (year, month, day). *)
Definition date_gt (d1 d2 : date) : bool :=
  (year d2 <? year d1)
  || ((year d1 =? year d2)
      && ((month d2 <? month d1)
          || ((month d1 =? month d2) && (day d2 <? day d1)))).

(** [d.replace(day=1)]. *)
Definition date_replace_day1 (d : date) : date :=
  {| year := year d; month := month d; day := 1 |}.

(** [dt.replace(day=1)]. *)
Definition datetime_replace_day1 (dt : datetime) : datetime :=
  {| date_of := date_replace_day1 (date_of dt); hour := hour dt;
     minute := minute dt; second := second dt; microsecond := microsecond dt |}.

(** A [date] object defines neither [__bool__] nor [__len__]: used as a
    condition it is true, whatever its value. *)
Definition date_truth (d : date) : bool := true.

(** The attribute [monthly_reset] is dynamically typed. The constructor
    stores a [datetime] in it, [reset_if_needed] stores a [date]. *)
Inductive date_or_datetime :=
| A_datetime (dt : datetime)
| A_date (d : date).

(** ** Python objects and exceptions *)

(** The objects that [json.loads] returns and that the services return. *)
#[local] Unset Elimination Schemes.
Inductive Json :=
| JNull
| JBool (b : bool)
| JInt (n : Z)
| JFloat (x : float)
| JStr (s : string)
| JList (l : list Json)
| JDict (kvs : list (string * Json)).
#[local] Set Elimination Schemes.

(** [d[key]] read and [d[key] = v] written on the items of a dict, which
    keep their insertion order. *)
Fixpoint items_get (key : string) (kvs : list (string * Json)) : option Json :=
  match kvs with
  | [] => None
  | (k, v) :: kvs => if String.eqb k key then Some v else items_get key kvs
  end.

Fixpoint items_set (key : string) (v : Json) (kvs : list (string * Json))
  : list (string * Json) :=
  match kvs with
  | [] => [(key, v)]
  | (k, v0) :: kvs =>
      if String.eqb k key then (k, v) :: kvs else (k, v0) :: items_set key v kvs
  end.

Definition dict_get (key : string) (o : Json) : option Json :=
  match o with
  | JDict kvs => items_get key kvs
  | _ => None
  end.

Inductive exn :=
| Exception (msg : string)
| KeyError (key : string)
| IndexError
| AttributeError
| TypeError
| ZeroDivisionError
| OverflowError
| JSONDecodeError (msg : string)
| APIError (msg : string).

(** [a / b] on integers: the correctly rounded quotient, or an exception. *)
Definition int_truediv (a b : Z) : exn + float :=
  if b =? 0 then inl ZeroDivisionError
  else
    let q := PyFloat.of_ratio a b in
    if PyFloat.is_finite q then inr q else inl OverflowError.

(** ** class UsageTracker *)

Module UsageTracker.

Record t := mk {
  daily_count : Z;
  hourly_count : Z;
  monthly_cost : float;
  last_reset_day : date;
  last_reset_hour : Z;
  monthly_reset : date_or_datetime;
  max_daily : Z;
  max_hourly : Z;
  monthly_budget : float
}.

(** [__init__]: three readings of the clock, and the limits that
    [int(os.getenv(..))] and [float(os.getenv(..))] give. *)
Definition init (now1 now2 now3 : datetime) (maxd maxh : Z) (budget : float)
  : t :=
  {| daily_count := 0;
     hourly_count := 0;
     monthly_cost := PyFloat.zero;
     last_reset_day := date_of now1;
     last_reset_hour := hour now2;
     monthly_reset := A_datetime (datetime_replace_day1 now3);
     max_daily := maxd;
     max_hourly := maxh;
     monthly_budget := budget |}.

Definition reset_daily (today : date) (self : t) : t :=
  {| daily_count := 0;
     hourly_count := hourly_count self;
     monthly_cost := monthly_cost self;
     last_reset_day := today;
     last_reset_hour := last_reset_hour self;
     monthly_reset := monthly_reset self;
     max_daily := max_daily self;
     max_hourly := max_hourly self;
     monthly_budget := monthly_budget self |}.

Definition reset_hourly (h : Z) (self : t) : t :=
  {| daily_count := daily_count self;
     hourly_count := 0;
     monthly_cost := monthly_cost self;
     last_reset_day := last_reset_day self;
     last_reset_hour := h;
     monthly_reset := monthly_reset self;
     max_daily := max_daily self;
     max_hourly := max_hourly self;
     monthly_budget := monthly_budget self |}.

Definition reset_monthly (month_start : date) (self : t) : t :=
  {| daily_count := daily_count self;
     hourly_count := hourly_count self;
     monthly_cost := PyFloat.zero;
     last_reset_day := last_reset_day self;
     last_reset_hour := last_reset_hour self;
     monthly_reset := A_date month_start;
     max_daily := max_daily self;
     max_hourly := max_hourly self;
     monthly_budget := monthly_budget self |}.

(** The condition of the third [if] of [reset_if_needed]:

    [current_month_start > self.monthly_reset.date()
       if isinstance(self.monthly_reset, datetime) else self.monthly_reset]

    A conditional expression binds weaker than a comparison, so this is
    [(a > b.date()) if isinstance(..) else b]: with a [date] in
    [monthly_reset] the condition is that date itself. *)
Definition month_condition (current_month_start : date) (self : t) : bool :=
  match monthly_reset self with
  | A_datetime dt => date_gt current_month_start (date_of dt)
  | A_date d => date_truth d
  end.

Definition reset_if_needed (now : datetime) (self : t) : t :=
  let self :=
    if date_gt (date_of now) (last_reset_day self)
    then reset_daily (date_of now) self else self in
  let self :=
    if negb (hour now =? last_reset_hour self)
    then reset_hourly (hour now) self else self in
  let current_month_start := date_replace_day1 (date_of now) in
  if month_condition current_month_start self
  then reset_monthly current_month_start self else self.

Definition monthly_reason (self : t) : string :=
  "Monthly budget limit reached ($" ++ PyFloat.format_f 2 (monthly_budget self) ++ ")".
Definition daily_reason (self : t) : string :=
  "Daily request limit reached (" ++ pretty (max_daily self) ++ " requests)".
Definition hourly_reason (self : t) : string :=
  "Hourly request limit reached (" ++ pretty (max_hourly self) ++ " requests)".

(** The decision on a tracker whose windows are up to date. *)
Definition decide_request (self : t) : bool * string :=
  if PyFloat.ge (monthly_cost self) (monthly_budget self)
  then (false, monthly_reason self)
  else if daily_count self >=? max_daily self
  then (false, daily_reason self)
  else if hourly_count self >=? max_hourly self
  then (false, hourly_reason self)
  else (true, "").

(** [can_make_request]: the tracker it leaves and the pair it returns. *)
Definition can_make_request (now : datetime) (self : t)
  : t * (bool * string) :=
  let self := reset_if_needed now self in
  (self, decide_request self).

Definition record_request (cost : float) (self : t) : t :=
  {| daily_count := daily_count self + 1;
     hourly_count := hourly_count self + 1;
     monthly_cost := PyFloat.add (monthly_cost self) cost;
     last_reset_day := last_reset_day self;
     last_reset_hour := last_reset_hour self;
     monthly_reset := monthly_reset self;
     max_daily := max_daily self;
     max_hourly := max_hourly self;
     monthly_budget := monthly_budget self |}.

(** [get_usage_stats]. The dict is built entry by entry: the counts are
    read after the first [reset_if_needed], and the last entry calls
    [can_make_request], which reads the clock once more. *)
Definition get_usage_stats (now1 now2 : datetime) (self : t) : t * Json :=
  let self := reset_if_needed now1 self in
  let daily_requests := daily_count self in
  let hourly_requests := hourly_count self in
  let monthly_cost_usd := PyFloat.round (monthly_cost self) 2 in
  let remaining_budget_usd :=
    PyFloat.round (PyFloat.sub (monthly_budget self) (monthly_cost self)) 2 in
  let '(self, (allowed, _)) := can_make_request now2 self in
  (self,
   JDict [("daily_requests", JInt daily_requests);
          ("daily_limit", JInt (max_daily self));
          ("hourly_requests", JInt hourly_requests);
          ("hourly_limit", JInt (max_hourly self));
          ("monthly_cost_usd", JFloat monthly_cost_usd);
          ("monthly_budget_usd", JFloat (monthly_budget self));
          ("remaining_budget_usd", JFloat remaining_budget_usd);
          ("can_make_request", JBool allowed)]).

End UsageTracker.

(** ** The process around the services *)

(** The chat-completions endpoint, as far as the service uses it. *)
Record ChatRequest := mk_request {
  req_model : string;
  req_messages : list (string * string);      (* role, content *)
  req_temperature : float;
  req_max_tokens : Z;
  req_response_format : string
}.

Record Usage := mk_usage { prompt_tokens : Z; completion_tokens : Z }.

Record ChatResponse := mk_response {
  choices : list (option string);   (* [choices[i].message.content] *)
  usage : option Usage
}.

(** What a method of the service can read and change: the tracker it owns,
    the wall clock (each [datetime.now()] is one more reading) and the
    requests that went out to the provider. *)
Record World := mk_world {
  usage_tracker : UsageTracker.t;
  clock_reads : nat;
  dispatched : list ChatRequest
}.

Definition M (A : Type) : Type := World -> (exn + A) * World.

Definition ret {A} (a : A) : M A := fun w => (inr a, w).
Definition raise {A} (e : exn) : M A := fun w => (inl e, w).
Definition bind {A B} (m : M A) (k : A -> M B) : M B :=
  fun w => match m w with
           | (inr a, w') => k a w'
           | (inl e, w') => (inl e, w')
           end.
Definition lift {A} (r : exn + A) : M A := fun w => (r, w).

#[global] Instance M_ret : MRet M := @ret.
#[global] Instance M_bind : MBind M := fun A B k m => bind m k.

(** ** class LLMService *)

Module LLMService.

Record rates := mk_rates { input : float; output : float }.

(** Dollars per 1000 tokens. *)
Definition MODEL_COSTS : gmap string rates :=
  {[ "gpt-3.5-turbo" := {| input := PyFloat.of_ratio 5 10000;
                           output := PyFloat.of_ratio 15 10000 |};
     "gpt-4" := {| input := PyFloat.of_ratio 3 100;
                   output := PyFloat.of_ratio 6 100 |};
     "gpt-4-turbo" := {| input := PyFloat.of_ratio 1 100;
                         output := PyFloat.of_ratio 3 100 |} ]}.

(** [MODEL_COSTS.get(model, MODEL_COSTS["gpt-3.5-turbo"])]: the default is
    looked up first, as Python evaluates the arguments of [get]. *)
Definition costs_for (model : string) : exn + rates :=
  match MODEL_COSTS !! "gpt-3.5-turbo" with
  | None => inl (KeyError "gpt-3.5-turbo")
  | Some dflt => inr (default dflt (MODEL_COSTS !! model))
  end.

Definition _estimate_cost (model : string) (input_tokens output_tokens : Z)
  : exn + float :=
  match costs_for model with
  | inl e => inl e
  | inr costs =>
      match int_truediv input_tokens 1000 with
      | inl e => inl e
      | inr i =>
          let input_cost := PyFloat.mul i (input costs) in
          match int_truediv output_tokens 1000 with
          | inl e => inl e
          | inr o =>
              let output_cost := PyFloat.mul o (output costs) in
              inr (PyFloat.add input_cost output_cost)
          end
      end
  end.

Section Service.

(** The environment of the process: the successive readings of the clock,
    the answers of the provider (to the n-th request sent), the parser
    [json.loads], and the text that [_build_outfit_prompt] formats, which
    no property below looks into. *)
Variable clock : nat -> datetime.
Variable client : nat -> ChatRequest -> exn + ChatResponse.
Variable json_loads : option string -> exn + Json.
Variable _build_outfit_prompt : string -> list (gmap string Json) -> exn + string.

(** [self.model] *)
Variable model : string.

Definition datetime_now : M datetime :=
  fun w => (inr (clock (clock_reads w)),
            {| usage_tracker := usage_tracker w;
               clock_reads := S (clock_reads w);
               dispatched := dispatched w |}).

(** A method of [self.usage_tracker] that leaves a tracker and a result. *)
Definition on_tracker {A} (f : UsageTracker.t -> UsageTracker.t * A) : M A :=
  fun w => let '(t, a) := f (usage_tracker w) in
           (inr a, {| usage_tracker := t;
                      clock_reads := clock_reads w;
                      dispatched := dispatched w |}).

(** [self.usage_tracker.can_make_request()] *)
Definition tracker_can_make_request : M (bool * string) :=
  now ← datetime_now; on_tracker (UsageTracker.can_make_request now).

(** [self.usage_tracker.record_request(cost)] *)
Definition tracker_record_request (cost : float) : M unit :=
  on_tracker (fun t => (UsageTracker.record_request cost t, tt)).

(** [get_usage_stats], which is [self.usage_tracker.get_usage_stats()]. *)
Definition get_usage_stats : M Json :=
  now1 ← datetime_now;
  now2 ← datetime_now;
  on_tracker (UsageTracker.get_usage_stats now1 now2).

(** [self.client.chat.completions.create(..)] *)
Definition create (req : ChatRequest) : M ChatResponse :=
  fun w => (client (length (dispatched w)) req,
            {| usage_tracker := usage_tracker w;
               clock_reads := clock_reads w;
               dispatched := dispatched w ++ [req] |}).

Definition system_message : string :=
  "You are a professional fashion stylist. Always respond in valid JSON format.".

Definition outfit_request (prompt : string) : ChatRequest :=
  {| req_model := model;
     req_messages := [("system", system_message); ("user", prompt)];
     req_temperature := PyFloat.of_ratio 7 10;
     req_max_tokens := 800;
     req_response_format := "json_object" |}.

(** [result['metadata'] = ..] *)
Definition set_metadata (result : Json) (metadata : Json) : exn + Json :=
  match result with
  | JDict kvs => inr (JDict (items_set "metadata" metadata kvs))
  | _ => inl TypeError
  end.

(** The body of the [try]; its handler logs the exception and raises it
    again, so the exceptions of the body are those of the method. *)
Definition generate_body (user_request : string)
    (wardrobe_items : list (gmap string Json)) : M Json :=
  prompt ← lift (_build_outfit_prompt user_request wardrobe_items);
  response ← create (outfit_request prompt);
  result_text ← lift (match choices response with
                       | [] => inl IndexError
                       | c :: _ => inr c
                       end);
  u ← lift (match usage response with
             | None => inl AttributeError
             | Some u => inr u
             end);
  let input_tokens := prompt_tokens u in
  let output_tokens := completion_tokens u in
  cost ← lift (_estimate_cost model input_tokens output_tokens);
  tracker_record_request cost;;
  result ← lift (json_loads result_text);
  stats ← get_usage_stats;
  lift (set_metadata result
          (JDict [("model", JStr model);
                  ("cost_usd", JFloat (PyFloat.round cost 4));
                  ("tokens_used", JInt (input_tokens + output_tokens));
                  ("usage_stats", stats)])).

Definition generate_outfit_recommendation (user_request : string)
    (wardrobe_items : list (gmap string Json)) : M Json :=
  '(can_proceed, reason) ← tracker_can_make_request;
  if negb can_proceed
  then raise (Exception ("Rate limit exceeded: " ++ reason))
  else generate_body user_request wardrobe_items.

End Service.

End LLMService.

(** ** class DemoLLMService *)

Module DemoLLMService.

Section Demo.

(** The builtin [str], which formats a field inside an f-string. *)
Variable str : Json -> string.

(** [item['category'] in cats] *)
Definition category_in (cats : list string) (item : gmap string Json)
  : exn + bool :=
  match item !! "category" with
  | None => inl (KeyError "category")
  | Some (JStr c) => inr (bool_decide (c ∈ cats))
  | Some _ => inr false
  end.

(** [[item for item in wardrobe_items if item['category'] in cats]] *)
Fixpoint select (cats : list string) (wardrobe_items : list (gmap string Json))
  : exn + list (gmap string Json) :=
  match wardrobe_items with
  | [] => inr []
  | item :: rest =>
      match category_in cats item with
      | inl e => inl e
      | inr keep =>
          match select cats rest with
          | inl e => inl e
          | inr l => inr (if keep then item :: l else l)
          end
      end
  end.

(** [item.get(key, dflt)] *)
Definition get (item : gmap string Json) (key : string) (dflt : Json) : Json :=
  default dflt (item !! key).

(** A dict is true as a condition when it is not empty. *)
Definition dict_truth (item : gmap string Json) : bool :=
  bool_decide (item ≠ ∅).

(** The entry of the selected item under [role], when there is one. *)
Definition add_role (role : string) (reason : gmap string Json -> string)
    (selected : option (gmap string Json)) (outfit : list (string * Json))
  : exn + list (string * Json) :=
  match selected with
  | Some item =>
      if dict_truth item then
        match item !! "id" with
        | None => inl (KeyError "id")
        | Some id =>
            inr (items_set role
                   (JDict [("id", id); ("reason", JStr (reason item))]) outfit)
        end
      else inr outfit
  | None => inr outfit
  end.

Definition top_reason (item : gmap string Json) : string :=
  "Perfect " ++ str (get item "style" (JStr "casual")) ++ " "
  ++ str (get item "clothing_type" (JStr "top")) ++ " for this occasion".

Definition bottom_reason (item : gmap string Json) : string :=
  "Comfortable " ++ str (get item "color" (JStr "")) ++ " "
  ++ str (get item "clothing_type" (JStr "bottom")).

Definition demo_metadata : Json :=
  JDict [("model", JStr "demo-mode");
         ("cost_usd", JFloat PyFloat.zero);
         ("tokens_used", JInt 0);
         ("note", JStr "This is a demo response. Add OpenAI credits to use real AI recommendations.")].

(** The method as a function of its arguments. *)
Definition recommendation (user_request : string)
    (wardrobe_items : list (gmap string Json)) : exn + Json :=
  match select ["shirt"; "hoodie"] wardrobe_items with
  | inl e => inl e
  | inr tops =>
  match select ["pants"; "shorts"] wardrobe_items with
  | inl e => inl e
  | inr bottoms =>
  let selected_top := head tops in
  let selected_bottom := head bottoms in
  match add_role "top" top_reason selected_top [] with
  | inl e => inl e
  | inr outfit =>
  match add_role "bottom" bottom_reason selected_bottom outfit with
  | inl e => inl e
  | inr outfit =>
  let outfit := items_set "description"
                  (JStr ("A great outfit for " ++ user_request)) outfit in
  let outfit := items_set "styling_tips"
                  (JStr "Keep it simple and comfortable. Accessorize minimally.")
                  outfit in
  let outfit := items_set "confidence" (JStr "medium") outfit in
  inr (JDict [("outfit", JDict outfit);
              ("alternatives", JList []);
              ("confidence", JStr "medium");
              ("metadata", demo_metadata)])
  end end end end.

(** The method in the process of the live service: it reads no clock,
    owns no tracker and sends nothing. *)
Definition generate_outfit_recommendation (user_request : string)
    (wardrobe_items : list (gmap string Json)) : M Json :=
  lift (recommendation user_request wardrobe_items).

Definition get_usage_stats : M Json :=
  ret (JDict [("daily_requests", JInt 0);
              ("daily_limit", JInt 999);
              ("hourly_requests", JInt 0);
              ("hourly_limit", JInt 999);
              ("monthly_cost_usd", JFloat PyFloat.zero);
              ("monthly_budget_usd", JFloat (PyFloat.of_ratio 5 1));
              ("remaining_budget_usd", JFloat (PyFloat.of_ratio 5 1));
              ("can_make_request", JBool true);
              ("demo_mode", JBool true)]).

End Demo.

End DemoLLMService.

(** ** The inventory that reaches the services

    [OutfitRecommender._format_wardrobe_for_llm] makes the dicts of
    [wardrobe_items] from the rows of the table [clothing_items], where [id],
    [category] and [image_path] are never null. *)

Module OutfitRecommender.

Record ClothingItem := mk_item {
  item_id : Z;
  item_name : option string;
  item_category : string;
  item_image_path : string;
  item_clothing_type : option string;
  item_color : option string;
  item_secondary_color : option string;
  item_season : option string;
  item_style : option string;
  item_pattern : option string;
  item_material : option string;
  item_fit : option string
}.

Definition nullable (column : option string) : Json :=
  match column with
  | Some s => JStr s
  | None => JNull
  end.

Definition formatted_item (item : ClothingItem) : gmap string Json :=
  list_to_map
    [("id", JInt (item_id item));
     ("category", JStr (item_category item));
     ("name", nullable (item_name item));
     ("clothing_type", nullable (item_clothing_type item));
     ("color", nullable (item_color item));
     ("secondary_color", nullable (item_secondary_color item));
     ("season", nullable (item_season item));
     ("style", nullable (item_style item));
     ("pattern", nullable (item_pattern item));
     ("material", nullable (item_material item));
     ("fit", nullable (item_fit item));
     ("image_path", JStr (item_image_path item))].

Definition _format_wardrobe_for_llm (items : list ClothingItem)
  : list (gmap string Json) :=
  map formatted_item items.

End OutfitRecommender.

(** ** The estimate and the selection in the words of the specification *)

Module Spec.

(** The rate-table entry of the model, or the rates of the default model
    when the table has no entry for it. *)
Definition default_rates : LLMService.rates :=
  {| LLMService.input := PyFloat.of_ratio 5 10000;
     LLMService.output := PyFloat.of_ratio 15 10000 |}.

Definition table_rates (model_id : string) : LLMService.rates :=
  match LLMService.MODEL_COSTS !! model_id with
  | Some r => r
  | None => default_rates
  end.

(** [(input_tokens/1000)*input_rate + (output_tokens/1000)*output_rate] *)
Definition estimate (r : LLMService.rates) (input_tokens output_tokens : Z)
  : exn + float :=
  match int_truediv input_tokens 1000, int_truediv output_tokens 1000 with
  | inr i, inr o =>
      inr (PyFloat.add (PyFloat.mul i (LLMService.input r))
                       (PyFloat.mul o (LLMService.output r)))
  | inl e, _ => inl e
  | _, inl e => inl e
  end.

(** A candidate item carries a category and an id. *)
Definition candidate (item : gmap string Json) : Prop :=
  is_Some (item !! "category") /\ is_Some (item !! "id").

(** The category of the item is one of [cats]. *)
Definition has_category (cats : list string) (item : gmap string Json) : bool :=
  match item !! "category" with
  | Some (JStr c) => bool_decide (c ∈ cats)
  | _ => false
  end.

(** The id of the first candidate of the list whose category is in [cats]. *)
Definition first_id (cats : list string) (items : list (gmap string Json))
  : option Json :=
  match List.find (has_category cats) items with
  | Some item => item !! "id"
  | None => None
  end.

(** The id under [role] in the outfit of a recommendation. *)
Definition role_id (role : string) (recommendation : Json) : option Json :=
  match dict_get "outfit" recommendation with
  | Some outfit =>
      match dict_get role outfit with
      | Some entry => dict_get "id" entry
      | None => None
      end
  | None => None
  end.

Definition metadata (key : string) (recommendation : Json) : option Json :=
  match dict_get "metadata" recommendation with
  | Some m => dict_get key m
  | None => None
  end.

End Spec.

(** ** Histories of a tracker, and the outcomes the specification names *)

Module History.
Import UsageTracker.

(** What happens to a tracker between two decisions: its windows are
    brought up to date at some time, or a request is recorded. *)
Inductive call :=
| Reset (now : datetime)
| Record (cost : float).

Definition step (self : t) (c : call) : t :=
  match c with
  | Reset now => reset_if_needed now self
  | Record cost => record_request cost self
  end.

Definition run (calls : list call) (self : t) : t := fold_left step calls self.

(** The costs recorded by a history, oldest first. *)
Fixpoint recorded (calls : list call) : list float :=
  match calls with
  | [] => []
  | Reset _ :: calls => recorded calls
  | Record cost :: calls => cost :: recorded calls
  end.

(** The sum that [s = 0.0; for c in costs: s += c] leaves in [s]. *)
Definition float_sum (costs : list float) : float :=
  fold_left PyFloat.add costs PyFloat.zero.

(** Every update of the windows in the history happens at hour [h]. *)
Definition same_hour (h : Z) (c : call) : Prop :=
  match c with
  | Reset now => hour now = h
  | Record _ => True
  end.

(** No update of the windows in the history starts a new month for a
    tracker whose [monthly_reset] is that of [self]. *)
Definition same_month (self : t) (c : call) : Prop :=
  match c with
  | Reset now => month_condition (date_replace_day1 (date_of now)) self = false
  | Record _ => True
  end.

(** The outcome of a decision in the words of the specification: one
    reason per denial, monthly budget before daily before hourly. *)
Inductive Decision (self : t) : bool * string -> Prop :=
| MonthlyBudgetExceeded :
    PyFloat.ge (monthly_cost self) (monthly_budget self) = true ->
    Decision self (false, monthly_reason self)
| DailyLimitExceeded :
    PyFloat.ge (monthly_cost self) (monthly_budget self) = false ->
    max_daily self <= daily_count self ->
    Decision self (false, daily_reason self)
| HourlyLimitExceeded :
    PyFloat.ge (monthly_cost self) (monthly_budget self) = false ->
    daily_count self < max_daily self ->
    max_hourly self <= hourly_count self ->
    Decision self (false, hourly_reason self)
| Allowed :
    PyFloat.ge (monthly_cost self) (monthly_budget self) = false ->
    daily_count self < max_daily self ->
    hourly_count self < max_hourly self ->
    Decision self (true, "").

End History.

(** ** Trackers and times of the scenarios below *)

Module Scenario.
Import UsageTracker History.

Definition at_time (y m d h mi : Z) : datetime :=
  {| date_of := mk_date y m d; hour := h; minute := mi;
     second := 0; microsecond := 0 |}.

(** A tracker created on 20 January 2024 with a budget of $1.00, checked
    on 3 February, charged $1.50, and checked again on 15 February. *)
Definition jan20 : datetime := at_time 2024 1 20 9 0.
Definition feb03 : datetime := at_time 2024 2 3 10 0.
Definition feb15 : datetime := at_time 2024 2 15 11 0.

Definition created_in_january : t :=
  init jan20 jan20 jan20 230 10 (PyFloat.of_ratio 1 1).

Definition charged_in_february : t :=
  record_request (PyFloat.of_ratio 15 10) (reset_if_needed feb03 created_in_january).

(** A tracker allowed one request a day and $1.00 a month, created on
    20 January 2024, asked on 3 February at 10:00 and charged $1.50 for the
    request; it is asked again half an hour later. *)
Definition feb03_1030 : datetime := at_time 2024 2 3 10 30.

Definition one_a_day : t :=
  record_request (PyFloat.of_ratio 15 10)
    (reset_if_needed feb03 (init jan20 jan20 jan20 1 10 (PyFloat.of_ratio 1 1))).

(** A tracker with a budget of $5.00 created on 20 January 2024, and its
    February: asked on the 3rd and charged $1.50, asked on the 15th and
    charged $0.40. *)
Definition budget_of_five : t :=
  init jan20 jan20 jan20 230 10 (PyFloat.of_ratio 5 1).

Definition february : list call :=
  [Reset feb03; Record (PyFloat.of_ratio 15 10);
   Reset feb15; Record (PyFloat.of_ratio 4 10)].

(** A tracker created on 10 March 2024 at 14:00 that records ten requests
    in that hour and is next looked at two days later, at 14:05. *)
Definition mar10 : datetime := at_time 2024 3 10 14 0.
Definition mar12 : datetime := at_time 2024 3 12 14 5.

Definition full_hour : t :=
  run (repeat (Record (PyFloat.of_ratio 2 1000)) 10)
      (init mar10 mar10 mar10 230 10 (PyFloat.of_ratio 5 1)).

(** The same tracker, checked at 14:20 before each of its ten requests,
    and looked at again at 14:30. *)
Definition mar10_1420 : datetime := at_time 2024 3 10 14 20.
Definition mar10_1430 : datetime := at_time 2024 3 10 14 30.

Definition ten_requests : list call :=
  concat (repeat [Reset mar10_1420; Record (PyFloat.of_ratio 2 1000)] 10).

Definition fresh_hour : t :=
  init mar10 mar10 mar10 230 10 (PyFloat.of_ratio 5 1).

(** A tracker with each of its three limits reached. *)
Definition exhausted : t :=
  {| daily_count := 230;
     hourly_count := 10;
     monthly_cost := PyFloat.of_ratio 5 1;
     last_reset_day := date_of mar10;
     last_reset_hour := 14;
     monthly_reset := A_datetime (datetime_replace_day1 mar10);
     max_daily := 230;
     max_hourly := 10;
     monthly_budget := PyFloat.of_ratio 5 1 |}.

(** A process whose clock stands at 10 March 2024, 14:30, and whose
    provider answers every request with 1000 tokens in, 1000 tokens out
    and a text that [json.loads] rejects. *)
Definition clock (n : nat) : datetime := mar10_1430.

Definition client (n : nat) (req : ChatRequest) : exn + ChatResponse :=
  inr {| choices := [Some "not json"];
         usage := Some {| prompt_tokens := 1000; completion_tokens := 1000 |} |}.

Definition json_loads (text : option string) : exn + Json :=
  inl (JSONDecodeError "Expecting value: line 1 column 1 (char 0)").

Definition build_prompt (user_request : string)
    (wardrobe_items : list (gmap string Json)) : exn + string :=
  inr ("USER REQUEST: " ++ user_request).

Definition world_of (tracker : t) : World :=
  {| usage_tracker := tracker; clock_reads := 0; dispatched := [] |}.

(** [str] on the fields of a formatted wardrobe item. *)
Definition str (v : Json) : string :=
  match v with
  | JNull => "None"
  | JBool b => if b then "True" else "False"
  | JInt n => pretty n
  | JStr s => s
  | _ => ""
  end.

(** A wardrobe of one shirt and one pair of pants. *)
Definition shirt_and_pants : list OutfitRecommender.ClothingItem :=
  [ {| OutfitRecommender.item_id := 1;
       OutfitRecommender.item_name := Some "Oxford";
       OutfitRecommender.item_category := "shirt";
       OutfitRecommender.item_image_path := "uploads/1.png";
       OutfitRecommender.item_clothing_type := Some "button-up";
       OutfitRecommender.item_color := Some "blue";
       OutfitRecommender.item_secondary_color := None;
       OutfitRecommender.item_season := None;
       OutfitRecommender.item_style := Some "casual";
       OutfitRecommender.item_pattern := None;
       OutfitRecommender.item_material := None;
       OutfitRecommender.item_fit := None |};
    {| OutfitRecommender.item_id := 2;
       OutfitRecommender.item_name := None;
       OutfitRecommender.item_category := "pants";
       OutfitRecommender.item_image_path := "uploads/2.png";
       OutfitRecommender.item_clothing_type := Some "chinos";
       OutfitRecommender.item_color := Some "beige";
       OutfitRecommender.item_secondary_color := None;
       OutfitRecommender.item_season := None;
       OutfitRecommender.item_style := None;
       OutfitRecommender.item_pattern := None;
       OutfitRecommender.item_material := None;
       OutfitRecommender.item_fit := None |} ].

End Scenario.

(** ** [LLMService._build_outfit_prompt] *)

Module Prompt.

Definition nl : string := String (ascii_of_nat 10) EmptyString.
Definition dq : string := String (ascii_of_nat 34) EmptyString.

(** The truth value of an object used as a condition. *)
Definition truthy (v : Json) : bool :=
  match v with
  | JNull => false
  | JBool b => b
  | JInt n => negb (n =? 0)
  | JFloat (S754_zero _) => false
  | JFloat _ => true
  | JStr s => negb (String.eqb s "")
  | JList l => match l with [] => false | _ => true end
  | JDict kvs => match kvs with [] => false | _ => true end
  end.

(** The text before the request, between the request and the items, and
    after the items, line by line. *)
Definition before_request : list string :=
  [
   ("You are a professional fashion stylist helping someone choose an outfit from their wardrobe.");
   ("");
   ("USER REQUEST: " ++ dq)
  ].

Definition before_items : list string :=
  [
   (dq);
   ("");
   ("AVAILABLE WARDROBE ITEMS:")
  ].

Definition after_items : list string :=
  [
   ("");
   ("");
   ("YOUR TASK:");
   ("1. Select the best outfit combination that matches the user's request");
   ("2. Consider: season/weather, color coordination, style coherence, occasion appropriateness");
   ("3. Choose items that work well together");
   ("4. Provide styling tips");
   ("");
   ("RESPOND IN THIS EXACT JSON FORMAT:");
   ("{");
   ("  " ++ dq ++ "outfit" ++ dq ++ ": {");
   ("    " ++ dq ++ "top" ++ dq ++ ": {" ++ dq ++ "id" ++ dq ++ ": <item_id>, " ++ dq ++ "reason" ++ dq ++ ": " ++ dq ++ "brief reason" ++ dq ++ "},");
   ("    " ++ dq ++ "bottom" ++ dq ++ ": {" ++ dq ++ "id" ++ dq ++ ": <item_id>, " ++ dq ++ "reason" ++ dq ++ ": " ++ dq ++ "brief reason" ++ dq ++ "},");
   ("    " ++ dq ++ "additional" ++ dq ++ ": [{" ++ dq ++ "id" ++ dq ++ ": <item_id>, " ++ dq ++ "reason" ++ dq ++ ": " ++ dq ++ "brief reason" ++ dq ++ "}],");
   ("    " ++ dq ++ "description" ++ dq ++ ": " ++ dq ++ "1-2 sentence outfit description" ++ dq ++ ",");
   ("    " ++ dq ++ "styling_tips" ++ dq ++ ": " ++ dq ++ "2-3 practical styling tips" ++ dq);
   ("  },");
   ("  " ++ dq ++ "alternatives" ++ dq ++ ": [");
   ("    {" ++ dq ++ "top_id" ++ dq ++ ": <id>, " ++ dq ++ "bottom_id" ++ dq ++ ": <id>, " ++ dq ++ "reason" ++ dq ++ ": " ++ dq ++ "why this is a good alternative" ++ dq ++ "}");
   ("  ],");
   ("  " ++ dq ++ "confidence" ++ dq ++ ": " ++ dq ++ "high/medium/low based on wardrobe fit" ++ dq);
   ("}");
   ("");
   ("RULES:");
   ("- Only use IDs from the wardrobe above");
   ("- If no good match exists, suggest the closest option with lower confidence");
   ("- Keep responses concise but helpful");
   ("- Focus on practical fashion advice")
  ].

Section Builder.

(** The builtins [str.upper] and [str]; an f-string formats a field with
    [str]. *)
Variable upper : string -> string.
Variable str : Json -> string.

(** [if item.get(key): details.append(f"<label>{item[key]}")] *)
Definition detail (label key : string) (item : gmap string Json) : list string :=
  match item !! key with
  | Some v => if truthy v then [label ++ str v] else []
  | None => []
  end.

Definition details (item : gmap string Json) : list string :=
  (detail "Type: " "clothing_type" item
   ++ detail "Color: " "color" item
   ++ detail "Secondary: " "secondary_color" item
   ++ detail "Pattern: " "pattern" item
   ++ detail "Material: " "material" item
   ++ detail "Style: " "style" item
   ++ detail "Season: " "season" item
   ++ detail "Fit: " "fit" item
   ++ detail "Name: " "name" item)%list.

(** The text that one turn of the loop appends for the item numbered
    [idx]: the fields of the f-string are evaluated from left to right. *)
Definition item_text (idx : nat) (item : gmap string Json) : exn + string :=
  match item !! "category" with
  | None => inl (KeyError "category")
  | Some (JStr category) =>
      match item !! "id" with
      | None => inl (KeyError "id")
      | Some id =>
          let line := nl ++ pretty idx ++ ". [" ++ upper category ++ "] ID:" ++ str id in
          match details item with
          | [] => inr line
          | ds => inr (line ++ " - " ++ String.concat ", " ds)
          end
      end
  | Some _ => inl AttributeError
  end.

(** [for idx, item in enumerate(wardrobe_items, idx): items_text += ..] *)
Fixpoint loop (idx : nat) (wardrobe_items : list (gmap string Json))
    (items_text : string) : exn + string :=
  match wardrobe_items with
  | [] => inr items_text
  | item :: rest =>
      match item_text idx item with
      | inl e => inl e
      | inr text => loop (S idx) rest (items_text ++ text)
      end
  end.

Definition _build_outfit_prompt (user_request : string)
    (wardrobe_items : list (gmap string Json)) : exn + string :=
  match loop 1 wardrobe_items "" with
  | inl e => inl e
  | inr items_text =>
      inr (String.concat nl before_request ++ user_request
           ++ String.concat nl before_items ++ items_text
           ++ String.concat nl after_items)
  end.

End Builder.

(** An item the loop can print: its category is a text and it has an id. *)
Definition promptable (item : gmap string Json) : Prop :=
  (exists category, item !! "category" = Some (JStr category))
  /\ is_Some (item !! "id").

(** The exception of an item that is not. *)
Definition item_error (item : gmap string Json) : exn :=
  match item !! "category" with
  | None => KeyError "category"
  | Some (JStr _) => KeyError "id"
  | Some _ => AttributeError
  end.

(** The keys of an item that the loop reads. *)
Definition read_keys : list string :=
  ["category"; "id"; "clothing_type"; "color"; "secondary_color"; "pattern";
   "material"; "style"; "season"; "fit"; "name"].

End Prompt.

(** ** [OutfitRecommender._enrich_outfit_with_items]

    The answer of the model is an object of any shape; the operations below
    are those of Python on such an object, with the exceptions they raise. *)

#[global] Instance exn_ret : MRet (sum exn) := fun A a => inr a.
#[global] Instance exn_bind : MBind (sum exn) :=
  fun A B k r => match r with inl e => inl e | inr a => k a end.

Module Enrich.
Import OutfitRecommender.

(** [needle in text] on two texts. *)
Fixpoint is_substring (needle text : string) : bool :=
  String.prefix needle text
  || match text with
     | EmptyString => false
     | String _ rest => is_substring needle rest
     end.

(** [key in o] *)
Definition contains (key : string) (o : Json) : exn + bool :=
  match o with
  | JDict kvs => inr (bool_decide (is_Some (items_get key kvs)))
  | JList l =>
      inr (existsb (fun v => match v with JStr s => String.eqb s key | _ => false end) l)
  | JStr s => inr (is_substring key s)
  | _ => inl TypeError
  end.

(** [o[key]] *)
Definition subscript (key : string) (o : Json) : exn + Json :=
  match o with
  | JDict kvs =>
      match items_get key kvs with
      | Some v => inr v
      | None => inl (KeyError key)
      end
  | _ => inl TypeError
  end.

(** [o.get(key, dflt)]: only a dict has the method. *)
Definition get (o : Json) (key : string) (dflt : Json) : exn + Json :=
  match o with
  | JDict kvs => inr (default dflt (items_get key kvs))
  | _ => inl AttributeError
  end.

(** [for x in o]: the elements of a list, the keys of a dict, the
    characters of a text. *)
Definition iterate (o : Json) : exn + list Json :=
  match o with
  | JList l => inr l
  | JDict kvs => inr (map (fun kv => JStr (fst kv)) kvs)
  | JStr s => inr (map (fun c => JStr (String c EmptyString)) (list_ascii_of_string s))
  | _ => inl TypeError
  end.

(** The integer a float is equal to, if any. *)
Definition float_integer (x : float) : option Z :=
  match x with
  | S754_zero _ => Some 0
  | S754_finite s m (Zneg k) =>
      if Zpos m mod 2 ^ Zpos k =? 0
      then Some (if s then - (Zpos m / 2 ^ Zpos k) else Zpos m / 2 ^ Zpos k)
      else None
  | S754_finite s m e => Some (if s then - (Zpos m * 2 ^ e) else Zpos m * 2 ^ e)
  | _ => None
  end.

(** The key of [items_dict] that an object is equal to, if any; a list or
    a dict cannot be hashed. *)
Definition as_key (v : Json) : exn + option Z :=
  match v with
  | JInt n => inr (Some n)
  | JBool b => inr (Some (if b then 1 else 0))
  | JFloat x => inr (float_integer x)
  | JNull | JStr _ => inr None
  | JList _ | JDict _ => inl TypeError
  end.

(** A row of [clothing_items] with its [tags]. *)
Record Row := mk_row { row_item : ClothingItem; row_tags : Json }.

Definition _item_to_dict (r : Row) : Json :=
  let item := row_item r in
  JDict [("id", JInt (item_id item));
         ("name", nullable (item_name item));
         ("category", JStr (item_category item));
         ("image_path", JStr (item_image_path item));
         ("clothing_type", nullable (item_clothing_type item));
         ("color", nullable (item_color item));
         ("secondary_color", nullable (item_secondary_color item));
         ("season", nullable (item_season item));
         ("style", nullable (item_style item));
         ("pattern", nullable (item_pattern item));
         ("material", nullable (item_material item));
         ("fit", nullable (item_fit item));
         ("tags", row_tags r)].

(** [{item.id: item for item in wardrobe_items}]: the last row of an id
    stays. *)
Definition items_dict (wardrobe_items : list Row) : gmap Z Row :=
  foldl (fun d r => <[item_id (row_item r) := r]> d) ∅ wardrobe_items.

(** [items_dict[v]] under the test [if v and v in items_dict]. *)
Definition wardrobe_row (d : gmap Z Row) (v : Json) : exn + option Row :=
  if Prompt.truthy v
  then key ← as_key v; inr (key ≫= fun k => d !! k)
  else inr None.

(** The block of [top], and of [bottom]. *)
Definition enrich_role (d : gmap Z Row) (role : string) (outfit : Json)
    (enriched_outfit : list (string * Json)) : exn + list (string * Json) :=
  present ← contains role outfit;
  if (present : bool) then
    entry ← subscript role outfit;
    if Prompt.truthy entry then
      id ← get entry "id" JNull;
      row ← wardrobe_row d id;
      match (row : option Row) with
      | Some r =>
          reason ← get entry "reason" (JStr "");
          inr (items_set role
                  (JDict [("item", _item_to_dict r); ("reason", reason)])
                  enriched_outfit)
      | None => inr enriched_outfit
      end
    else inr enriched_outfit
  else inr enriched_outfit.

(** The loop over [outfit['additional']]. *)
Fixpoint additional_items (d : gmap Z Row) (elements : list Json) (acc : list Json)
  : exn + list Json :=
  match elements with
  | [] => inr acc
  | add_item :: rest =>
      id ← get add_item "id" JNull;
      row ← wardrobe_row d id;
      match (row : option Row) with
      | Some r =>
          reason ← get add_item "reason" (JStr "");
          additional_items d rest
            (acc ++ [JDict [("item", _item_to_dict r); ("reason", reason)]])
      | None => additional_items d rest acc
      end
  end.

Definition enrich_additional (d : gmap Z Row) (outfit : Json)
    (enriched_outfit : list (string * Json)) : exn + list (string * Json) :=
  present ← contains "additional" outfit;
  if (present : bool) then
    entry ← subscript "additional" outfit;
    if Prompt.truthy entry then
      elements ← iterate entry;
      added ← additional_items d elements [];
      inr (items_set "additional" (JList added) enriched_outfit)
    else inr enriched_outfit
  else inr enriched_outfit.

(** The loop over [outfit_response['alternatives']]. *)
Fixpoint alternative_items (d : gmap Z Row) (elements : list Json) (acc : list Json)
  : exn + list Json :=
  match elements with
  | [] => inr acc
  | alt :: rest =>
      top_id ← get alt "top_id" JNull;
      bottom_id ← get alt "bottom_id" JNull;
      reason ← get alt "reason" (JStr "");
      top ← wardrobe_row d top_id;
      bottom ← wardrobe_row d bottom_id;
      let alt_dict := [("reason", reason)] in
      let alt_dict :=
        match (top : option Row) with
        | Some r => items_set "top" (_item_to_dict r) alt_dict
        | None => alt_dict
        end in
      let alt_dict :=
        match (bottom : option Row) with
        | Some r => items_set "bottom" (_item_to_dict r) alt_dict
        | None => alt_dict
        end in
      match (top : option Row), (bottom : option Row) with
      | None, None => alternative_items d rest acc
      | _, _ => alternative_items d rest (acc ++ [JDict alt_dict])
      end
  end.

Definition _enrich_outfit_with_items (outfit_response : list (string * Json))
    (d : gmap Z Row) : exn + Json :=
  let metadata := default (JDict []) (items_get "metadata" outfit_response) in
  let outfit := default (JDict []) (items_get "outfit" outfit_response) in
  enriched_outfit ← enrich_role d "top" outfit [];
  enriched_outfit ← enrich_role d "bottom" outfit enriched_outfit;
  enriched_outfit ← enrich_additional d outfit enriched_outfit;
  description ← get outfit "description" (JStr "");
  let enriched_outfit := items_set "description" description enriched_outfit in
  styling_tips ← get outfit "styling_tips" (JStr "");
  let enriched_outfit := items_set "styling_tips" styling_tips enriched_outfit in
  alternatives ←
    match items_get "alternatives" outfit_response with
    | Some v => elements ← iterate v; alternative_items d elements []
    | None => inr []
    end;
  confidence ← get outfit "confidence" (JStr "medium");
  inr (JDict [("request_fulfilled", JBool true);
               ("outfit", JDict enriched_outfit);
               ("alternatives", JList alternatives);
               ("metadata", metadata);
               ("confidence", confidence)]).

(** An object that is the dict of a row of the wardrobe. *)
Definition from_wardrobe (d : gmap Z Row) (v : Json) : Prop :=
  exists k r, d !! k = Some r /\ v = _item_to_dict r.

(** The keys of the answer that the method reads. *)
Definition read_keys : list string := ["metadata"; "outfit"; "alternatives"].

(** An entry of the enriched outfit: a row of the wardrobe and a reason. *)
Definition entry_ok (d : gmap Z Row) (entry : Json) : Prop :=
  exists item reason,
    entry = JDict [("item", item); ("reason", reason)] /\ from_wardrobe d item.

Definition outfit_ok (d : gmap Z Row) (enriched_outfit : list (string * Json)) : Prop :=
  forall key v, items_get key enriched_outfit = Some v ->
    ((key = "top" \/ key = "bottom") -> entry_ok d v)
    /\ (key = "additional" -> exists l, v = JList l /\ Forall (entry_ok d) l).

(** An enriched alternative: it names a top or a bottom, and what it names
    is a row of the wardrobe. *)
Definition alternative_ok (d : gmap Z Row) (alt : Json) : Prop :=
  exists kvs,
    alt = JDict kvs
    /\ (forall role item, (role = "top" \/ role = "bottom") ->
          items_get role kvs = Some item -> from_wardrobe d item)
    /\ (is_Some (items_get "top" kvs) \/ is_Some (items_get "bottom" kvs)).

End Enrich.

(** ** The process of the application

    [llm_service.py] and [outfit_recommender.py] keep one service and one
    recommender per process, made on first use from the environment; the
    endpoints of [main.py] reach the service through them. *)

Module App.
Import OutfitRecommender.

(** What a construction or an endpoint raises: an exception of the
    services, the [ValueError] of a constructor, or the [NameError] of a
    name that the module does not define. *)
Inductive error :=
| Raised (e : exn)
| ValueError (msg : string)
| NameError (name : string).

(** The attributes of an [LLMService]; the client is made from the key. *)
Record LLM := mk_llm {
  provider : string;
  model : string;
  api_key : string;
  tracker : UsageTracker.t
}.

(** The globals [_llm_service] and [_outfit_recommender] (whose
    [llm_service] is the object of the first global), the readings of the
    clock so far and the requests sent. *)
Record Process := mk_process {
  _llm_service : option LLM;
  _outfit_recommender : bool;
  reads : nat;
  sent : list ChatRequest
}.

Definition P (A : Type) : Type := Process -> (error + A) * Process.

#[global] Instance P_ret : MRet P := fun A a p => (inr a, p).
#[global] Instance P_bind : MBind P :=
  fun A B k m p => match m p with
                   | (inr a, p') => k a p'
                   | (inl e, p') => (inl e, p')
                   end.

Definition fail {A} (e : error) : P A := fun p => (inl e, p).
Definition lift_parse {A} (r : exn + A) : P A :=
  fun p => (match r with inl e => inl (Raised e) | inr a => inr a end, p).

(** A conversion that raises a [ValueError] with the message on the left. *)
Definition lift_value {A} (r : string + A) : P A :=
  fun p => (match r with inl msg => inl (ValueError msg) | inr a => inr a end, p).

(** The arguments of [SavedOutfit(..)]. *)
Record SavedOutfit := mk_saved {
  saved_name : string;
  saved_description : Json;
  saved_gender : Json;
  saved_top_id : Json;
  saved_bottom_id : Json;
  saved_additional_items : list Json;
  saved_original_request : Json;
  saved_outfit_data : list (string * Json)
}.

(** The answer of an endpoint. *)
Inductive http :=
| Response (body : Json)
| HTTPException (status_code : Z) (detail : string).

Section Application.

(** The environment after [load_dotenv()]; the builtins [int] and [float]
    on a text, with the message of the [ValueError] they raise on one they
    cannot read; the builtins [str.upper], [str], [str.lower]; the text
    [str(e)] of an exception of another class than [Exception], [ValueError]
    and [NameError]; the clock, the provider and the parser of the
    services. *)
Variable environ : string -> option string.
Variable to_int : string -> string + Z.
Variable to_float : string -> string + float.
Variable clock : nat -> datetime.
Variable client : nat -> ChatRequest -> exn + ChatResponse.
Variable json_loads : option string -> exn + Json.
Variable upper : string -> string.
Variable str : Json -> string.
Variable lower : string -> string.
Variable other_text : error -> string.

(** [os.getenv(key, dflt)] *)
Definition getenv (key dflt : string) : string := default dflt (environ key).

Definition datetime_now : P datetime :=
  fun p => (inr (clock (reads p)),
            {| _llm_service := _llm_service p;
               _outfit_recommender := _outfit_recommender p;
               reads := S (reads p);
               sent := sent p |}).

(** [UsageTracker()] *)
Definition new_tracker : P UsageTracker.t :=
  now1 ← datetime_now;
  now2 ← datetime_now;
  now3 ← datetime_now;
  maxd ← lift_value (to_int (getenv "LLM_MAX_REQUESTS_PER_DAY" "230"));
  maxh ← lift_value (to_int (getenv "LLM_MAX_REQUESTS_PER_HOUR" "10"));
  budget ← lift_value (to_float (getenv "LLM_MONTHLY_BUDGET_USD" "5.00"));
  mret (UsageTracker.init now1 now2 now3 maxd maxh budget).

(** [LLMService()] *)
Definition new_service : P LLM :=
  let provider := getenv "LLM_PROVIDER" "openai" in
  let model := getenv "LLM_MODEL" "gpt-3.5-turbo" in
  usage_tracker ← new_tracker;
  if String.eqb provider "openai" then
    match environ "OPENAI_API_KEY" with
    | Some key =>
        if String.eqb key ""
        then fail (ValueError "OPENAI_API_KEY not found in environment variables")
        else mret {| provider := provider; model := model; api_key := key;
                     tracker := usage_tracker |}
    | None => fail (ValueError "OPENAI_API_KEY not found in environment variables")
    end
  else fail (ValueError ("Provider '" ++ provider ++ "' not yet implemented")).

Definition set_service (s : LLM) : P unit :=
  fun p => (inr tt, {| _llm_service := Some s;
                       _outfit_recommender := _outfit_recommender p;
                       reads := reads p;
                       sent := sent p |}).

Definition get_llm_service : P LLM :=
  fun p => match _llm_service p with
           | Some s => (inr s, p)
           | None => (s ← new_service; set_service s;; mret s) p
           end.

(** [OutfitRecommender()] keeps the service that [get_llm_service] gives. *)
Definition set_recommender : P unit :=
  fun p => (inr tt, {| _llm_service := _llm_service p;
                       _outfit_recommender := true;
                       reads := reads p;
                       sent := sent p |}).

Definition new_recommender : P unit :=
  llm_service ← get_llm_service; set_recommender.

Definition get_outfit_recommender : P unit :=
  fun p => if _outfit_recommender p then (inr tt, p) else new_recommender p.

(** A method of the service, run on the object of the process. *)
Definition on_service {A} (method : string -> M A) : P A :=
  fun p => match _llm_service p with
           | None => (inl (Raised AttributeError), p)
           | Some s =>
               let '(r, w) := method (model s)
                                {| usage_tracker := tracker s;
                                   clock_reads := reads p;
                                   dispatched := sent p |} in
               (match r with inl e => inl (Raised e) | inr a => inr a end,
                {| _llm_service :=
                     Some {| provider := provider s; model := model s;
                             api_key := api_key s; tracker := usage_tracker w |};
                   _outfit_recommender := _outfit_recommender p;
                   reads := clock_reads w;
                   sent := dispatched w |})
           end.

Definition no_items : Json :=
  JDict [("request_fulfilled", JBool false);
         ("error", JStr "No items in wardrobe");
         ("message", JStr "Please add some clothing items to your wardrobe first.")].

(** [OutfitRecommender.generate_outfit] on the rows that the query
    returns. *)
Definition generate_outfit (wardrobe_items : list Enrich.Row) (user_request : string)
  : P Json :=
  match wardrobe_items with
  | [] => mret no_items
  | _ =>
      let formatted_items := _format_wardrobe_for_llm (map Enrich.row_item wardrobe_items) in
      llm_response ←
        on_service (fun model =>
          LLMService.generate_outfit_recommendation clock client json_loads
            (Prompt._build_outfit_prompt upper str) model user_request formatted_items);
      let items_dict := Enrich.items_dict wardrobe_items in
      match (llm_response : Json) with
      | JDict outfit_response =>
          lift_parse (Enrich._enrich_outfit_with_items outfit_response items_dict)
      | _ => fail (Raised AttributeError)
      end
  end.

(** [OutfitRecommender.get_usage_stats] *)
Definition get_usage_stats : P Json :=
  on_service (fun _ => LLMService.get_usage_stats clock).

(** [str(e)] *)
Definition error_text (e : error) : string :=
  match e with
  | Raised (Exception msg) => msg
  | ValueError msg => msg
  | NameError name => "name '" ++ name ++ "' is not defined"
  | _ => other_text e
  end.

(** [POST /api/outfits/suggest] on the rows that the query returns. *)
Definition suggest_outfit (wardrobe_items : list Enrich.Row) (user_request : string)
  : Process -> http * Process :=
  fun p =>
    match (get_outfit_recommender;;
           (generate_outfit wardrobe_items user_request : P Json)) p with
    | (inr outfit, p') => (Response outfit, p')
    | (inl e, p') =>
        let error_msg := error_text e in
        if Enrich.is_substring "Rate limit exceeded" error_msg
           || Enrich.is_substring "budget limit" (lower error_msg)
        then (HTTPException 429 error_msg, p')
        else (HTTPException 500 ("Failed to generate outfit: " ++ error_msg), p')
    end.

(** [GET /api/outfits/usage] *)
Definition get_outfit_usage : Process -> http * Process :=
  fun p =>
    match (get_outfit_recommender;; (get_usage_stats : P Json)) p with
    | (inr stats, p') => (Response stats, p')
    | (inl e, p') => (HTTPException 500 (error_text e), p')
    end.

(** *** [POST /api/outfits/save] *)

(** [.strip().strip(..)] of the name that the model answers, and the
    session: [add], [commit] and [refresh] give the id and the name of the
    new row. *)
Variable strip_name : string -> string.
Variable db_save : SavedOutfit -> exn + Z * string.

Definition name_prompt (original_request description : Json) : string :=
  "Generate a short, creative, and catchy name (2-4 words max) for this outfit:"
  ++ Prompt.nl ++ "Request: " ++ str original_request
  ++ Prompt.nl ++ "Description: " ++ str description
  ++ Prompt.nl
  ++ Prompt.nl ++ "Examples: " ++ Prompt.dq ++ "Summer Breeze" ++ Prompt.dq ++ ", "
  ++ Prompt.dq ++ "Office Chic" ++ Prompt.dq ++ ", "
  ++ Prompt.dq ++ "Casual Friday" ++ Prompt.dq ++ ", "
  ++ Prompt.dq ++ "Date Night Glam" ++ Prompt.dq
  ++ Prompt.nl
  ++ Prompt.nl ++ "Respond with ONLY the outfit name, nothing else.".

(** The request for a name: one message, and no [response_format]. *)
Definition name_request (model prompt : string) : ChatRequest :=
  {| req_model := model;
     req_messages := [("user", prompt)];
     req_temperature := PyFloat.of_ratio 8 10;
     req_max_tokens := 20;
     req_response_format := "" |}.

(** The body of the inner [try]. *)
Definition name_body (prompt : string) (model : string) : M string :=
  response ← LLMService.create client (name_request model prompt);
  content ← lift (match choices response with
                   | [] => inl IndexError
                   | c :: _ => inr c
                   end);
  text ← lift (match (content : option string) with
                | None => inl AttributeError
                | Some text => inr text
                end);
  let outfit_name := strip_name text in
  u ← lift (match usage response with
             | None => inl AttributeError
             | Some u => inr u
             end);
  cost ← lift (LLMService._estimate_cost model (prompt_tokens u) (completion_tokens u));
  LLMService.tracker_record_request cost;;
  mret outfit_name.

(** The inner [try] with its handler: the handler catches every exception
    and reads [datetime], a name that [main.py] never imports. *)
Definition name_outfit (prompt : string) : P string :=
  fun p => match on_service (name_body prompt) p with
           | (inr outfit_name, p') => (inr outfit_name, p')
           | (inl _, p') => (inl (NameError "datetime"), p')
           end.

(** [v.get('item', {}).get('id')] *)
Definition item_id_of (v : Json) : exn + Json :=
  item ← Enrich.get v "item" (JDict []);
  Enrich.get item "id" JNull.

(** [outfit.get(role, {}).get('item', {}).get('id') if outfit.get(role)
    else None] *)
Definition role_id (outfit : Json) (role : string) : exn + Json :=
  v ← Enrich.get outfit role JNull;
  if Prompt.truthy v then item_id_of v else inr JNull.

Fixpoint additional_ids (elements : list Json) : exn + list Json :=
  match elements with
  | [] => inr []
  | item :: rest =>
      id ← item_id_of item;
      ids ← additional_ids rest;
      inr (id :: ids)
  end.

Definition save_body (outfit_data : list (string * Json)) : P Json :=
  let gender := default (JStr "female") (items_get "gender" outfit_data) in
  let original_request := default (JStr "") (items_get "original_request" outfit_data) in
  let outfit := default (JDict []) (items_get "outfit" outfit_data) in
  llm_service ← get_llm_service;
  description ← lift_parse (Enrich.get outfit "description" (JStr ""));
  outfit_name ← name_outfit (name_prompt original_request description);
  description ← lift_parse (Enrich.get outfit "description" JNull);
  top_id ← lift_parse (role_id outfit "top");
  bottom_id ← lift_parse (role_id outfit "bottom");
  additional ← lift_parse (Enrich.get outfit "additional" (JList []));
  elements ← lift_parse (Enrich.iterate additional);
  additional_items ← lift_parse (additional_ids elements);
  saved ← lift_parse (db_save {| saved_name := outfit_name;
                                  saved_description := description;
                                  saved_gender := gender;
                                  saved_top_id := top_id;
                                  saved_bottom_id := bottom_id;
                                  saved_additional_items := additional_items;
                                  saved_original_request := original_request;
                                  saved_outfit_data := outfit_data |});
  mret (JDict [("id", JInt (fst saved));
               ("name", JStr (snd saved));
               ("message", JStr "Outfit saved successfully!")]).

Definition save_outfit (outfit_data : list (string * Json))
  : Process -> http * Process :=
  fun p =>
    match save_body outfit_data p with
    | (inr body, p') => (Response body, p')
    | (inl e, p') => (HTTPException 500 (error_text e), p')
    end.

End Application.

(** An environment from which [LLMService()] can be made. *)
Definition configured (environ : string -> option string) (to_int : string -> string + Z)
    (to_float : string -> string + float) : Prop :=
  getenv environ "LLM_PROVIDER" "openai" = "openai"
  /\ (exists key, environ "OPENAI_API_KEY" = Some key /\ key <> "")
  /\ (exists maxd, to_int (getenv environ "LLM_MAX_REQUESTS_PER_DAY" "230") = inr maxd)
  /\ (exists maxh, to_int (getenv environ "LLM_MAX_REQUESTS_PER_HOUR" "10") = inr maxh)
  /\ (exists budget,
        to_float (getenv environ "LLM_MONTHLY_BUDGET_USD" "5.00") = inr budget).

(** The process after [n] more readings of the clock. *)
Definition after_reads (n : nat) (p : Process) : Process :=
  {| _llm_service := _llm_service p;
     _outfit_recommender := _outfit_recommender p;
     reads := n + reads p;
     sent := sent p |}.

(** The process once the recommender is made. *)
Definition with_recommender (p : Process) : Process :=
  {| _llm_service := _llm_service p;
     _outfit_recommender := true;
     reads := reads p;
     sent := sent p |}.

(** The dict of a row that the query returned. *)
Definition row_of (wardrobe_items : list Enrich.Row) (v : Json) : Prop :=
  exists r, r ∈ wardrobe_items /\ v = Enrich._item_to_dict r.

(** An answer of the provider under which the inner [try] of [save_outfit]
    raises: an exception, no choice, no content, or no usage. *)
Definition no_name_or_usage (answer : exn + ChatResponse) : Prop :=
  match answer with
  | inl _ => True
  | inr response =>
      match choices response with
      | Some _ :: _ => usage response = None
      | _ => True
      end
  end.

(** The service after [record_request(cost)] on its tracker. *)
Definition recorded (cost : float) (s : LLM) : LLM :=
  {| provider := provider s;
     model := model s;
     api_key := api_key s;
     tracker := UsageTracker.record_request cost (tracker s) |}.

End App.

(** ** What the demo service needs of a wardrobe *)

Module DemoNeeds.

Definition has_category_key (item : gmap string Json) : Prop :=
  is_Some (item !! "category").

(** The item selected for the categories [cats], if any, has an id. *)
Definition selected_has_id (cats : list string)
    (wardrobe_items : list (gmap string Json)) : Prop :=
  match List.find (Spec.has_category cats) wardrobe_items with
  | Some item => is_Some (item !! "id")
  | None => True
  end.

(** [item.category in cats] on a row of the inventory. *)
Definition row_in (cats : list string) (item : OutfitRecommender.ClothingItem) : bool :=
  bool_decide (OutfitRecommender.item_category item ∈ cats).

End DemoNeeds.

(** ** Providers, parsers and wardrobes of the further scenarios *)

Module Cases.

(** A provider that cannot be reached. *)
Definition unreachable (n : nat) (req : ChatRequest) : exn + ChatResponse :=
  inl (APIError "Connection error.").

(** An answer of the model that names a top and carries a [metadata] of
    its own, and a parser that reads it. *)
Definition answer : list (string * Json) :=
  [("outfit", JDict [("top", JDict [("id", JInt 1); ("reason", JStr "crisp")])]);
   ("metadata", JDict [("cost_usd", JInt 0)]);
   ("confidence", JStr "high")].

Definition parses_answer (text : option string) : exn + Json := inr (JDict answer).

(** A parser that reads a JSON array. *)
Definition parses_array (text : option string) : exn + Json := inr (JList []).

(** A dict without a category, and the wardrobe of the scenario with its
    image paths changed. *)
Definition no_category : gmap string Json := {[ "id" := JInt 7 ]}.

Definition upper_ascii (s : string) : string :=
  string_of_list_ascii
    (map (fun c => let n := nat_of_ascii c in
                   if (97 <=? n)%nat && (n <=? 122)%nat
                   then ascii_of_nat (n - 32) else c)
         (list_ascii_of_string s)).

Definition moved_images : list (gmap string Json) :=
  map (insert "image_path" (JStr "elsewhere.png"))
      (OutfitRecommender._format_wardrobe_for_llm Scenario.shirt_and_pants).

(** A wardrobe whose only shirt comes first and whose last dict has no
    category. *)
Definition shirt_then_no_category : list (gmap string Json) :=
  OutfitRecommender._format_wardrobe_for_llm Scenario.shirt_and_pants ++ [no_category].

(** The rows of the wardrobe of the scenario, without tags. *)
Definition rows : list Enrich.Row :=
  map (fun item => Enrich.mk_row item JNull) Scenario.shirt_and_pants.

(** An environment that sets the key and nothing else, one that sets
    nothing, and [int] and [float] on the defaults of the limits. *)
Definition environ_with_key (name : string) : option string :=
  if String.eqb name "OPENAI_API_KEY" then Some "sk-scenario" else None.

Definition environ_without_key (name : string) : option string := None.

Definition to_int (text : string) : string + Z :=
  if String.eqb text "230" then inr 230
  else if String.eqb text "10" then inr 10
  else inl ("invalid literal for int() with base 10: '" ++ text ++ "'").

Definition to_float (text : string) : string + float :=
  if String.eqb text "5.00" then inr (PyFloat.of_ratio 5 1)
  else inl ("could not convert string to float: '" ++ text ++ "'").

Definition lower_ascii (s : string) : string :=
  string_of_list_ascii
    (map (fun c => let n := nat_of_ascii c in
                   if (65 <=? n)%nat && (n <=? 90)%nat
                   then ascii_of_nat (n + 32) else c)
         (list_ascii_of_string s)).

(** [str(e)] of the exceptions that carry a message or a key. *)
Definition other_text (e : App.error) : string :=
  match e with
  | App.Raised (KeyError key) => "'" ++ key ++ "'"
  | App.Raised (JSONDecodeError msg) => msg
  | App.Raised (APIError msg) => msg
  | _ => ""
  end.

(** A process that has made nothing yet, and one whose service owns a
    given tracker. *)
Definition fresh : App.Process :=
  {| App._llm_service := None;
     App._outfit_recommender := false;
     App.reads := 0;
     App.sent := [] |}.

Definition service_of (tracker : UsageTracker.t) : App.LLM :=
  {| App.provider := "openai";
     App.model := "gpt-3.5-turbo";
     App.api_key := "sk-scenario";
     App.tracker := tracker |}.

Definition process_of (tracker : UsageTracker.t) : App.Process :=
  {| App._llm_service := Some (service_of tracker);
     App._outfit_recommender := true;
     App.reads := 0;
     App.sent := [] |}.

(** A provider that answers every request with a text and its usage. *)
Definition answers (n : nat) (req : ChatRequest) : exn + ChatResponse :=
  inr {| choices := [Some "Linen Days"];
         usage := Some {| prompt_tokens := 60; completion_tokens := 4 |} |}.

(** An outfit as the client of the API posts it for saving, a session that
    accepts every row, and a name that needs no stripping. *)
Definition outfit_data : list (string * Json) :=
  [("original_request", JStr "a day at the beach");
   ("outfit", JDict [("description", JStr "linen shirt and shorts")])].

Definition db_save (row : App.SavedOutfit) : exn + Z * string :=
  inr (1, App.saved_name row).

Definition strip_name (text : string) : string := text.

End Cases.

(** * Properties *)

(** ** Comparisons of floats *)

Lemma SFcompare_swap (x y : float) :
  SFcompare y x = CompOpp <$> SFcompare x y.
Proof.
  destruct x as [sx|sx| |sx mx ex], y as [sy|sy| |sy my ey]; simpl;
    try reflexivity; try (destruct sx; reflexivity); try (destruct sy; reflexivity);
    try (destruct sx, sy; reflexivity).
  destruct sx, sy; simpl; try reflexivity.
  - rewrite (Z.compare_antisym ey ex).
    destruct (ey ?= ex); simpl; try reflexivity.
    rewrite (Pos.compare_cont_antisym mx my Eq). simpl.
    destruct (Pos.compare_cont Eq mx my); reflexivity.
  - rewrite (Z.compare_antisym ey ex).
    destruct (ey ?= ex); simpl; try reflexivity.
    rewrite (Pos.compare_cont_antisym mx my Eq). reflexivity.
Qed.

Lemma lt_not_ge (x y : float) :
  PyFloat.lt x y = true -> PyFloat.ge x y = false.
Proof.
  unfold PyFloat.lt, PyFloat.ge, SFltb, SFleb.
  rewrite (SFcompare_swap x y).
  destruct (SFcompare x y) as [[]|]; simpl; congruence.
Qed.

(** ** Rounding never leaves the finite floats on small operands

    The two passes of [binary_round_aux] shift the mantissa right and raise
    the exponent by as much; a mantissa below [2^k] keeps the exponent far
    from [emax]. *)

Lemma digits2_pos_size (p : positive) : digits2_pos p = Pos.size p.
Proof. induction p; simpl; congruence. Qed.

Lemma Zdigits2_bound (m k : Z) : 0 <= k -> 0 <= m < 2 ^ k -> Zdigits2 m <= k.
Proof.
  intros Hk [Hm Hlt]. destruct m as [|p|p]; simpl; [lia| |lia].
  rewrite digits2_pos_size.
  pose proof (Pos.size_le p) as Hs.
  apply Pos2Z.pos_le_pos in Hs. rewrite Pos2Z.inj_pow in Hs.
  assert (2 ^ Z.pos (Pos.size p) < 2 ^ (k + 1)).
  { rewrite Z.pow_add_r by lia. change (Z.pos p~0) with (2 * Z.pos p) in Hs. lia. }
  apply Z.pow_lt_mono_r_iff in H; lia.
Qed.

Lemma iter_pos_invariant {A} (f : A -> A) (P : A -> Prop) :
  (forall x, P x -> P (f x)) -> forall n x, P x -> P (SpecFloat.iter_pos f n x).
Proof.
  intros Hf. induction n as [n IH|n IH|]; intros x Hx; simpl; auto.
Qed.

Lemma shr_1_bounds (M : Z) (mrs : shr_record) :
  0 <= shr_m mrs <= M -> 0 <= shr_m (shr_1 mrs) <= M.
Proof.
  destruct mrs as [m r s]. destruct m as [|[p|p|]|p]; simpl; lia.
Qed.

Lemma shr_bounds (M : Z) (mrs : shr_record) (e n : Z) :
  0 <= shr_m mrs <= M ->
  0 <= shr_m (fst (shr mrs e n)) <= M /\ snd (shr mrs e n) = Z.max e (e + n).
Proof.
  intros H. destruct n as [|p|p]; simpl; try (split; [exact H | lia]).
  split; [|lia]. apply (iter_pos_invariant shr_1 (fun x => 0 <= shr_m x <= M)); [|exact H].
  intros x; apply shr_1_bounds.
Qed.

Lemma shr_m_record_of_loc (m : Z) (l : location) : shr_m (shr_record_of_loc m l) = m.
Proof. destruct l as [|[]]; reflexivity. Qed.

Lemma shr_fexp_bounds (m e k : Z) (l : location) :
  0 <= k -> 0 <= m < 2 ^ k ->
  0 <= shr_m (fst (shr_fexp 53 1024 m e l)) <= m
  /\ snd (shr_fexp 53 1024 m e l) <= Z.max e (Z.max (k + e - 53) (-1074)).
Proof.
  intros Hk Hm. unfold shr_fexp.
  destruct (shr_bounds m (shr_record_of_loc m l) e
              (fexp 53 1024 (Zdigits2 m + e) - e)) as [Hb ->].
  { rewrite shr_m_record_of_loc; lia. }
  split; [exact Hb|].
  pose proof (Zdigits2_bound m k Hk Hm). unfold fexp, emin. lia.
Qed.

Lemma round_nearest_even_bounds (m : Z) (l : location) :
  0 <= m -> 0 <= round_nearest_even m l <= m + 1.
Proof.
  intros H. destruct l as [|[]]; simpl; try lia. destruct (Z.even m); lia.
Qed.

Lemma binary_round_aux_finite (sx : bool) (mx ex k : Z) (lx : location) :
  0 <= k -> 0 <= mx < 2 ^ k ->
  Z.max ex (Z.max (k + ex - 53) (-1074)) + Z.max 0 (k - 52) <= 971 ->
  PyFloat.is_finite (binary_round_aux 53 1024 sx mx ex lx) = true.
Proof.
  intros Hk Hm Hb. unfold binary_round_aux.
  pose proof (shr_fexp_bounds mx ex k lx Hk Hm) as [Hm1 He1].
  destruct (shr_fexp 53 1024 mx ex lx) as [mrs' e']; simpl in Hm1, He1.
  pose proof (round_nearest_even_bounds (shr_m mrs') (loc_of_shr_record mrs')
                ltac:(lia)) as Hr.
  set (m2 := round_nearest_even (shr_m mrs') (loc_of_shr_record mrs')) in *.
  assert (Hm2 : 0 <= m2 < 2 ^ (k + 1)).
  { rewrite Z.pow_add_r by lia. lia. }
  pose proof (shr_fexp_bounds m2 e' (k + 1) loc_Exact ltac:(lia) Hm2) as [Hm3 He3].
  destruct (shr_fexp 53 1024 m2 e' loc_Exact) as [mrs'' e'']; simpl in Hm3, He3.
  destruct (shr_m mrs'') as [|p|p]; [reflexivity| |lia].
  destruct (Z.leb_spec e'' (1024 - 53)); [reflexivity|lia].
Qed.

Lemma Zdigits2_gt (p : positive) : Z.pos p < 2 ^ Zdigits2 (Z.pos p).
Proof.
  simpl. rewrite digits2_pos_size.
  pose proof (Pos.size_gt p) as H. apply Pos2Z.pos_lt_pos in H.
  now rewrite Pos2Z.inj_pow in H.
Qed.

Lemma SFdiv_1000_finite (s : bool) (p : positive) :
  Z.pos p < 2 ^ 63 ->
  PyFloat.is_finite (SFdiv 53 1024 (S754_finite s p 0) (S754_finite false 1000 0)) = true.
Proof.
  intros Hp. unfold SFdiv, SFdiv_core_binary.
  change (Zdigits2 1000) with 10.
  pose proof (Zdigits2_gt p) as Hgt.
  pose proof (Zdigits2_bound (Z.pos p) 63 ltac:(lia) ltac:(lia)) as Hle.
  assert (Hd : 1 <= Zdigits2 (Z.pos p)) by (simpl; lia).
  set (d1 := Zdigits2 (Z.pos p)) in *.
  assert (He : Z.min (fexp 53 1024 (d1 + 0 - (10 + 0))) (0 - 0) = d1 - 63)
    by (unfold fexp, emin; lia).
  rewrite He.
  assert (Hm : 0 <= match 0 - 0 - (d1 - 63) with
                    | 0 => Z.pos p
                    | Z.pos _ => Z.shiftl (Z.pos p) (0 - 0 - (d1 - 63))
                    | Z.neg _ => 0
                    end < 2 ^ 63).
  { destruct (0 - 0 - (d1 - 63)) as [|k|k] eqn:Hs; [lia| |lia].
    rewrite Z.shiftl_mul_pow2 by lia.
    assert (Z.pos p * 2 ^ Z.pos k < 2 ^ d1 * 2 ^ Z.pos k)
      by (apply Z.mul_lt_mono_pos_r; lia).
    rewrite <- Z.pow_add_r in H by lia.
    replace (d1 + Z.pos k) with 63 in H by lia. lia. }
  set (m' := match 0 - 0 - (d1 - 63) with
             | 0 => Z.pos p
             | Z.pos _ => Z.shiftl (Z.pos p) (0 - 0 - (d1 - 63))
             | Z.neg _ => 0
             end) in *.
  pose proof (Z_div_mod m' 1000 ltac:(lia)) as Hdiv.
  destruct (Z.div_eucl m' 1000) as [q r]. destruct Hdiv as [Hq Hr].
  apply (binary_round_aux_finite _ q (d1 - 63) 63); lia.
Qed.

(** [n / 1000] raises nothing for a count of tokens below [2^63]. *)
Lemma int_truediv_1000_total (n : Z) :
  0 <= n < 2 ^ 63 -> exists q, int_truediv n 1000 = inr q.
Proof.
  intros [Hn Hlt]. unfold int_truediv. simpl (1000 =? 0).
  assert (Hfin : PyFloat.is_finite (PyFloat.of_ratio n 1000) = true).
  { destruct n as [|p|p]; [reflexivity| |lia].
    apply SFdiv_1000_finite; exact Hlt. }
  rewrite Hfin. eauto.
Qed.

(** ** The windows after [reset_if_needed] *)

Section ResetFields.
Import UsageTracker.
Variables (now : datetime) (self : t).

(** The three tests of [reset_if_needed] read fields that the earlier
    branches do not write, so each window is decided on [self]. *)
Lemma reset_if_needed_fields :
  reset_if_needed now self =
  let day := date_gt (date_of now) (last_reset_day self) in
  let same_hour := hour now =? last_reset_hour self in
  let month := month_condition (date_replace_day1 (date_of now)) self in
  {| daily_count := if day then 0 else daily_count self;
     hourly_count := if same_hour then hourly_count self else 0;
     monthly_cost := if month then PyFloat.zero else monthly_cost self;
     last_reset_day := if day then date_of now else last_reset_day self;
     last_reset_hour := if same_hour then last_reset_hour self else hour now;
     monthly_reset := if month then A_date (date_replace_day1 (date_of now))
                      else monthly_reset self;
     max_daily := max_daily self;
     max_hourly := max_hourly self;
     monthly_budget := monthly_budget self |}.
Proof.
  destruct self as [dc hc mc lrd lrh mr md mh mb].
  unfold reset_if_needed, month_condition; simpl.
  destruct (date_gt (date_of now) lrd); simpl;
    destruct (hour now =? lrh); simpl;
    destruct mr as [dt|d]; simpl;
    try destruct (date_gt (date_replace_day1 (date_of now)) (date_of dt));
    reflexivity.
Qed.

Lemma reset_daily_count :
  daily_count (reset_if_needed now self)
  = if date_gt (date_of now) (last_reset_day self) then 0 else daily_count self.
Proof. rewrite reset_if_needed_fields; reflexivity. Qed.

Lemma reset_hourly_count :
  hourly_count (reset_if_needed now self)
  = if hour now =? last_reset_hour self then hourly_count self else 0.
Proof. rewrite reset_if_needed_fields; reflexivity. Qed.

Lemma reset_last_reset_hour :
  last_reset_hour (reset_if_needed now self) = hour now.
Proof.
  rewrite reset_if_needed_fields; simpl.
  destruct (Z.eqb_spec (hour now) (last_reset_hour self)); congruence.
Qed.

Lemma reset_monthly_cost :
  monthly_cost (reset_if_needed now self)
  = if month_condition (date_replace_day1 (date_of now)) self
    then PyFloat.zero else monthly_cost self.
Proof. rewrite reset_if_needed_fields; reflexivity. Qed.

Lemma reset_monthly_reset :
  monthly_reset (reset_if_needed now self)
  = if month_condition (date_replace_day1 (date_of now)) self
    then A_date (date_replace_day1 (date_of now)) else monthly_reset self.
Proof. rewrite reset_if_needed_fields; reflexivity. Qed.

Lemma reset_limits :
  max_daily (reset_if_needed now self) = max_daily self
  /\ max_hourly (reset_if_needed now self) = max_hourly self
  /\ monthly_budget (reset_if_needed now self) = monthly_budget self.
Proof. rewrite reset_if_needed_fields; auto. Qed.

End ResetFields.

(** ** The decision of [can_make_request] *)

Section Decision.
Import UsageTracker History.

Lemma decide_request_Decision (self : t) : Decision self (decide_request self).
Proof.
  unfold decide_request.
  destruct (PyFloat.ge (monthly_cost self) (monthly_budget self)) eqn:Hm.
  { now apply MonthlyBudgetExceeded. }
  rewrite !Z.geb_leb.
  destruct (Z.leb_spec (max_daily self) (daily_count self)).
  { now apply DailyLimitExceeded. }
  destruct (Z.leb_spec (max_hourly self) (hourly_count self)).
  { now apply HourlyLimitExceeded. }
  now apply Allowed.
Qed.

(** The three reasons are three different texts, none of them empty. *)
Lemma reasons_distinct (self : t) :
  monthly_reason self <> daily_reason self
  /\ monthly_reason self <> hourly_reason self
  /\ daily_reason self <> hourly_reason self
  /\ monthly_reason self <> "" /\ daily_reason self <> ""
  /\ hourly_reason self <> "".
Proof.
  unfold monthly_reason, daily_reason, hourly_reason; simpl.
  repeat split; discriminate.
Qed.

(** A tracker has one outcome: the cases of [Decision] exclude each other. *)
Lemma Decision_functional (self : t) (r1 r2 : bool * string) :
  Decision self r1 -> Decision self r2 -> r1 = r2.
Proof.
  intros H1 H2; destruct H1; destruct H2; try reflexivity; try congruence; lia.
Qed.

Lemma Decision_decide_request (self : t) (r : bool * string) :
  Decision self r -> decide_request self = r.
Proof.
  intros H. apply (Decision_functional self); [apply decide_request_Decision | exact H].
Qed.

End Decision.

(** On the tracker that [reset_if_needed] leaves, the answer of
    [can_make_request] is the outcome of the precedence: the monthly-budget
    reason when [monthly_cost >= monthly_budget] (whatever the counts), else
    the daily reason when [daily_count >= max_daily], else the hourly reason
    when [hourly_count >= max_hourly], else allowed with the empty reason; no
    other outcome fits that tracker, and the three reasons are three
    different texts, none of them empty. *)
Theorem can_make_request_precedence (now : datetime) (self : UsageTracker.t) :
  fst (UsageTracker.can_make_request now self) = UsageTracker.reset_if_needed now self
  /\ History.Decision (UsageTracker.reset_if_needed now self)
       (snd (UsageTracker.can_make_request now self))
  /\ (forall outcome : bool * string,
        History.Decision (UsageTracker.reset_if_needed now self) outcome ->
        outcome = snd (UsageTracker.can_make_request now self))
  /\ UsageTracker.monthly_reason self
     = "Monthly budget limit reached ($"
       ++ PyFloat.format_f 2 (UsageTracker.monthly_budget self) ++ ")"
  /\ UsageTracker.daily_reason self
     = "Daily request limit reached (" ++ pretty (UsageTracker.max_daily self)
       ++ " requests)"
  /\ UsageTracker.hourly_reason self
     = "Hourly request limit reached (" ++ pretty (UsageTracker.max_hourly self)
       ++ " requests)".
Proof.
  split; [reflexivity|]. split; [apply decide_request_Decision|].
  split; [|repeat split].
  intros outcome H. symmetry. now apply Decision_decide_request.
Qed.

(** C1. The tracker of the scenario is allowed one request a day and $1.00
    a month; it stored a [date] in [monthly_reset] on 3 February at 10:00 and
    recorded one request of $1.50. Half an hour later no boundary has been
    crossed, [monthly_cost >= monthly_budget] and [daily_count >= max_daily]
    both hold, and [can_make_request] answers with the daily reason, not with
    the monthly-budget reason: its [reset_if_needed] has zeroed the cost
    first. *)
Theorem can_make_request_skips_the_monthly_reason :
  PyFloat.ge (UsageTracker.monthly_cost Scenario.one_a_day)
    (UsageTracker.monthly_budget Scenario.one_a_day) = true
  /\ UsageTracker.max_daily Scenario.one_a_day
     <= UsageTracker.daily_count Scenario.one_a_day
  /\ date_gt (date_of Scenario.feb03_1030)
       (UsageTracker.last_reset_day Scenario.one_a_day) = false
  /\ hour Scenario.feb03_1030 = UsageTracker.last_reset_hour Scenario.one_a_day
  /\ UsageTracker.monthly_reset Scenario.one_a_day
     = A_date (date_replace_day1 (date_of Scenario.feb03_1030))
  /\ UsageTracker.monthly_reason Scenario.one_a_day
     = "Monthly budget limit reached ($1.00)"
  /\ UsageTracker.monthly_cost
       (fst (UsageTracker.can_make_request Scenario.feb03_1030 Scenario.one_a_day))
     = PyFloat.zero
  /\ snd (UsageTracker.can_make_request Scenario.feb03_1030 Scenario.one_a_day)
     = (false, "Daily request limit reached (1 requests)").
Proof. vm_compute. repeat split; try reflexivity. discriminate. Qed.

(** ** The monthly window *)

Section MonthlyWindow.
Import UsageTracker.
Variables (now : datetime) (self : t).

(** As long as [monthly_reset] holds the [datetime] of the constructor,
    the cost is zeroed exactly when the first of the current month is
    later than the first of the recorded month. *)
Lemma reset_monthly_cost_datetime (dt : datetime) :
  monthly_reset self = A_datetime dt ->
  monthly_cost (reset_if_needed now self)
  = if date_gt (date_replace_day1 (date_of now)) (date_of dt)
    then PyFloat.zero else monthly_cost self.
Proof.
  intros H. rewrite reset_monthly_cost. unfold month_condition. now rewrite H.
Qed.

(** Once [monthly_reset] holds a [date], every call zeroes the cost. *)
Lemma reset_monthly_cost_date (d : date) :
  monthly_reset self = A_date d ->
  monthly_cost (reset_if_needed now self) = PyFloat.zero
  /\ monthly_reset (reset_if_needed now self)
     = A_date (date_replace_day1 (date_of now)).
Proof.
  intros H. rewrite reset_monthly_cost, reset_monthly_reset.
  unfold month_condition. now rewrite H.
Qed.

(** [get_usage_stats] brings the windows up to date twice, once itself
    and once through [can_make_request]. *)
Lemma get_usage_stats_tracker (now2 : datetime) :
  fst (get_usage_stats now now2 self)
  = reset_if_needed now2 (reset_if_needed now self).
Proof.
  unfold get_usage_stats, can_make_request.
  destruct (decide_request _) as [allowed reason]. reflexivity.
Qed.

End MonthlyWindow.

(** C2. The tracker of the scenario recorded its monthly reset on
    1 February and holds $1.50 against a budget of $1.00. On 15 February the
    month has not advanced, and [reset_if_needed] zeroes [monthly_cost] all
    the same: the request that the budget forbids is allowed. *)
Theorem reset_if_needed_zeroes_within_month :
  UsageTracker.monthly_reset Scenario.charged_in_february = A_date (mk_date 2024 2 1)
  /\ date_gt (date_replace_day1 (date_of Scenario.feb15)) (mk_date 2024 2 1) = false
  /\ UsageTracker.monthly_cost Scenario.charged_in_february = PyFloat.of_ratio 15 10
  /\ UsageTracker.monthly_cost
       (UsageTracker.reset_if_needed Scenario.feb15 Scenario.charged_in_february)
     = PyFloat.zero
  /\ PyFloat.ge (UsageTracker.monthly_cost Scenario.charged_in_february)
       (UsageTracker.monthly_budget Scenario.charged_in_february) = true
  /\ snd (UsageTracker.can_make_request Scenario.feb15 Scenario.charged_in_february)
     = (true, "").
Proof. vm_compute. repeat split; reflexivity. Qed.

(** ** The daily and hourly windows *)

Section DailyWindow.
Import UsageTracker.
Variables (now : datetime) (self : t).

(** After a change of date the daily count is zero; the hourly count is
    zeroed when the hour of the day differs from the recorded one, and
    kept when it is the same number. *)
Lemma reset_after_days :
  date_gt (date_of now) (last_reset_day self) = true ->
  daily_count (reset_if_needed now self) = 0
  /\ (hour now <> last_reset_hour self ->
      hourly_count (reset_if_needed now self) = 0)
  /\ (hour now = last_reset_hour self ->
      hourly_count (reset_if_needed now self) = hourly_count self).
Proof.
  intros H. rewrite reset_daily_count, reset_hourly_count, H.
  destruct (Z.eqb_spec (hour now) (last_reset_hour self)); intuition congruence.
Qed.

End DailyWindow.

(** C4. The tracker of the scenario filled its hour on 10 March between
    14:00 and 15:00 and is idle until 12 March, 14:05. Two date boundaries
    were crossed; [reset_if_needed] zeroes [daily_count] and keeps the ten
    requests of two days before in [hourly_count], so the first request of the
    new window is denied for the hourly limit. *)
Theorem reset_if_needed_keeps_hourly_count_across_days :
  date_gt (date_of Scenario.mar12) (UsageTracker.last_reset_day Scenario.full_hour) = true
  /\ hour Scenario.mar12 = UsageTracker.last_reset_hour Scenario.full_hour
  /\ UsageTracker.daily_count
       (UsageTracker.reset_if_needed Scenario.mar12 Scenario.full_hour) = 0
  /\ UsageTracker.hourly_count
       (UsageTracker.reset_if_needed Scenario.mar12 Scenario.full_hour) = 10
  /\ snd (UsageTracker.can_make_request Scenario.mar12 Scenario.full_hour)
     = (false, "Hourly request limit reached (10 requests)").
Proof. vm_compute. repeat split; reflexivity. Qed.

(** ** Recording requests *)

Section Recording.
Import UsageTracker History.

Lemma run_cons (c : call) (calls : list call) (self : t) :
  run (c :: calls) self = run calls (step self c).
Proof. reflexivity. Qed.

Lemma step_limits (c : call) (self : t) :
  max_daily (step self c) = max_daily self
  /\ max_hourly (step self c) = max_hourly self
  /\ monthly_budget (step self c) = monthly_budget self.
Proof. destruct c; simpl; [apply reset_limits | auto]. Qed.

Lemma run_limits (calls : list call) (self : t) :
  max_daily (run calls self) = max_daily self
  /\ max_hourly (run calls self) = max_hourly self
  /\ monthly_budget (run calls self) = monthly_budget self.
Proof.
  revert self; induction calls as [|c calls IH]; intros self; [auto|].
  rewrite run_cons.
  destruct (IH (step self c)) as (-> & -> & ->). apply step_limits.
Qed.

(** Inside one hour every recorded request counts, and nothing else
    changes the hourly count. *)
Lemma run_hourly_count (calls : list call) (self : t) :
  Forall (same_hour (last_reset_hour self)) calls ->
  hourly_count (run calls self)
  = hourly_count self + Z.of_nat (length (recorded calls))
  /\ last_reset_hour (run calls self) = last_reset_hour self.
Proof.
  revert self; induction calls as [|c calls IH]; intros self Hall.
  { simpl; split; [lia | reflexivity]. }
  inversion Hall as [|? ? Hc Hcalls]; subst.
  rewrite run_cons. destruct c as [now|cost]; simpl in *.
  - assert (Hh : last_reset_hour (reset_if_needed now self) = last_reset_hour self)
      by (rewrite reset_last_reset_hour; exact Hc).
    destruct (IH (reset_if_needed now self)) as [-> ->];
      [rewrite Hh; exact Hcalls|].
    rewrite reset_hourly_count, Hc, Z.eqb_refl. auto.
  - destruct (IH (record_request cost self)) as [-> ->]; [exact Hcalls|].
    simpl; split; [lia | reflexivity].
Qed.

(** While no update of the windows starts a new month, the monthly cost
    accumulates the recorded costs, in order. *)
Lemma run_monthly_cost (calls : list call) (self : t) :
  Forall (same_month self) calls ->
  monthly_cost (run calls self)
  = fold_left PyFloat.add (recorded calls) (monthly_cost self)
  /\ monthly_reset (run calls self) = monthly_reset self.
Proof.
  revert self; induction calls as [|c calls IH]; intros self Hall; [auto|].
  inversion Hall as [|? ? Hc Hcalls]; subst.
  assert (Hsame : forall s', monthly_reset s' = monthly_reset self ->
                             Forall (same_month s') calls).
  { intros s' Hs'. eapply Forall_impl; [exact Hcalls|].
    intros [now|cost]; simpl; [|auto].
    unfold month_condition. now rewrite Hs'. }
  rewrite run_cons. destruct c as [now|cost]; simpl in *.
  - assert (Hr : monthly_reset (reset_if_needed now self) = monthly_reset self)
      by (rewrite reset_monthly_reset, Hc; reflexivity).
    destruct (IH (reset_if_needed now self)) as [-> ->]; [auto|].
    rewrite reset_monthly_cost, Hc. auto.
  - destruct (IH (record_request cost self)) as [-> ->]; [auto|]. auto.
Qed.

End Recording.

(** A tracker starts an hour with [hourly_count = 0]; requests are
    recorded and the windows are brought up to date any number of times in
    that hour, and [can_make_request] is called in the same hour while the
    tracker it decides on has headroom in the monthly budget and in the daily
    limit. After exactly [max_hourly] recorded requests the answer is the
    hourly denial; after fewer it is [(true, "")]. An hour that the tracker
    enters with a count that is not zero is outside this statement. *)
Theorem hourly_limit_after_max_hourly_records
    (now : datetime) (calls : list History.call) (self : UsageTracker.t) :
  UsageTracker.hourly_count self = 0 ->
  Forall (History.same_hour (UsageTracker.last_reset_hour self)) calls ->
  hour now = UsageTracker.last_reset_hour self ->
  PyFloat.lt
    (UsageTracker.monthly_cost (UsageTracker.reset_if_needed now (History.run calls self)))
    (UsageTracker.monthly_budget self) = true ->
  UsageTracker.daily_count (UsageTracker.reset_if_needed now (History.run calls self))
  < UsageTracker.max_daily self ->
  (Z.of_nat (length (History.recorded calls)) = UsageTracker.max_hourly self ->
   snd (UsageTracker.can_make_request now (History.run calls self))
   = (false, UsageTracker.hourly_reason self))
  /\ (Z.of_nat (length (History.recorded calls)) < UsageTracker.max_hourly self ->
      snd (UsageTracker.can_make_request now (History.run calls self)) = (true, "")).
Proof.
  intros H0 Hcalls Hnow Hcost Hdaily.
  destruct (run_hourly_count calls self Hcalls) as [Hh Hl].
  destruct (run_limits calls self) as (Hmd & Hmh & Hmb).
  destruct (reset_limits now (History.run calls self)) as (Hmd' & Hmh' & Hmb').
  set (s := UsageTracker.reset_if_needed now (History.run calls self)) in *.
  assert (Hhc : UsageTracker.hourly_count s = Z.of_nat (length (History.recorded calls))).
  { unfold s. rewrite reset_hourly_count, Hl, Hnow, Z.eqb_refl, Hh, H0. lia. }
  assert (Hge : PyFloat.ge (UsageTracker.monthly_cost s) (UsageTracker.monthly_budget s) = false).
  { apply lt_not_ge. rewrite Hmb', Hmb. exact Hcost. }
  assert (Hd : UsageTracker.daily_count s < UsageTracker.max_daily s) by lia.
  change (snd (UsageTracker.can_make_request now (History.run calls self)))
    with (UsageTracker.decide_request s).
  split; intros Hn; apply Decision_decide_request.
  - replace (UsageTracker.hourly_reason self) with (UsageTracker.hourly_reason s)
      by (unfold UsageTracker.hourly_reason; congruence).
    apply History.HourlyLimitExceeded; [exact Hge | exact Hd | lia].
  - apply History.Allowed; [exact Hge | exact Hd | lia].
Qed.

Lemma hourly_limit_after_max_hourly_records_witness :
  UsageTracker.hourly_count Scenario.fresh_hour = 0
  /\ hour Scenario.mar10_1430 = UsageTracker.last_reset_hour Scenario.fresh_hour
  /\ Z.of_nat (length (History.recorded Scenario.ten_requests))
     = UsageTracker.max_hourly Scenario.fresh_hour
  /\ snd (UsageTracker.can_make_request Scenario.mar10_1430
            (History.run Scenario.ten_requests Scenario.fresh_hour))
     = (false, "Hourly request limit reached (10 requests)").
Proof.
  split; [reflexivity|]. split; [reflexivity|]. split; [reflexivity|].
  refine (proj1 (hourly_limit_after_max_hourly_records
                   Scenario.mar10_1430 Scenario.ten_requests Scenario.fresh_hour
                   _ _ _ _ _) _).
  - reflexivity.
  - repeat constructor.
  - reflexivity.
  - vm_compute; reflexivity.
  - vm_compute; reflexivity.
  - reflexivity.
Defined.

(** C3. The tracker of the scenario filled its hour on 10 March between
    14:00 and 15:00 and is asked next on 12 March at 14:05: a new hour
    window, in which nothing has been recorded, with headroom in the monthly
    budget and, after the daily reset, in the daily limit. The answer is the
    hourly denial, not [(true, "")]: the count of two days before is still
    there, because the hour of the day is the same number. *)
Theorem new_hour_window_denies_before_any_record :
  date_gt (date_of Scenario.mar12) (UsageTracker.last_reset_day Scenario.full_hour) = true
  /\ History.recorded [History.Reset Scenario.mar12] = []
  /\ 0 < UsageTracker.max_hourly Scenario.full_hour
  /\ PyFloat.lt
       (UsageTracker.monthly_cost
          (fst (UsageTracker.can_make_request Scenario.mar12 Scenario.full_hour)))
       (UsageTracker.monthly_budget Scenario.full_hour) = true
  /\ UsageTracker.daily_count
       (fst (UsageTracker.can_make_request Scenario.mar12 Scenario.full_hour))
     < UsageTracker.max_daily Scenario.full_hour
  /\ UsageTracker.hourly_count
       (fst (UsageTracker.can_make_request Scenario.mar12 Scenario.full_hour))
     = UsageTracker.hourly_count Scenario.full_hour
  /\ snd (UsageTracker.can_make_request Scenario.mar12 Scenario.full_hour)
     = (false, "Hourly request limit reached (10 requests)")
  /\ snd (UsageTracker.can_make_request Scenario.mar12 Scenario.full_hour)
     <> (true, "").
Proof. vm_compute. repeat split; try reflexivity. discriminate. Qed.

(** From a monthly cost of zero, as a monthly reset leaves it, and
    through any history in which no [reset_if_needed] zeroes the cost,
    [monthly_cost] is the sum of the recorded costs; and each
    [record_request] adds exactly one to [daily_count] and to
    [hourly_count]. Once [monthly_reset] holds a [date] every
    [reset_if_needed] zeroes the cost, and no history with one is covered. *)
Theorem monthly_cost_is_sum_of_recorded_costs
    (calls : list History.call) (self : UsageTracker.t) :
  UsageTracker.monthly_cost self = PyFloat.zero ->
  Forall (History.same_month self) calls ->
  UsageTracker.monthly_cost (History.run calls self)
  = History.float_sum (History.recorded calls)
  /\ (forall (cost : float) (s : UsageTracker.t),
        UsageTracker.daily_count (UsageTracker.record_request cost s)
        = UsageTracker.daily_count s + 1
        /\ UsageTracker.hourly_count (UsageTracker.record_request cost s)
           = UsageTracker.hourly_count s + 1).
Proof.
  intros H0 Hcalls. split.
  - destruct (run_monthly_cost calls self Hcalls) as [-> _].
    unfold History.float_sum. now rewrite H0.
  - intros cost s. split; reflexivity.
Qed.

Lemma monthly_cost_is_sum_of_recorded_costs_witness :
  UsageTracker.monthly_cost Scenario.fresh_hour = PyFloat.zero
  /\ UsageTracker.monthly_cost (History.run Scenario.ten_requests Scenario.fresh_hour)
     = History.float_sum (repeat (PyFloat.of_ratio 2 1000) 10).
Proof.
  split; [reflexivity|].
  refine (proj1 (monthly_cost_is_sum_of_recorded_costs
                   Scenario.ten_requests Scenario.fresh_hour _ _)).
  - reflexivity.
  - repeat constructor.
Defined.

(** C7. The tracker of the scenario, with a budget of $5.00, is asked on
    3 February, which is its monthly reset, and charged $1.50; it is asked
    again on 15 February, in the same month, and charged $0.40. The costs
    recorded since the monthly reset sum to 1.9, and [monthly_cost] is 0.4:
    the second [reset_if_needed] has zeroed the cost without a change of
    month, and the $1.50 of the first request is lost. *)
Theorem monthly_cost_forgets_a_request_within_the_month :
  UsageTracker.monthly_cost
    (UsageTracker.reset_if_needed Scenario.feb03 Scenario.budget_of_five) = PyFloat.zero
  /\ UsageTracker.monthly_reset
       (UsageTracker.reset_if_needed Scenario.feb03 Scenario.budget_of_five)
     = A_date (mk_date 2024 2 1)
  /\ date_replace_day1 (date_of Scenario.feb15) = mk_date 2024 2 1
  /\ History.recorded Scenario.february
     = [PyFloat.of_ratio 15 10; PyFloat.of_ratio 4 10]
  /\ History.float_sum (History.recorded Scenario.february) = PyFloat.of_ratio 19 10
  /\ UsageTracker.monthly_cost (History.run Scenario.february Scenario.budget_of_five)
     = PyFloat.of_ratio 4 10
  /\ UsageTracker.monthly_cost (History.run Scenario.february Scenario.budget_of_five)
     <> History.float_sum (History.recorded Scenario.february).
Proof. vm_compute. repeat split; try reflexivity. discriminate. Qed.

(** C10. [record_request] tests nothing: whatever the tracker and the cost,
    it adds one to both counts and adds the cost to [monthly_cost], and
    leaves the rest. So a count that has reached [max_daily] or [max_hourly]
    passes it, the cost passes [monthly_budget] on the tracker of the scenario,
    whose three limits are reached, and a negative cost is taken: there it
    lowers [monthly_cost] from 5.0 to 4.5. *)
Theorem record_request_unconditional :
  (forall (cost : float) (self : UsageTracker.t),
     UsageTracker.record_request cost self =
     {| UsageTracker.daily_count := UsageTracker.daily_count self + 1;
        UsageTracker.hourly_count := UsageTracker.hourly_count self + 1;
        UsageTracker.monthly_cost := PyFloat.add (UsageTracker.monthly_cost self) cost;
        UsageTracker.last_reset_day := UsageTracker.last_reset_day self;
        UsageTracker.last_reset_hour := UsageTracker.last_reset_hour self;
        UsageTracker.monthly_reset := UsageTracker.monthly_reset self;
        UsageTracker.max_daily := UsageTracker.max_daily self;
        UsageTracker.max_hourly := UsageTracker.max_hourly self;
        UsageTracker.monthly_budget := UsageTracker.monthly_budget self |})
  /\ (forall (cost : float) (self : UsageTracker.t),
        UsageTracker.max_daily self <= UsageTracker.daily_count self ->
        UsageTracker.max_daily (UsageTracker.record_request cost self)
        < UsageTracker.daily_count (UsageTracker.record_request cost self))
  /\ (forall (cost : float) (self : UsageTracker.t),
        UsageTracker.max_hourly self <= UsageTracker.hourly_count self ->
        UsageTracker.max_hourly (UsageTracker.record_request cost self)
        < UsageTracker.hourly_count (UsageTracker.record_request cost self))
  /\ (let self := Scenario.exhausted in
      let after := UsageTracker.record_request (PyFloat.of_ratio 2 1000) self in
      UsageTracker.decide_request self = (false, UsageTracker.monthly_reason self)
      /\ UsageTracker.max_daily self <= UsageTracker.daily_count self
      /\ UsageTracker.max_hourly self <= UsageTracker.hourly_count self
      /\ UsageTracker.max_daily after < UsageTracker.daily_count after
      /\ UsageTracker.max_hourly after < UsageTracker.hourly_count after
      /\ PyFloat.lt (UsageTracker.monthly_budget after)
                    (UsageTracker.monthly_cost after) = true)
  /\ (let self := Scenario.exhausted in
      let cost := PyFloat.of_ratio (-5) 10 in
      let after := UsageTracker.record_request cost self in
      PyFloat.lt cost PyFloat.zero = true
      /\ UsageTracker.monthly_cost after = PyFloat.of_ratio 45 10
      /\ PyFloat.lt (UsageTracker.monthly_cost after)
                    (UsageTracker.monthly_cost self) = true).
Proof.
  split; [reflexivity|].
  split; [intros cost self H; simpl; lia|].
  split; [intros cost self H; simpl; lia|].
  split; vm_compute; repeat split; congruence.
Qed.

(** ** The gate and the provider call of [generate_outfit_recommendation] *)

Section Orchestration.
Variable clock : nat -> datetime.
Variable client : nat -> ChatRequest -> exn + ChatResponse.
Variable json_loads : option string -> exn + Json.
Variable _build_outfit_prompt : string -> list (gmap string Json) -> exn + string.
Variable model : string.

(** [self.usage_tracker.can_make_request()] in a world: one reading of
    the clock, and the tracker that [reset_if_needed] leaves. *)
Lemma tracker_can_make_request_run (w : World) :
  LLMService.tracker_can_make_request clock w
  = (inr (snd (UsageTracker.can_make_request (clock (clock_reads w)) (usage_tracker w))),
     {| usage_tracker :=
          UsageTracker.reset_if_needed (clock (clock_reads w)) (usage_tracker w);
        clock_reads := S (clock_reads w);
        dispatched := dispatched w |}).
Proof. reflexivity. Qed.

Lemma generate_outfit_recommendation_run
    (user_request : string) (wardrobe_items : list (gmap string Json)) (w : World) :
  LLMService.generate_outfit_recommendation clock client json_loads
    _build_outfit_prompt model user_request wardrobe_items w
  = let now := clock (clock_reads w) in
    let w' := {| usage_tracker := UsageTracker.reset_if_needed now (usage_tracker w);
                 clock_reads := S (clock_reads w);
                 dispatched := dispatched w |} in
    let '(can_proceed, reason) :=
      snd (UsageTracker.can_make_request now (usage_tracker w)) in
    if negb can_proceed
    then (inl (Exception ("Rate limit exceeded: " ++ reason)), w')
    else LLMService.generate_body clock client json_loads _build_outfit_prompt
           model user_request wardrobe_items w'.
Proof.
  unfold LLMService.generate_outfit_recommendation.
  unfold mbind at 1; unfold M_bind, bind.
  rewrite tracker_can_make_request_run. simpl.
  destruct (UsageTracker.decide_request _) as [[|] reason]; reflexivity.
Qed.

End Orchestration.

(** C5. When [can_make_request] denies, [generate_outfit_recommendation]
    raises the rate-limit exception with the reason of the denial; nothing
    has been sent to the provider, and the tracker is the one that the
    boundary reset of [can_make_request] leaves: no count and no cost has
    been added. *)
Theorem denied_request_sends_and_records_nothing
    (clock : nat -> datetime) (client : nat -> ChatRequest -> exn + ChatResponse)
    (json_loads : option string -> exn + Json)
    (_build_outfit_prompt : string -> list (gmap string Json) -> exn + string)
    (model user_request : string) (wardrobe_items : list (gmap string Json))
    (w : World) (reason : string) :
  snd (UsageTracker.can_make_request (clock (clock_reads w)) (usage_tracker w))
  = (false, reason) ->
  LLMService.generate_outfit_recommendation clock client json_loads
    _build_outfit_prompt model user_request wardrobe_items w
  = (inl (Exception ("Rate limit exceeded: " ++ reason)),
     {| usage_tracker :=
          UsageTracker.reset_if_needed (clock (clock_reads w)) (usage_tracker w);
        clock_reads := S (clock_reads w);
        dispatched := dispatched w |})
  /\ fst (UsageTracker.can_make_request (clock (clock_reads w)) (usage_tracker w))
     = UsageTracker.reset_if_needed (clock (clock_reads w)) (usage_tracker w).
Proof.
  intros H. split; [|reflexivity].
  rewrite generate_outfit_recommendation_run. cbv zeta. now rewrite H.
Qed.

Lemma denied_request_sends_and_records_nothing_witness :
  snd (UsageTracker.can_make_request Scenario.mar10_1430 Scenario.exhausted)
  = (false, "Monthly budget limit reached ($5.00)")
  /\ LLMService.generate_outfit_recommendation Scenario.clock Scenario.client
       Scenario.json_loads Scenario.build_prompt "gpt-3.5-turbo" "casual friday" []
       (Scenario.world_of Scenario.exhausted)
     = (inl (Exception "Rate limit exceeded: Monthly budget limit reached ($5.00)"),
        {| usage_tracker := Scenario.exhausted; clock_reads := 1; dispatched := [] |}).
Proof.
  split; [vm_compute; reflexivity|].
  refine (proj1 (denied_request_sends_and_records_nothing Scenario.clock Scenario.client
                   Scenario.json_loads Scenario.build_prompt "gpt-3.5-turbo"
                   "casual friday" [] (Scenario.world_of Scenario.exhausted)
                   "Monthly budget limit reached ($5.00)" _)).
  vm_compute; reflexivity.
Defined.

(** C6. The request is allowed, the prompt is built, the provider answers
    with a first choice and with token counts, the cost of these counts is
    estimated, and [json.loads] rejects the text. Then the method raises the
    exception of the parser, and the tracker it leaves has the request
    recorded with that cost: [record_request] ran before the text was
    parsed. *)
Theorem cost_recorded_when_parsing_fails
    (clock : nat -> datetime) (client : nat -> ChatRequest -> exn + ChatResponse)
    (json_loads : option string -> exn + Json)
    (_build_outfit_prompt : string -> list (gmap string Json) -> exn + string)
    (model user_request : string) (wardrobe_items : list (gmap string Json))
    (w : World) (reason prompt : string) (response : ChatResponse)
    (result_text : option string) (u : Usage) (cost : float) (e : exn) :
  let now := clock (clock_reads w) in
  let request := LLMService.outfit_request model prompt in
  let checked := UsageTracker.reset_if_needed now (usage_tracker w) in
  snd (UsageTracker.can_make_request now (usage_tracker w)) = (true, reason) ->
  _build_outfit_prompt user_request wardrobe_items = inr prompt ->
  client (length (dispatched w)) request = inr response ->
  head (choices response) = Some result_text ->
  usage response = Some u ->
  LLMService._estimate_cost model (prompt_tokens u) (completion_tokens u) = inr cost ->
  json_loads result_text = inl e ->
  LLMService.generate_outfit_recommendation clock client json_loads
    _build_outfit_prompt model user_request wardrobe_items w
  = (inl e,
     {| usage_tracker := UsageTracker.record_request cost checked;
        clock_reads := S (clock_reads w);
        dispatched := dispatched w ++ [request] |})
  /\ UsageTracker.daily_count (UsageTracker.record_request cost checked)
     = UsageTracker.daily_count checked + 1
  /\ UsageTracker.hourly_count (UsageTracker.record_request cost checked)
     = UsageTracker.hourly_count checked + 1
  /\ UsageTracker.monthly_cost (UsageTracker.record_request cost checked)
     = PyFloat.add (UsageTracker.monthly_cost checked) cost.
Proof.
  intros now request checked Hallowed Hprompt Hclient Hchoice Husage Hcost Hjson.
  split; [|repeat split].
  rewrite generate_outfit_recommendation_run. cbv zeta.
  fold now. rewrite Hallowed. simpl negb. cbv iota.
  unfold LLMService.generate_body.
  unfold mbind, M_bind, bind, lift, LLMService.create,
    LLMService.tracker_record_request, LLMService.on_tracker.
  rewrite Hprompt. simpl.
  fold request. rewrite Hclient.
  destruct (choices response) as [|c rest]; [discriminate|].
  injection Hchoice as ->.
  rewrite Husage, Hcost. simpl. rewrite Hjson. reflexivity.
Qed.

Lemma cost_recorded_when_parsing_fails_witness :
  LLMService.generate_outfit_recommendation Scenario.clock Scenario.client
    Scenario.json_loads Scenario.build_prompt "gpt-3.5-turbo" "casual friday" []
    (Scenario.world_of Scenario.fresh_hour)
  = (inl (JSONDecodeError "Expecting value: line 1 column 1 (char 0)"),
     {| usage_tracker :=
          UsageTracker.record_request (PyFloat.of_ratio 2 1000) Scenario.fresh_hour;
        clock_reads := 1;
        dispatched := [LLMService.outfit_request "gpt-3.5-turbo"
                         "USER REQUEST: casual friday"] |}).
Proof.
  refine (proj1 (cost_recorded_when_parsing_fails Scenario.clock Scenario.client
                   Scenario.json_loads Scenario.build_prompt "gpt-3.5-turbo"
                   "casual friday" [] (Scenario.world_of Scenario.fresh_hour)
                   "" "USER REQUEST: casual friday"
                   {| choices := [Some "not json"];
                      usage := Some {| prompt_tokens := 1000;
                                       completion_tokens := 1000 |} |}
                   (Some "not json")
                   {| prompt_tokens := 1000; completion_tokens := 1000 |}
                   (PyFloat.of_ratio 2 1000)
                   (JSONDecodeError "Expecting value: line 1 column 1 (char 0)")
                   _ _ _ _ _ _ _)).
  all: vm_compute; reflexivity.
Defined.

(** ** The cost estimate *)

Lemma default_rates_in_table :
  LLMService.MODEL_COSTS !! "gpt-3.5-turbo" = Some Spec.default_rates.
Proof. vm_compute; reflexivity. Qed.

Lemma costs_for_table (model : string) :
  LLMService.costs_for model = inr (Spec.table_rates model).
Proof.
  unfold LLMService.costs_for, Spec.table_rates.
  rewrite default_rates_in_table.
  destruct (LLMService.MODEL_COSTS !! model); reflexivity.
Qed.

(** C8. Whatever the model and the token counts, [_estimate_cost] is
    [(input_tokens/1000)*input_rate + (output_tokens/1000)*output_rate] at
    the rates of the table for the model, or at those of gpt-3.5-turbo when
    the table has no entry; it is a function of its arguments, and in a
    process it changes nothing; at the rates 0.0005 and 0.0015, which are
    those of gpt-3.5-turbo, 1000 tokens in and 1000 tokens out cost 0.002. *)
Theorem estimate_cost_formula (model : string) (input_tokens output_tokens : Z) :
  LLMService._estimate_cost model input_tokens output_tokens
  = Spec.estimate (Spec.table_rates model) input_tokens output_tokens
  /\ (forall w : World,
        snd (lift (LLMService._estimate_cost model input_tokens output_tokens) w) = w)
  /\ Spec.estimate {| LLMService.input := PyFloat.of_ratio 5 10000;
                      LLMService.output := PyFloat.of_ratio 15 10000 |} 1000 1000
     = inr (PyFloat.of_ratio 2 1000)
  /\ LLMService._estimate_cost "gpt-3.5-turbo" 1000 1000 = inr (PyFloat.of_ratio 2 1000).
Proof.
  split; [|split; [reflexivity | split; vm_compute; reflexivity]].
  unfold LLMService._estimate_cost, Spec.estimate.
  rewrite costs_for_table.
  destruct (int_truediv input_tokens 1000), (int_truediv output_tokens 1000);
    reflexivity.
Qed.

(** X23. Token counts below [2^63] always have an estimate. *)
Lemma estimate_cost_total (model : string) (input_tokens output_tokens : Z) :
  0 <= input_tokens < 2 ^ 63 -> 0 <= output_tokens < 2 ^ 63 ->
  exists cost, LLMService._estimate_cost model input_tokens output_tokens = inr cost.
Proof.
  intros Hi Ho. unfold LLMService._estimate_cost. rewrite costs_for_table.
  destruct (int_truediv_1000_total input_tokens Hi) as [i ->].
  destruct (int_truediv_1000_total output_tokens Ho) as [o ->].
  eauto.
Qed.

Lemma estimate_cost_total_witness :
  exists cost, LLMService._estimate_cost "gpt-5" 120000 800 = inr cost.
Proof. apply estimate_cost_total; lia. Defined.

(** ** The demo service *)

Section DemoSelection.
Variable str : Json -> string.

Lemma category_in_has_category (cats : list string) (item : gmap string Json) :
  is_Some (item !! "category") ->
  DemoLLMService.category_in cats item = inr (Spec.has_category cats item).
Proof.
  intros [v Hv]. unfold DemoLLMService.category_in, Spec.has_category.
  rewrite Hv. destruct v; reflexivity.
Qed.

(** On candidates the comprehension is a filter. *)
Lemma select_filter (cats : list string) (items : list (gmap string Json)) :
  Forall Spec.candidate items ->
  DemoLLMService.select cats items = inr (List.filter (Spec.has_category cats) items).
Proof.
  induction 1 as [|item items [Hcat _] _ IH]; [reflexivity|].
  simpl. rewrite (category_in_has_category cats item Hcat), IH.
  destruct (Spec.has_category cats item); reflexivity.
Qed.

Lemma head_filter_find {A} (p : A -> bool) (l : list A) :
  head (List.filter p l) = List.find p l.
Proof.
  induction l as [|x l IH]; [reflexivity|]. simpl. destruct (p x); [reflexivity | exact IH].
Qed.

Lemma find_candidate (p : gmap string Json -> bool)
    (items : list (gmap string Json)) (item : gmap string Json) :
  Forall Spec.candidate items -> List.find p items = Some item -> Spec.candidate item.
Proof.
  intros Hall Hfind. apply find_some in Hfind as [Hin _].
  rewrite Forall_forall in Hall. apply Hall. now apply list_elem_of_In.
Qed.

Lemma candidate_truth (item : gmap string Json) :
  Spec.candidate item -> DemoLLMService.dict_truth item = true.
Proof.
  intros [[v Hv] _]. apply bool_decide_eq_true. intros ->.
  rewrite lookup_empty in Hv. discriminate.
Qed.

(** The entry that [add_role] writes for the selected candidate. *)
Lemma add_role_candidate (role : string) (reason : gmap string Json -> string)
    (outfit : list (string * Json)) (item : gmap string Json) :
  Spec.candidate item ->
  exists id, item !! "id" = Some id
    /\ DemoLLMService.add_role role reason (Some item) outfit
       = inr (items_set role (JDict [("id", id); ("reason", JStr (reason item))]) outfit).
Proof.
  intros Hc. pose proof (candidate_truth item Hc) as Ht.
  destruct Hc as [_ [id Hid]]. exists id. split; [exact Hid|].
  unfold DemoLLMService.add_role. now rewrite Ht, Hid.
Qed.

End DemoSelection.

(** C9. On candidate items, which carry a category and an id, the demo
    service returns a recommendation whatever the request: the id under
    [top] is that of the first item whose category is shirt or hoodie, the id
    under [bottom] that of the first whose category is pants or shorts (and
    the role is absent when no item matches), the metadata reports a cost of
    zero and zero tokens, and the process is left as it was, so the tracker of
    the live service answers [can_make_request] as before. *)
Theorem demo_recommendation_selects_first_candidates
    (str : Json -> string) (user_request : string)
    (wardrobe_items : list (gmap string Json)) (w : World) :
  Forall Spec.candidate wardrobe_items ->
  exists recommendation : Json,
    DemoLLMService.generate_outfit_recommendation str user_request wardrobe_items w
    = (inr recommendation, w)
    /\ Spec.role_id "top" recommendation
       = Spec.first_id ["shirt"; "hoodie"] wardrobe_items
    /\ Spec.role_id "bottom" recommendation
       = Spec.first_id ["pants"; "shorts"] wardrobe_items
    /\ Spec.metadata "cost_usd" recommendation = Some (JFloat PyFloat.zero)
    /\ Spec.metadata "tokens_used" recommendation = Some (JInt 0)
    /\ (forall clock : nat -> datetime,
          LLMService.tracker_can_make_request clock
            (snd (DemoLLMService.generate_outfit_recommendation
                    str user_request wardrobe_items w))
          = LLMService.tracker_can_make_request clock w).
Proof.
  intros Hall.
  unfold DemoLLMService.generate_outfit_recommendation, lift,
    DemoLLMService.recommendation.
  rewrite !(select_filter _ _ Hall), !head_filter_find.
  unfold Spec.first_id.
  destruct (List.find (Spec.has_category ["shirt"; "hoodie"]) wardrobe_items)
    as [top|] eqn:Htop;
    destruct (List.find (Spec.has_category ["pants"; "shorts"]) wardrobe_items)
      as [bottom|] eqn:Hbottom.
  - destruct (add_role_candidate "top" (DemoLLMService.top_reason str) [] top
                (find_candidate _ _ _ Hall Htop)) as (tid & Htid & ->).
    destruct (add_role_candidate "bottom" (DemoLLMService.bottom_reason str)
                (items_set "top"
                   (JDict [("id", tid);
                           ("reason", JStr (DemoLLMService.top_reason str top))]) [])
                bottom (find_candidate _ _ _ Hall Hbottom)) as (bid & Hbid & ->).
    eexists; split; [reflexivity|]. rewrite Htid, Hbid. repeat split; reflexivity.
  - destruct (add_role_candidate "top" (DemoLLMService.top_reason str) [] top
                (find_candidate _ _ _ Hall Htop)) as (tid & Htid & ->).
    eexists; split; [reflexivity|]. rewrite Htid. repeat split; reflexivity.
  - change (DemoLLMService.add_role "top" (DemoLLMService.top_reason str) None [])
      with (@inr exn (list (string * Json)) []).
    cbv iota.
    destruct (add_role_candidate "bottom" (DemoLLMService.bottom_reason str) []
                bottom (find_candidate _ _ _ Hall Hbottom)) as (bid & Hbid & ->).
    eexists; split; [reflexivity|]. rewrite Hbid. repeat split; reflexivity.
  - eexists; split; [reflexivity|]. repeat split; reflexivity.
Qed.

(** Every list that [_format_wardrobe_for_llm] makes is a list of
    candidates, so the demo service never fails on the inventory. *)
Lemma formatted_items_are_candidates (items : list OutfitRecommender.ClothingItem) :
  Forall Spec.candidate (OutfitRecommender._format_wardrobe_for_llm items).
Proof.
  unfold OutfitRecommender._format_wardrobe_for_llm.
  apply Forall_map, Forall_forall. intros item _.
  split; eexists; vm_compute; reflexivity.
Qed.

Lemma demo_recommendation_selects_first_candidates_witness :
  Forall Spec.candidate
    (OutfitRecommender._format_wardrobe_for_llm Scenario.shirt_and_pants)
  /\ exists recommendation : Json,
      DemoLLMService.generate_outfit_recommendation Scenario.str "casual friday"
        (OutfitRecommender._format_wardrobe_for_llm Scenario.shirt_and_pants)
        (Scenario.world_of Scenario.exhausted)
      = (inr recommendation, Scenario.world_of Scenario.exhausted)
      /\ Spec.role_id "top" recommendation = Some (JInt 1)
      /\ Spec.role_id "bottom" recommendation = Some (JInt 2)
      /\ Spec.metadata "cost_usd" recommendation = Some (JFloat PyFloat.zero).
Proof.
  assert (H : Forall Spec.candidate
                (OutfitRecommender._format_wardrobe_for_llm Scenario.shirt_and_pants)).
  { repeat constructor; eexists; vm_compute; reflexivity. }
  split; [exact H|].
  destruct (demo_recommendation_selects_first_candidates Scenario.str "casual friday"
              (OutfitRecommender._format_wardrobe_for_llm Scenario.shirt_and_pants)
              (Scenario.world_of Scenario.exhausted) H)
    as (recommendation & Hrun & Htop & Hbottom & Hcost & _).
  exists recommendation. split; [exact Hrun|].
  split; [rewrite Htop; vm_compute; reflexivity|].
  split; [rewrite Hbottom; vm_compute; reflexivity|exact Hcost].
Defined.

(** * Further properties of the code *)

(** ** The order of dates *)

Lemma date_gt_spec (d1 d2 : date) :
  date_gt d1 d2 = true <->
  year d2 < year d1
  \/ (year d1 = year d2
      /\ (month d2 < month d1 \/ (month d1 = month d2 /\ day d2 < day d1))).
Proof.
  unfold date_gt.
  rewrite !orb_true_iff, !andb_true_iff, !orb_true_iff, !andb_true_iff,
    !Z.ltb_lt, !Z.eqb_eq.
  reflexivity.
Qed.

Lemma date_gt_irrefl (d : date) : date_gt d d = false.
Proof.
  destruct (date_gt d d) eqn:H; [|reflexivity].
  apply date_gt_spec in H. lia.
Qed.

Lemma date_gt_asym (d1 d2 : date) : date_gt d1 d2 = true -> date_gt d2 d1 = false.
Proof.
  intros H. destruct (date_gt d2 d1) eqn:H'; [|reflexivity].
  apply date_gt_spec in H, H'. lia.
Qed.

(** "Not later than" is transitive. *)
Lemma date_not_gt_trans (d1 d2 d3 : date) :
  date_gt d1 d2 = false -> date_gt d2 d3 = false -> date_gt d1 d3 = false.
Proof.
  intros H12 H23. destruct (date_gt d1 d3) eqn:H13; [|reflexivity].
  apply date_gt_spec in H13.
  assert (N12 : ~ (year d2 < year d1
                   \/ (year d1 = year d2
                       /\ (month d2 < month d1
                           \/ (month d1 = month d2 /\ day d2 < day d1)))))
    by (rewrite <- date_gt_spec; congruence).
  assert (N23 : ~ (year d3 < year d2
                   \/ (year d2 = year d3
                       /\ (month d3 < month d2
                           \/ (month d2 = month d3 /\ day d3 < day d2)))))
    by (rewrite <- date_gt_spec; congruence).
  lia.
Qed.

(** ** Bringing the windows up to date twice *)

Lemma reset_if_needed_idempotent (now : datetime) (self : UsageTracker.t) :
  UsageTracker.reset_if_needed now (UsageTracker.reset_if_needed now self)
  = UsageTracker.reset_if_needed now self.
Proof.
  rewrite (reset_if_needed_fields now (UsageTracker.reset_if_needed now self)).
  rewrite (reset_if_needed_fields now self).
  cbv zeta. unfold UsageTracker.month_condition. simpl.
  assert (Hday : date_gt (date_of now)
                   (if date_gt (date_of now) (UsageTracker.last_reset_day self)
                    then date_of now else UsageTracker.last_reset_day self) = false).
  { destruct (date_gt (date_of now) (UsageTracker.last_reset_day self)) eqn:E;
      [apply date_gt_irrefl | exact E]. }
  assert (Hhour : (hour now =?
                   (if hour now =? UsageTracker.last_reset_hour self
                    then UsageTracker.last_reset_hour self else hour now)) = true).
  { destruct (Z.eqb_spec (hour now) (UsageTracker.last_reset_hour self));
      [now apply Z.eqb_eq | apply Z.eqb_refl]. }
  rewrite Hday, Hhour.
  destruct (UsageTracker.monthly_reset self) as [dt|d]; simpl.
  - destruct (date_gt (date_replace_day1 (date_of now)) (date_of dt)) eqn:E;
      simpl; [reflexivity|]. rewrite E. reflexivity.
  - reflexivity.
Qed.

(** X1. Asking [can_make_request] again at the same reading of the clock gives
    the same answer and leaves the tracker that the first call left. *)
Theorem can_make_request_repeatable (now : datetime) (self : UsageTracker.t) :
  UsageTracker.can_make_request now (fst (UsageTracker.can_make_request now self))
  = UsageTracker.can_make_request now self.
Proof.
  unfold UsageTracker.can_make_request. simpl.
  now rewrite reset_if_needed_idempotent.
Qed.

(** X2. When both readings of the clock are the same, the snapshot of
    [get_usage_stats] agrees with the gate: the tracker is the one a single
    [reset_if_needed] leaves, the counts are its counts, and the entry
    [can_make_request] is the answer the gate gives at that time. *)
Theorem get_usage_stats_agrees_with_gate (now : datetime) (self : UsageTracker.t) :
  let checked := UsageTracker.reset_if_needed now self in
  let stats := snd (UsageTracker.get_usage_stats now now self) in
  fst (UsageTracker.get_usage_stats now now self) = checked
  /\ dict_get "daily_requests" stats = Some (JInt (UsageTracker.daily_count checked))
  /\ dict_get "hourly_requests" stats = Some (JInt (UsageTracker.hourly_count checked))
  /\ dict_get "can_make_request" stats
     = Some (JBool (fst (snd (UsageTracker.can_make_request now self)))).
Proof.
  cbv zeta. unfold UsageTracker.get_usage_stats, UsageTracker.can_make_request.
  rewrite reset_if_needed_idempotent.
  destruct (UsageTracker.decide_request _) as [allowed reason]. repeat split.
Qed.

(** ** What no history of a tracker does *)

Section HistoryInvariants.
Import UsageTracker History.

Lemma reset_last_reset_day (now : datetime) (self : t) :
  last_reset_day (reset_if_needed now self)
  = if date_gt (date_of now) (last_reset_day self)
    then date_of now else last_reset_day self.
Proof. rewrite reset_if_needed_fields; reflexivity. Qed.

Lemma step_last_reset_day (c : call) (self : t) :
  date_gt (last_reset_day self) (last_reset_day (step self c)) = false.
Proof.
  destruct c as [now|cost]; simpl; [|apply date_gt_irrefl].
  rewrite reset_last_reset_day.
  destruct (date_gt (date_of now) (last_reset_day self)) eqn:E;
    [now apply date_gt_asym | apply date_gt_irrefl].
Qed.

Lemma step_counts (c : call) (self : t) :
  0 <= daily_count self -> 0 <= hourly_count self ->
  0 <= daily_count (step self c)
    <= daily_count self + Z.of_nat (length (recorded [c]))
  /\ 0 <= hourly_count (step self c)
       <= hourly_count self + Z.of_nat (length (recorded [c])).
Proof.
  intros Hd Hh. destruct c as [now|cost]; simpl; [|lia].
  rewrite reset_daily_count, reset_hourly_count.
  destruct (date_gt _ _), (hour now =? _); lia.
Qed.

Lemma step_keeps_date (c : call) (self : t) (d : date) :
  monthly_reset self = A_date d -> exists d', monthly_reset (step self c) = A_date d'.
Proof.
  intros H. destruct c as [now|cost]; simpl; [|eauto].
  destruct (reset_monthly_cost_date now self d H) as [_ ->]. eauto.
Qed.

Lemma run_keeps_date (calls : list call) (self : t) (d : date) :
  monthly_reset self = A_date d -> exists d', monthly_reset (run calls self) = A_date d'.
Proof.
  revert self d; induction calls as [|c calls IH]; intros self d H; [simpl; eauto|].
  rewrite run_cons. destruct (step_keeps_date c self d H) as [d' H']. eauto.
Qed.

(** Inside one day every recorded request counts, and nothing else changes
    the daily count. *)
Lemma run_daily_count (calls : list call) (self : t) :
  Forall (fun c => match c with
                   | Reset now => date_gt (date_of now) (last_reset_day self) = false
                   | Record _ => True
                   end) calls ->
  daily_count (run calls self)
  = daily_count self + Z.of_nat (length (recorded calls))
  /\ last_reset_day (run calls self) = last_reset_day self.
Proof.
  revert self; induction calls as [|c calls IH]; intros self Hall.
  { simpl; split; [lia | reflexivity]. }
  inversion Hall as [|? ? Hc Hcalls]; subst.
  rewrite run_cons. destruct c as [now|cost]; simpl in *.
  - assert (Hd : last_reset_day (reset_if_needed now self) = last_reset_day self)
      by (rewrite reset_last_reset_day, Hc; reflexivity).
    destruct (IH (reset_if_needed now self)) as [-> ->];
      [rewrite Hd; exact Hcalls|].
    rewrite reset_daily_count, Hc. auto.
  - destruct (IH (record_request cost self)) as [-> ->]; [exact Hcalls|].
    simpl; split; [lia | reflexivity].
Qed.

End HistoryInvariants.

(** X3. Whatever the order of the clock readings, no history moves
    [last_reset_day] back: the day recorded at the end is never earlier than
    the day recorded at the start. *)
Theorem last_reset_day_never_moves_back
    (calls : list History.call) (self : UsageTracker.t) :
  date_gt (UsageTracker.last_reset_day self)
          (UsageTracker.last_reset_day (History.run calls self)) = false.
Proof.
  revert self; induction calls as [|c calls IH]; intros self.
  { apply date_gt_irrefl. }
  rewrite run_cons.
  apply (date_not_gt_trans _ (UsageTracker.last_reset_day (History.step self c)));
    [apply step_last_reset_day | apply IH].
Qed.

(** X4. From counts that are not negative, every history keeps both counts
    between zero and the starting count plus the number of requests it
    records, and it never changes a limit. *)
Theorem counts_stay_within_records
    (calls : list History.call) (self : UsageTracker.t) :
  0 <= UsageTracker.daily_count self ->
  0 <= UsageTracker.hourly_count self ->
  0 <= UsageTracker.daily_count (History.run calls self)
    <= UsageTracker.daily_count self + Z.of_nat (length (History.recorded calls))
  /\ 0 <= UsageTracker.hourly_count (History.run calls self)
       <= UsageTracker.hourly_count self + Z.of_nat (length (History.recorded calls))
  /\ UsageTracker.max_daily (History.run calls self) = UsageTracker.max_daily self
  /\ UsageTracker.max_hourly (History.run calls self) = UsageTracker.max_hourly self
  /\ UsageTracker.monthly_budget (History.run calls self)
     = UsageTracker.monthly_budget self.
Proof.
  intros Hd Hh.
  assert (Hcounts :
            0 <= UsageTracker.daily_count (History.run calls self)
              <= UsageTracker.daily_count self
                 + Z.of_nat (length (History.recorded calls))
            /\ 0 <= UsageTracker.hourly_count (History.run calls self)
                 <= UsageTracker.hourly_count self
                    + Z.of_nat (length (History.recorded calls))).
  { revert self Hd Hh; induction calls as [|c calls IH]; intros self Hd Hh.
    { simpl; lia. }
    rewrite run_cons.
    destruct (step_counts c self Hd Hh) as [Hd' Hh'].
    specialize (IH (History.step self c) ltac:(lia) ltac:(lia)).
    destruct c as [now|cost]; simpl in *; lia. }
  destruct Hcounts as [H1 H2]. split; [exact H1|]. split; [exact H2|].
  apply run_limits.
Qed.

Lemma counts_stay_within_records_witness :
  0 <= UsageTracker.daily_count Scenario.fresh_hour
  /\ 0 <= UsageTracker.hourly_count Scenario.fresh_hour
  /\ 0 <= UsageTracker.daily_count (History.run Scenario.ten_requests Scenario.fresh_hour)
       <= 0 + 10.
Proof.
  split; [vm_compute; congruence|]. split; [vm_compute; congruence|].
  refine (proj1 (counts_stay_within_records Scenario.ten_requests Scenario.fresh_hour _ _));
    vm_compute; congruence.
Defined.

(** X5. Once the hourly limit is reached, nothing that happens in that hour
    opens the gate again: after any further records and updates of the
    windows in the same hour, [can_make_request] in that hour denies. *)
Theorem hourly_limit_holds_within_the_hour
    (now : datetime) (calls : list History.call) (self : UsageTracker.t) :
  UsageTracker.max_hourly self <= UsageTracker.hourly_count self ->
  Forall (History.same_hour (UsageTracker.last_reset_hour self)) calls ->
  hour now = UsageTracker.last_reset_hour self ->
  fst (snd (UsageTracker.can_make_request now (History.run calls self))) = false.
Proof.
  intros Hfull Hcalls Hnow.
  destruct (run_hourly_count calls self Hcalls) as [Hh Hl].
  destruct (run_limits calls self) as (_ & Hmh & _).
  destruct (reset_limits now (History.run calls self)) as (_ & Hmh' & _).
  unfold UsageTracker.can_make_request, UsageTracker.decide_request. simpl.
  set (s := UsageTracker.reset_if_needed now (History.run calls self)) in *.
  assert (Hhc : UsageTracker.max_hourly s <= UsageTracker.hourly_count s).
  { unfold s at 2. rewrite reset_hourly_count, Hl, Hnow, Z.eqb_refl, Hh. lia. }
  destruct (PyFloat.ge _ _); [reflexivity|].
  destruct (_ >=? _); [reflexivity|].
  rewrite Z.geb_leb. destruct (Z.leb_spec (UsageTracker.max_hourly s)
                                 (UsageTracker.hourly_count s)); [reflexivity|lia].
Qed.

Lemma hourly_limit_holds_within_the_hour_witness :
  UsageTracker.max_hourly Scenario.exhausted <= UsageTracker.hourly_count Scenario.exhausted
  /\ fst (snd (UsageTracker.can_make_request Scenario.mar10_1430
                 (History.run Scenario.ten_requests Scenario.exhausted))) = false.
Proof.
  split; [vm_compute; congruence|].
  refine (hourly_limit_holds_within_the_hour Scenario.mar10_1430 Scenario.ten_requests
            Scenario.exhausted _ _ _).
  - vm_compute; congruence.
  - repeat constructor.
  - reflexivity.
Defined.

(** X6. Once the daily limit is reached, nothing that happens before the date
    advances opens the gate again. *)
Theorem daily_limit_holds_within_the_day
    (now : datetime) (calls : list History.call) (self : UsageTracker.t) :
  UsageTracker.max_daily self <= UsageTracker.daily_count self ->
  Forall (fun c => match c with
                   | History.Reset t =>
                       date_gt (date_of t) (UsageTracker.last_reset_day self) = false
                   | History.Record _ => True
                   end) calls ->
  date_gt (date_of now) (UsageTracker.last_reset_day self) = false ->
  fst (snd (UsageTracker.can_make_request now (History.run calls self))) = false.
Proof.
  intros Hfull Hcalls Hnow.
  destruct (run_daily_count calls self Hcalls) as [Hd Hl].
  destruct (run_limits calls self) as (Hmd & _ & _).
  destruct (reset_limits now (History.run calls self)) as (Hmd' & _ & _).
  unfold UsageTracker.can_make_request, UsageTracker.decide_request. simpl.
  set (s := UsageTracker.reset_if_needed now (History.run calls self)) in *.
  assert (Hdc : UsageTracker.max_daily s <= UsageTracker.daily_count s).
  { unfold s at 2. rewrite reset_daily_count, Hl, Hnow, Hd. lia. }
  destruct (PyFloat.ge _ _); [reflexivity|].
  rewrite Z.geb_leb. destruct (Z.leb_spec (UsageTracker.max_daily s)
                                 (UsageTracker.daily_count s)); [reflexivity|lia].
Qed.

Lemma daily_limit_holds_within_the_day_witness :
  UsageTracker.max_daily Scenario.exhausted <= UsageTracker.daily_count Scenario.exhausted
  /\ fst (snd (UsageTracker.can_make_request Scenario.mar10_1430
                 (History.run Scenario.ten_requests Scenario.exhausted))) = false.
Proof.
  split; [vm_compute; congruence|].
  refine (daily_limit_holds_within_the_day Scenario.mar10_1430 Scenario.ten_requests
            Scenario.exhausted _ _ _).
  - vm_compute; congruence.
  - repeat constructor.
  - reflexivity.
Defined.

(** X7. Once [reset_if_needed] has stored a [date] in [monthly_reset], which
    the first change of month does, the monthly budget is out of the gate:
    whatever was recorded since, [can_make_request] decides on a monthly cost
    of zero and, with a positive budget, never answers with the monthly
    reason. *)
Theorem no_monthly_denial_once_a_date_is_stored
    (now : datetime) (calls : list History.call) (self : UsageTracker.t) (d : date) :
  UsageTracker.monthly_reset self = A_date d ->
  PyFloat.lt PyFloat.zero (UsageTracker.monthly_budget self) = true ->
  UsageTracker.monthly_cost (fst (UsageTracker.can_make_request now (History.run calls self)))
  = PyFloat.zero
  /\ snd (UsageTracker.can_make_request now (History.run calls self))
     <> (false, UsageTracker.monthly_reason self).
Proof.
  intros Hdate Hbudget.
  destruct (run_keeps_date calls self d Hdate) as [d' Hd'].
  destruct (reset_monthly_cost_date now (History.run calls self) d' Hd') as [Hzero _].
  destruct (run_limits calls self) as (_ & _ & Hmb).
  destruct (reset_limits now (History.run calls self)) as (_ & _ & Hmb').
  unfold UsageTracker.can_make_request. simpl.
  set (s := UsageTracker.reset_if_needed now (History.run calls self)) in *.
  split; [exact Hzero|].
  assert (Hge : PyFloat.ge (UsageTracker.monthly_cost s) (UsageTracker.monthly_budget s)
                = false).
  { apply lt_not_ge. rewrite Hzero, Hmb', Hmb. exact Hbudget. }
  assert (Hreason : UsageTracker.monthly_reason self = UsageTracker.monthly_reason s).
  { unfold UsageTracker.monthly_reason. congruence. }
  rewrite Hreason.
  destruct (reasons_distinct s) as (Hmd & Hmh & _ & _).
  unfold UsageTracker.decide_request. rewrite Hge.
  destruct (_ >=? _); [congruence|].
  destruct (_ >=? _); congruence.
Qed.

Lemma no_monthly_denial_once_a_date_is_stored_witness :
  UsageTracker.monthly_reset Scenario.charged_in_february = A_date (mk_date 2024 2 1)
  /\ PyFloat.ge (UsageTracker.monthly_cost Scenario.charged_in_february)
       (UsageTracker.monthly_budget Scenario.charged_in_february) = true
  /\ snd (UsageTracker.can_make_request Scenario.feb15
            (History.run [] Scenario.charged_in_february))
     <> (false, UsageTracker.monthly_reason Scenario.charged_in_february).
Proof.
  split; [reflexivity|]. split; [reflexivity|].
  refine (proj2 (no_monthly_denial_once_a_date_is_stored Scenario.feb15 []
                   Scenario.charged_in_february (mk_date 2024 2 1) _ _)).
  - reflexivity.
  - reflexivity.
Defined.

(** ** Reading and writing the items of a dict *)

Lemma items_get_set_eq (key : string) (v : Json) (kvs : list (string * Json)) :
  items_get key (items_set key v kvs) = Some v.
Proof.
  induction kvs as [|[k v0] kvs IH]; simpl.
  - now rewrite String.eqb_refl.
  - destruct (String.eqb k key) eqn:E; simpl; rewrite E; [reflexivity | exact IH].
Qed.

Lemma items_get_set_ne (key key' : string) (v : Json) (kvs : list (string * Json)) :
  key <> key' -> items_get key' (items_set key v kvs) = items_get key' kvs.
Proof.
  intros Hne. induction kvs as [|[k v0] kvs IH]; simpl.
  - destruct (String.eqb_spec key key'); [contradiction | reflexivity].
  - destruct (String.eqb_spec k key) as [->|Hk]; simpl.
    + destruct (String.eqb_spec key key'); [contradiction | reflexivity].
    + destruct (String.eqb k key'); [reflexivity | exact IH].
Qed.

(** ** The live service, step by step *)

Ltac run_service :=
  rewrite generate_outfit_recommendation_run; cbv zeta;
  unfold LLMService.generate_body, LLMService.get_usage_stats, LLMService.create,
    LLMService.tracker_record_request, LLMService.datetime_now,
    LLMService.on_tracker;
  unfold mbind, M_bind, bind, lift.

Ltac step_service :=
  cbn -[UsageTracker.get_usage_stats UsageTracker.reset_if_needed
        UsageTracker.record_request UsageTracker.can_make_request
        LLMService._estimate_cost LLMService.outfit_request
        LLMService.set_metadata PyFloat.round].

(** X8. A call of [generate_outfit_recommendation] sends at most one request
    to the provider, whatever the tracker, the clock, the provider and the
    parser do: there is no second attempt on any path. And it reads the clock
    once, or three times when it reaches the usage snapshot. *)
Theorem at_most_one_request_per_call
    (clock : nat -> datetime) (client : nat -> ChatRequest -> exn + ChatResponse)
    (json_loads : option string -> exn + Json)
    (_build_outfit_prompt : string -> list (gmap string Json) -> exn + string)
    (model user_request : string) (wardrobe_items : list (gmap string Json))
    (w : World) :
  let w' := snd (LLMService.generate_outfit_recommendation clock client json_loads
                   _build_outfit_prompt model user_request wardrobe_items w) in
  (dispatched w' = dispatched w
   \/ exists prompt,
        _build_outfit_prompt user_request wardrobe_items = inr prompt
        /\ dispatched w' = (dispatched w ++ [LLMService.outfit_request model prompt])%list)
  /\ (clock_reads w' = S (clock_reads w) \/ clock_reads w' = S (S (S (clock_reads w)))).
Proof.
  cbv zeta. run_service.
  assert (Hclose : forall (l : list ChatRequest) (n : nat) (prompt : string),
            _build_outfit_prompt user_request wardrobe_items = inr prompt ->
            (l = (dispatched w ++ [LLMService.outfit_request model prompt])%list) ->
            (n = S (clock_reads w) \/ n = S (S (S (clock_reads w)))) ->
            (l = dispatched w
             \/ exists prompt0,
                  _build_outfit_prompt user_request wardrobe_items = inr prompt0
                  /\ l = (dispatched w ++ [LLMService.outfit_request model prompt0])%list)
            /\ (n = S (clock_reads w) \/ n = S (S (S (clock_reads w))))).
  { intros l n prompt Hp Hl Hn. split; [right; exists prompt; auto | exact Hn]. }
  destruct (snd (UsageTracker.can_make_request _ _)) as [[|] reason]; step_service;
    [|auto].
  destruct (_build_outfit_prompt user_request wardrobe_items) as [e|prompt] eqn:Hp;
    step_service; [auto|].
  destruct (client _ _) as [e|response]; step_service; [apply (Hclose _ _ prompt); auto|].
  destruct (choices response) as [|text rest]; step_service;
    [apply (Hclose _ _ prompt); auto|].
  destruct (usage response) as [u|]; step_service; [|apply (Hclose _ _ prompt); auto].
  destruct (LLMService._estimate_cost _ _ _) as [e|cost]; step_service;
    [apply (Hclose _ _ prompt); auto|].
  destruct (json_loads text) as [e|result]; step_service;
    [apply (Hclose _ _ prompt); auto|].
  destruct (UsageTracker.get_usage_stats _ _ _) as [t stats]; step_service.
  try (destruct (LLMService.set_metadata _ _); step_service);
    apply (Hclose _ _ prompt); auto.
Qed.

(** X9. When the request is allowed and the call fails before the estimate,
    because the prompt cannot be built, the provider raises, or its answer
    carries no choice or no token counts, the exception reaches the caller and
    nothing is recorded: the tracker is the one the gate left. An answer of
    the provider that lacks a choice or the counts is charged to nobody,
    although the request was sent. *)
Theorem nothing_recorded_when_the_call_fails_early
    (clock : nat -> datetime) (client : nat -> ChatRequest -> exn + ChatResponse)
    (json_loads : option string -> exn + Json)
    (_build_outfit_prompt : string -> list (gmap string Json) -> exn + string)
    (model user_request : string) (wardrobe_items : list (gmap string Json))
    (w : World) (reason : string) :
  let now := clock (clock_reads w) in
  let checked := UsageTracker.reset_if_needed now (usage_tracker w) in
  let run := LLMService.generate_outfit_recommendation clock client json_loads
               _build_outfit_prompt model user_request wardrobe_items w in
  snd (UsageTracker.can_make_request now (usage_tracker w)) = (true, reason) ->
  (forall e, _build_outfit_prompt user_request wardrobe_items = inl e ->
     run = (inl e, {| usage_tracker := checked;
                      clock_reads := S (clock_reads w);
                      dispatched := dispatched w |}))
  /\ (forall prompt, _build_outfit_prompt user_request wardrobe_items = inr prompt ->
      let request := LLMService.outfit_request model prompt in
      let sent := {| usage_tracker := checked;
                     clock_reads := S (clock_reads w);
                     dispatched := dispatched w ++ [request] |} in
      (forall e, client (length (dispatched w)) request = inl e ->
                 run = (inl e, sent))
      /\ (forall response, client (length (dispatched w)) request = inr response ->
            (choices response = [] -> run = (inl IndexError, sent))
            /\ (choices response <> [] -> usage response = None ->
                run = (inl AttributeError, sent)))).
Proof.
  intros now checked run Hallowed. subst run. split.
  - intros e Hp. run_service. fold now. rewrite Hallowed, Hp. reflexivity.
  - intros prompt Hp request sent. split.
    + intros e Hc. run_service. fold now. rewrite Hallowed, Hp. step_service.
      fold request. rewrite Hc. reflexivity.
    + intros response Hc. split.
      * intros Hch. run_service. fold now. rewrite Hallowed, Hp. step_service.
        fold request. rewrite Hc, Hch. reflexivity.
      * intros Hch Hu. run_service. fold now. rewrite Hallowed, Hp. step_service.
        fold request. rewrite Hc.
        destruct (choices response); [contradiction|]. rewrite Hu. reflexivity.
Qed.

Lemma nothing_recorded_when_the_call_fails_early_witness :
  LLMService.generate_outfit_recommendation Scenario.clock Cases.unreachable
    Scenario.json_loads Scenario.build_prompt "gpt-3.5-turbo" "casual friday" []
    (Scenario.world_of Scenario.fresh_hour)
  = (inl (APIError "Connection error."),
     {| usage_tracker := Scenario.fresh_hour;
        clock_reads := 1;
        dispatched := [LLMService.outfit_request "gpt-3.5-turbo"
                         "USER REQUEST: casual friday"] |}).
Proof.
  refine (proj1 (proj2 (nothing_recorded_when_the_call_fails_early Scenario.clock
                          Cases.unreachable Scenario.json_loads Scenario.build_prompt
                          "gpt-3.5-turbo" "casual friday" []
                          (Scenario.world_of Scenario.fresh_hour) "" _)
                   "USER REQUEST: casual friday" _)
            (APIError "Connection error.") _);
    vm_compute; reflexivity.
Defined.

(** X10. On success the method returns the object that the model answered with
    its [metadata] written by the service: a [metadata] that the model sent is
    replaced, every other key is returned as parsed. One request was sent, the
    request was recorded once, before the snapshot in the metadata was taken:
    [daily_requests] there is the daily count of the recorded tracker after
    the reset of the snapshot itself. So it counts the request (one more than
    the count the gate left) when the date of the snapshot is not after the
    day of the recorded tracker, and it is 0, the request not counted, when a
    date boundary falls between the gate and the snapshot. *)
Theorem successful_call_writes_its_own_metadata
    (clock : nat -> datetime) (client : nat -> ChatRequest -> exn + ChatResponse)
    (json_loads : option string -> exn + Json)
    (_build_outfit_prompt : string -> list (gmap string Json) -> exn + string)
    (model user_request : string) (wardrobe_items : list (gmap string Json))
    (w : World) (reason prompt : string) (response : ChatResponse)
    (result_text : option string) (u : Usage) (cost : float)
    (kvs : list (string * Json)) :
  let now := clock (clock_reads w) in
  let request := LLMService.outfit_request model prompt in
  let recorded :=
    UsageTracker.record_request cost
      (UsageTracker.reset_if_needed now (usage_tracker w)) in
  let now2 := clock (S (clock_reads w)) in
  let now3 := clock (S (S (clock_reads w))) in
  let stats := snd (UsageTracker.get_usage_stats now2 now3 recorded) in
  let metadata :=
    JDict [("model", JStr model);
           ("cost_usd", JFloat (PyFloat.round cost 4));
           ("tokens_used", JInt (prompt_tokens u + completion_tokens u));
           ("usage_stats", stats)] in
  snd (UsageTracker.can_make_request now (usage_tracker w)) = (true, reason) ->
  _build_outfit_prompt user_request wardrobe_items = inr prompt ->
  client (length (dispatched w)) request = inr response ->
  head (choices response) = Some result_text ->
  usage response = Some u ->
  LLMService._estimate_cost model (prompt_tokens u) (completion_tokens u) = inr cost ->
  json_loads result_text = inr (JDict kvs) ->
  exists result,
    LLMService.generate_outfit_recommendation clock client json_loads
      _build_outfit_prompt model user_request wardrobe_items w
    = (inr result,
       {| usage_tracker := fst (UsageTracker.get_usage_stats now2 now3 recorded);
          clock_reads := S (S (S (clock_reads w)));
          dispatched := dispatched w ++ [request] |})
    /\ dict_get "metadata" result = Some metadata
    /\ (forall key, key <> "metadata" -> dict_get key result = items_get key kvs)
    /\ dict_get "daily_requests" stats
       = Some (JInt (UsageTracker.daily_count
                       (UsageTracker.reset_if_needed now2 recorded)))
    /\ (date_gt (date_of now2) (UsageTracker.last_reset_day recorded) = false ->
        dict_get "daily_requests" stats
        = Some (JInt (UsageTracker.daily_count
                        (UsageTracker.reset_if_needed now (usage_tracker w)) + 1)))
    /\ (date_gt (date_of now2) (UsageTracker.last_reset_day recorded) = true ->
        dict_get "daily_requests" stats = Some (JInt 0)).
Proof.
  intros now request recorded now2 now3 stats metadata
    Hallowed Hprompt Hclient Hchoice Husage Hcost Hjson.
  assert (Hdaily : dict_get "daily_requests" stats
                   = Some (JInt (UsageTracker.daily_count
                                   (UsageTracker.reset_if_needed now2 recorded)))).
  { subst stats. unfold UsageTracker.get_usage_stats, UsageTracker.can_make_request.
    destruct (UsageTracker.decide_request _) as [allowed r]. reflexivity. }
  exists (JDict (items_set "metadata" metadata kvs)).
  split; [|split; [|split; [|split; [exact Hdaily | split]]]].
  - run_service. fold now. rewrite Hallowed, Hprompt. step_service.
    fold request. rewrite Hclient.
    destruct (choices response) as [|c rest]; [discriminate|].
    injection Hchoice as ->. rewrite Husage. step_service. rewrite Hcost.
    step_service. rewrite Hjson. step_service.
    fold now. fold recorded. fold now2. fold now3.
    subst stats metadata.
    destruct (UsageTracker.get_usage_stats now2 now3 recorded) as [t st].
    reflexivity.
  - simpl. apply items_get_set_eq.
  - intros key Hkey. simpl. apply items_get_set_ne. congruence.
  - intros Hday. rewrite Hdaily, reset_daily_count, Hday. reflexivity.
  - intros Hday. rewrite Hdaily, reset_daily_count, Hday. reflexivity.
Qed.

Lemma successful_call_writes_its_own_metadata_witness :
  exists result,
    fst (LLMService.generate_outfit_recommendation Scenario.clock Scenario.client
           Cases.parses_answer Scenario.build_prompt "gpt-3.5-turbo" "casual friday" []
           (Scenario.world_of Scenario.fresh_hour))
    = inr result
    /\ dict_get "confidence" result = Some (JStr "high")
    /\ (exists m, dict_get "metadata" result = Some m
                  /\ dict_get "tokens_used" m = Some (JInt 2000)).
Proof.
  destruct (successful_call_writes_its_own_metadata Scenario.clock Scenario.client
              Cases.parses_answer Scenario.build_prompt "gpt-3.5-turbo"
              "casual friday" [] (Scenario.world_of Scenario.fresh_hour)
              "" "USER REQUEST: casual friday"
              {| choices := [Some "not json"];
                 usage := Some {| prompt_tokens := 1000; completion_tokens := 1000 |} |}
              (Some "not json")
              {| prompt_tokens := 1000; completion_tokens := 1000 |}
              (PyFloat.of_ratio 2 1000) Cases.answer
              ltac:(vm_compute; reflexivity) ltac:(vm_compute; reflexivity)
              ltac:(vm_compute; reflexivity) ltac:(vm_compute; reflexivity)
              ltac:(vm_compute; reflexivity) ltac:(vm_compute; reflexivity)
              ltac:(vm_compute; reflexivity))
    as (result & Hrun & Hmeta & Hkeys & _).
  exists result. split; [now rewrite Hrun|]. split.
  - rewrite Hkeys by discriminate. reflexivity.
  - eexists. split; [exact Hmeta | reflexivity].
Defined.

(** X11. An answer that parses to something else than an object (an array, a
    number, a text, [null]) makes the method raise [TypeError] when it writes
    the metadata; by then the request has been recorded and the snapshot
    taken. *)
Theorem answer_that_is_no_object_raises_after_recording
    (clock : nat -> datetime) (client : nat -> ChatRequest -> exn + ChatResponse)
    (json_loads : option string -> exn + Json)
    (_build_outfit_prompt : string -> list (gmap string Json) -> exn + string)
    (model user_request : string) (wardrobe_items : list (gmap string Json))
    (w : World) (reason prompt : string) (response : ChatResponse)
    (result_text : option string) (u : Usage) (cost : float) (result : Json) :
  let now := clock (clock_reads w) in
  let request := LLMService.outfit_request model prompt in
  let recorded :=
    UsageTracker.record_request cost
      (UsageTracker.reset_if_needed now (usage_tracker w)) in
  let now2 := clock (S (clock_reads w)) in
  let now3 := clock (S (S (clock_reads w))) in
  snd (UsageTracker.can_make_request now (usage_tracker w)) = (true, reason) ->
  _build_outfit_prompt user_request wardrobe_items = inr prompt ->
  client (length (dispatched w)) request = inr response ->
  head (choices response) = Some result_text ->
  usage response = Some u ->
  LLMService._estimate_cost model (prompt_tokens u) (completion_tokens u) = inr cost ->
  json_loads result_text = inr result ->
  (forall kvs, result <> JDict kvs) ->
  LLMService.generate_outfit_recommendation clock client json_loads
    _build_outfit_prompt model user_request wardrobe_items w
  = (inl TypeError,
     {| usage_tracker := fst (UsageTracker.get_usage_stats now2 now3 recorded);
        clock_reads := S (S (S (clock_reads w)));
        dispatched := dispatched w ++ [request] |}).
Proof.
  intros now request recorded now2 now3
    Hallowed Hprompt Hclient Hchoice Husage Hcost Hjson Hshape.
  run_service. fold now. rewrite Hallowed, Hprompt. step_service.
  fold request. rewrite Hclient.
  destruct (choices response) as [|c rest]; [discriminate|].
  injection Hchoice as ->. rewrite Husage. step_service. rewrite Hcost.
  step_service. rewrite Hjson. step_service.
  fold now. fold recorded. fold now2. fold now3.
  destruct (UsageTracker.get_usage_stats now2 now3 recorded) as [t st].
  destruct result; try reflexivity. exfalso. eapply Hshape; reflexivity.
Qed.

Lemma answer_that_is_no_object_raises_after_recording_witness :
  fst (LLMService.generate_outfit_recommendation Scenario.clock Scenario.client
         Cases.parses_array Scenario.build_prompt "gpt-3.5-turbo" "casual friday" []
         (Scenario.world_of Scenario.fresh_hour))
  = inl TypeError
  /\ UsageTracker.daily_count
       (usage_tracker
          (snd (LLMService.generate_outfit_recommendation Scenario.clock Scenario.client
                  Cases.parses_array Scenario.build_prompt "gpt-3.5-turbo"
                  "casual friday" [] (Scenario.world_of Scenario.fresh_hour)))) = 1.
Proof.
  rewrite (answer_that_is_no_object_raises_after_recording Scenario.clock Scenario.client
             Cases.parses_array Scenario.build_prompt "gpt-3.5-turbo"
             "casual friday" [] (Scenario.world_of Scenario.fresh_hour)
             "" "USER REQUEST: casual friday"
             {| choices := [Some "not json"];
                usage := Some {| prompt_tokens := 1000; completion_tokens := 1000 |} |}
             (Some "not json")
             {| prompt_tokens := 1000; completion_tokens := 1000 |}
             (PyFloat.of_ratio 2 1000) (JList [])
             ltac:(vm_compute; reflexivity) ltac:(vm_compute; reflexivity)
             ltac:(vm_compute; reflexivity) ltac:(vm_compute; reflexivity)
             ltac:(vm_compute; reflexivity) ltac:(vm_compute; reflexivity)
             ltac:(vm_compute; reflexivity) ltac:(discriminate)).
  split; vm_compute; reflexivity.
Defined.

(** ** The prompt *)

Section PromptBuilder.
Variable upper : string -> string.
Variable str : Json -> string.

Lemma item_text_promptable (idx : nat) (item : gmap string Json) :
  Prompt.promptable item -> exists text, Prompt.item_text upper str idx item = inr text.
Proof.
  intros [[category Hc] [id Hid]]. unfold Prompt.item_text. rewrite Hc, Hid.
  destruct (Prompt.details str item); eauto.
Qed.

Lemma item_text_error (idx : nat) (item : gmap string Json) :
  ~ Prompt.promptable item ->
  Prompt.item_text upper str idx item = inl (Prompt.item_error item).
Proof.
  intros Hn. unfold Prompt.item_text, Prompt.item_error.
  destruct (item !! "category") as [v|] eqn:Hc; [|reflexivity].
  destruct v; try reflexivity.
  destruct (item !! "id") as [id|] eqn:Hid; [|reflexivity].
  exfalso. apply Hn. split; [eauto | rewrite Hid; eauto].
Qed.

Lemma item_text_inr_promptable (idx : nat) (item : gmap string Json) (text : string) :
  Prompt.item_text upper str idx item = inr text -> Prompt.promptable item.
Proof.
  unfold Prompt.item_text, Prompt.promptable.
  destruct (item !! "category") as [v|]; [|discriminate].
  destruct v; try discriminate.
  destruct (item !! "id") as [id|]; [|discriminate].
  intros _. split; eauto.
Qed.

Lemma loop_promptable (items : list (gmap string Json)) :
  Forall Prompt.promptable items ->
  forall (idx : nat) (acc : string), exists text, Prompt.loop upper str idx items acc = inr text.
Proof.
  induction 1 as [|item items Hitem _ IH]; intros idx acc; simpl; [eauto|].
  destruct (item_text_promptable idx item Hitem) as [text ->]. apply IH.
Qed.

Lemma loop_inr_promptable (items : list (gmap string Json)) :
  forall (idx : nat) (acc text : string),
    Prompt.loop upper str idx items acc = inr text -> Forall Prompt.promptable items.
Proof.
  induction items as [|item items IH]; intros idx acc text H; [constructor|].
  simpl in H.
  destruct (Prompt.item_text upper str idx item) as [e|line] eqn:Hline; [discriminate|].
  constructor; [eapply item_text_inr_promptable; exact Hline | eapply IH; exact H].
Qed.

Lemma loop_first_error (l1 l2 : list (gmap string Json)) (item : gmap string Json) :
  Forall Prompt.promptable l1 -> ~ Prompt.promptable item ->
  forall (idx : nat) (acc : string),
    Prompt.loop upper str idx (l1 ++ item :: l2) acc = inl (Prompt.item_error item).
Proof.
  induction 1 as [|good l1 Hgood _ IH]; intros Hbad idx acc; simpl.
  - now rewrite (item_text_error idx item Hbad).
  - destruct (item_text_promptable idx good Hgood) as [text ->]. now apply IH.
Qed.

Lemma item_text_agree (idx : nat) (a b : gmap string Json) :
  (forall key, key ∈ Prompt.read_keys -> a !! key = b !! key) ->
  Prompt.item_text upper str idx a = Prompt.item_text upper str idx b.
Proof.
  intros H. unfold Prompt.item_text, Prompt.details, Prompt.detail.
  assert (Hin : forall key, key ∈ Prompt.read_keys -> a !! key = b !! key) by exact H.
  unfold Prompt.read_keys in Hin.
  rewrite (Hin "category"), (Hin "id"), (Hin "clothing_type"), (Hin "color"),
    (Hin "secondary_color"), (Hin "pattern"), (Hin "material"), (Hin "style"),
    (Hin "season"), (Hin "fit"), (Hin "name") by set_solver.
  reflexivity.
Qed.

Lemma loop_agree (items items' : list (gmap string Json)) :
  Forall2 (fun a b => forall key, key ∈ Prompt.read_keys -> a !! key = b !! key)
          items items' ->
  forall (idx : nat) (acc : string),
    Prompt.loop upper str idx items acc = Prompt.loop upper str idx items' acc.
Proof.
  induction 1 as [|a b items items' Hab _ IH]; intros idx acc; simpl; [reflexivity|].
  rewrite (item_text_agree idx a b Hab).
  destruct (Prompt.item_text upper str idx b); [reflexivity | apply IH].
Qed.

End PromptBuilder.

(** X12. The prompt is built exactly for the wardrobes in which every item has
    a text as its category and has an id. *)
Theorem prompt_is_built_exactly_for_promptable_items
    (upper : string -> string) (str : Json -> string)
    (user_request : string) (wardrobe_items : list (gmap string Json)) :
  (exists prompt,
     Prompt._build_outfit_prompt upper str user_request wardrobe_items = inr prompt)
  <-> Forall Prompt.promptable wardrobe_items.
Proof.
  unfold Prompt._build_outfit_prompt. split.
  - intros [prompt H].
    destruct (Prompt.loop upper str 1 wardrobe_items "") as [e|text] eqn:Hloop;
      [discriminate|].
    eapply loop_inr_promptable; exact Hloop.
  - intros Hall. destruct (loop_promptable upper str wardrobe_items Hall 1%nat "")
      as [text ->]. eauto.
Qed.

(** X13. The first item that cannot be printed decides the exception, whatever
    follows it: [KeyError] for a missing category, [AttributeError] for a
    category that is no text, [KeyError] for a missing id. *)
Theorem first_unprintable_item_decides_the_exception
    (upper : string -> string) (str : Json -> string) (user_request : string)
    (l1 l2 : list (gmap string Json)) (item : gmap string Json) :
  Forall Prompt.promptable l1 ->
  ~ Prompt.promptable item ->
  Prompt._build_outfit_prompt upper str user_request (l1 ++ item :: l2)
  = inl (Prompt.item_error item).
Proof.
  intros Hgood Hbad. unfold Prompt._build_outfit_prompt.
  now rewrite (loop_first_error upper str l1 l2 item Hgood Hbad).
Qed.

Lemma first_unprintable_item_decides_the_exception_witness :
  Prompt._build_outfit_prompt Cases.upper_ascii Scenario.str "casual friday"
    (OutfitRecommender._format_wardrobe_for_llm Scenario.shirt_and_pants
     ++ Cases.no_category :: [])
  = inl (KeyError "category").
Proof.
  refine (first_unprintable_item_decides_the_exception Cases.upper_ascii Scenario.str
            "casual friday"
            (OutfitRecommender._format_wardrobe_for_llm Scenario.shirt_and_pants)
            [] Cases.no_category _ _).
  - repeat constructor; eexists; vm_compute; reflexivity.
  - intros [[category H] _]. vm_compute in H. discriminate.
Defined.

(** X14. The prompt depends on an item only through the eleven keys the loop
    reads: two wardrobes whose items agree on them get the same prompt, or the
    same exception. The image path, for one, never reaches the provider. *)
Theorem prompt_reads_eleven_keys
    (upper : string -> string) (str : Json -> string) (user_request : string)
    (items items' : list (gmap string Json)) :
  Forall2 (fun a b => forall key, key ∈ Prompt.read_keys -> a !! key = b !! key)
          items items' ->
  Prompt._build_outfit_prompt upper str user_request items
  = Prompt._build_outfit_prompt upper str user_request items'.
Proof.
  intros H. unfold Prompt._build_outfit_prompt.
  now rewrite (loop_agree upper str items items' H).
Qed.

Lemma prompt_reads_eleven_keys_witness :
  Prompt._build_outfit_prompt Cases.upper_ascii Scenario.str "casual friday"
    Cases.moved_images
  = Prompt._build_outfit_prompt Cases.upper_ascii Scenario.str "casual friday"
      (OutfitRecommender._format_wardrobe_for_llm Scenario.shirt_and_pants).
Proof.
  refine (prompt_reads_eleven_keys Cases.upper_ascii Scenario.str "casual friday"
            Cases.moved_images
            (OutfitRecommender._format_wardrobe_for_llm Scenario.shirt_and_pants) _).
  repeat constructor; intros key Hkey;
    apply lookup_insert_ne; intros <-;
    apply list_elem_of_In in Hkey; simpl in Hkey; intuition discriminate.
Defined.

(** X15. On the wardrobe that [_format_wardrobe_for_llm] makes from rows of the
    inventory, the prompt is always built. *)
Theorem prompt_is_built_for_the_inventory
    (upper : string -> string) (str : Json -> string) (user_request : string)
    (items : list OutfitRecommender.ClothingItem) :
  exists prompt,
    Prompt._build_outfit_prompt upper str user_request
      (OutfitRecommender._format_wardrobe_for_llm items) = inr prompt.
Proof.
  unfold Prompt._build_outfit_prompt.
  destruct (loop_promptable upper str (OutfitRecommender._format_wardrobe_for_llm items))
    with (idx := 1%nat) (acc := "") as [text ->]; [|eauto].
  unfold OutfitRecommender._format_wardrobe_for_llm.
  apply Forall_map, Forall_forall. intros item _.
  split; eexists; vm_compute; reflexivity.
Qed.

(** ** The demo service on any wardrobe *)

Section DemoAnyWardrobe.
Variable str : Json -> string.

Lemma select_with_categories (cats : list string) (items : list (gmap string Json)) :
  Forall DemoNeeds.has_category_key items ->
  DemoLLMService.select cats items = inr (List.filter (Spec.has_category cats) items).
Proof.
  induction 1 as [|item items Hcat _ IH]; [reflexivity|].
  simpl. rewrite (category_in_has_category cats item Hcat), IH.
  destruct (Spec.has_category cats item); reflexivity.
Qed.

Lemma select_without_category (cats : list string) (items : list (gmap string Json)) :
  Exists (fun item => item !! "category" = None) items ->
  DemoLLMService.select cats items = inl (KeyError "category").
Proof.
  induction 1 as [item items Hnone|item items _ IH]; simpl.
  - unfold DemoLLMService.category_in. now rewrite Hnone.
  - rewrite IH. unfold DemoLLMService.category_in.
    destruct (item !! "category") as [[]|]; reflexivity.
Qed.

Lemma select_inr_categories (cats : list string) (items : list (gmap string Json))
    (l : list (gmap string Json)) :
  DemoLLMService.select cats items = inr l -> Forall DemoNeeds.has_category_key items.
Proof.
  revert l; induction items as [|item items IH]; intros l H; [constructor|].
  simpl in H. unfold DemoLLMService.category_in in H.
  destruct (item !! "category") as [v|] eqn:Hc; [|discriminate].
  constructor; [unfold DemoNeeds.has_category_key; rewrite Hc; eauto|].
  destruct (DemoLLMService.select cats items) as [e|l'] eqn:Hs;
    [destruct v; discriminate | eapply IH; reflexivity].
Qed.

Lemma find_has_category_truth (cats : list string) (items : list (gmap string Json))
    (item : gmap string Json) :
  List.find (Spec.has_category cats) items = Some item ->
  DemoLLMService.dict_truth item = true.
Proof.
  intros H. apply find_some in H as [_ H]. unfold Spec.has_category in H.
  apply bool_decide_eq_true. intros ->. rewrite lookup_empty in H. discriminate.
Qed.

(** [add_role] on the first item of the categories succeeds exactly when
    that item, if there is one, has an id. *)
Lemma add_role_selected (role : string) (reason : gmap string Json -> string)
    (cats : list string) (items : list (gmap string Json)) (outfit : list (string * Json)) :
  (exists outfit',
     DemoLLMService.add_role role reason (List.find (Spec.has_category cats) items) outfit
     = inr outfit')
  <-> DemoNeeds.selected_has_id cats items.
Proof.
  unfold DemoNeeds.selected_has_id, DemoLLMService.add_role.
  destruct (List.find (Spec.has_category cats) items) as [item|] eqn:Hfind;
    [|split; eauto].
  rewrite (find_has_category_truth cats items item Hfind).
  destruct (item !! "id") as [id|]; split; eauto.
  - intros [outfit' H]; discriminate.
  - intros [id H]; discriminate.
Qed.

Lemma add_role_error (role : string) (reason : gmap string Json -> string)
    (selected : option (gmap string Json)) (outfit : list (string * Json)) (e : exn) :
  DemoLLMService.add_role role reason selected outfit = inl e -> e = KeyError "id".
Proof.
  unfold DemoLLMService.add_role. destruct selected as [item|]; [|discriminate].
  destruct (DemoLLMService.dict_truth item); [|discriminate].
  destruct (item !! "id"); [discriminate|congruence].
Qed.

End DemoAnyWardrobe.

(** X16. The demo service returns a recommendation exactly when every item of
    the wardrobe has a category, selected or not, and the item it selects for
    the top and the one it selects for the bottom, if any, have an id. *)
Theorem demo_succeeds_exactly_when
    (str : Json -> string) (user_request : string)
    (wardrobe_items : list (gmap string Json)) :
  (exists recommendation,
     DemoLLMService.recommendation str user_request wardrobe_items = inr recommendation)
  <-> Forall DemoNeeds.has_category_key wardrobe_items
      /\ DemoNeeds.selected_has_id ["shirt"; "hoodie"] wardrobe_items
      /\ DemoNeeds.selected_has_id ["pants"; "shorts"] wardrobe_items.
Proof.
  unfold DemoLLMService.recommendation. split.
  - intros [recommendation H].
    destruct (DemoLLMService.select ["shirt"; "hoodie"] wardrobe_items)
      as [e|tops] eqn:Htops; [discriminate|].
    pose proof (select_inr_categories _ _ _ Htops) as Hall.
    rewrite (select_with_categories _ _ Hall) in Htops. injection Htops as <-.
    rewrite !(select_with_categories _ _ Hall), !head_filter_find in *.
    destruct (DemoLLMService.add_role "top" _ _ _) as [e|outfit] eqn:Htop;
      [discriminate|].
    destruct (DemoLLMService.add_role "bottom" _ _ _) as [e|outfit'] eqn:Hbottom;
      [discriminate|].
    split; [exact Hall|]. split.
    + apply (proj1 (add_role_selected "top" (DemoLLMService.top_reason str)
                      ["shirt"; "hoodie"] wardrobe_items [])). eauto.
    + apply (proj1 (add_role_selected "bottom" (DemoLLMService.bottom_reason str)
                      ["pants"; "shorts"] wardrobe_items outfit)). eauto.
  - intros (Hall & Htop & Hbottom).
    rewrite !(select_with_categories _ _ Hall), !head_filter_find.
    apply (add_role_selected "top" (DemoLLMService.top_reason str) _ _ []) in Htop
      as [outfit ->].
    apply (add_role_selected "bottom" (DemoLLMService.bottom_reason str) _ _ outfit)
      in Hbottom as [outfit' ->].
    eauto.
Qed.

(** X17. One item without a category anywhere in the wardrobe, even behind the
    items that would be selected, makes the demo service raise [KeyError]. *)
Theorem demo_raises_on_any_item_without_category
    (str : Json -> string) (user_request : string)
    (wardrobe_items : list (gmap string Json)) :
  Exists (fun item => item !! "category" = None) wardrobe_items ->
  DemoLLMService.recommendation str user_request wardrobe_items
  = inl (KeyError "category").
Proof.
  intros H. unfold DemoLLMService.recommendation.
  now rewrite (select_without_category ["shirt"; "hoodie"] wardrobe_items H).
Qed.

Lemma demo_raises_on_any_item_without_category_witness :
  DemoLLMService.recommendation Scenario.str "casual friday"
    Cases.shirt_then_no_category
  = inl (KeyError "category").
Proof.
  refine (demo_raises_on_any_item_without_category Scenario.str "casual friday"
            Cases.shirt_then_no_category _).
  apply Exists_cons_tl, Exists_cons_tl, Exists_cons_hd. vm_compute; reflexivity.
Defined.

(** ** The demo service on the inventory *)

Section DemoInventory.
Import OutfitRecommender.
Variable str : Json -> string.

Lemma formatted_category (item : ClothingItem) :
  formatted_item item !! "category" = Some (JStr (item_category item)).
Proof. vm_compute; reflexivity. Qed.

Lemma formatted_id (item : ClothingItem) :
  formatted_item item !! "id" = Some (JInt (item_id item)).
Proof. vm_compute; reflexivity. Qed.

Lemma formatted_has_category (cats : list string) (item : ClothingItem) :
  Spec.has_category cats (formatted_item item) = DemoNeeds.row_in cats item.
Proof. unfold Spec.has_category. now rewrite formatted_category. Qed.

Lemma first_id_formatted (cats : list string) (items : list ClothingItem) :
  Spec.first_id cats (_format_wardrobe_for_llm items)
  = (fun item => JInt (item_id item)) <$> List.find (DemoNeeds.row_in cats) items.
Proof.
  unfold Spec.first_id, _format_wardrobe_for_llm.
  induction items as [|item items IH]; [reflexivity|].
  simpl. rewrite formatted_has_category.
  destruct (DemoNeeds.row_in cats item); [apply formatted_id | exact IH].
Qed.

(** The recommendation of the demo service on candidates, as a function. *)
Lemma recommendation_on_candidates (user_request : string)
    (wardrobe_items : list (gmap string Json)) :
  Forall Spec.candidate wardrobe_items ->
  exists recommendation,
    DemoLLMService.recommendation str user_request wardrobe_items = inr recommendation
    /\ Spec.role_id "top" recommendation
       = Spec.first_id ["shirt"; "hoodie"] wardrobe_items
    /\ Spec.role_id "bottom" recommendation
       = Spec.first_id ["pants"; "shorts"] wardrobe_items.
Proof.
  intros Hall. unfold DemoLLMService.recommendation.
  rewrite !(select_filter _ _ Hall), !head_filter_find.
  unfold Spec.first_id.
  destruct (List.find (Spec.has_category ["shirt"; "hoodie"]) wardrobe_items)
    as [top|] eqn:Htop;
    destruct (List.find (Spec.has_category ["pants"; "shorts"]) wardrobe_items)
      as [bottom|] eqn:Hbottom.
  - destruct (add_role_candidate "top" (DemoLLMService.top_reason str) [] top
                (find_candidate _ _ _ Hall Htop)) as (tid & Htid & ->).
    destruct (add_role_candidate "bottom" (DemoLLMService.bottom_reason str)
                (items_set "top"
                   (JDict [("id", tid);
                           ("reason", JStr (DemoLLMService.top_reason str top))]) [])
                bottom (find_candidate _ _ _ Hall Hbottom)) as (bid & Hbid & ->).
    eexists; split; [reflexivity|]. rewrite Htid, Hbid. split; reflexivity.
  - destruct (add_role_candidate "top" (DemoLLMService.top_reason str) [] top
                (find_candidate _ _ _ Hall Htop)) as (tid & Htid & ->).
    eexists; split; [reflexivity|]. rewrite Htid. split; reflexivity.
  - change (DemoLLMService.add_role "top" (DemoLLMService.top_reason str) None [])
      with (@inr exn (list (string * Json)) []).
    cbv iota.
    destruct (add_role_candidate "bottom" (DemoLLMService.bottom_reason str) []
                bottom (find_candidate _ _ _ Hall Hbottom)) as (bid & Hbid & ->).
    eexists; split; [reflexivity|]. rewrite Hbid. split; reflexivity.
  - eexists; split; [reflexivity|]. split; reflexivity.
Qed.

End DemoInventory.

(** X18. On the wardrobe made from rows of the inventory the demo service never
    raises, and it names the id of the first row whose category is shirt or
    hoodie as the top, and of the first row whose category is pants or shorts
    as the bottom; a role without such a row is left out. *)
Theorem demo_names_the_first_rows_of_the_inventory
    (str : Json -> string) (user_request : string)
    (items : list OutfitRecommender.ClothingItem) :
  exists recommendation,
    DemoLLMService.recommendation str user_request
      (OutfitRecommender._format_wardrobe_for_llm items) = inr recommendation
    /\ Spec.role_id "top" recommendation
       = (fun item => JInt (OutfitRecommender.item_id item))
         <$> List.find (DemoNeeds.row_in ["shirt"; "hoodie"]) items
    /\ Spec.role_id "bottom" recommendation
       = (fun item => JInt (OutfitRecommender.item_id item))
         <$> List.find (DemoNeeds.row_in ["pants"; "shorts"]) items.
Proof.
  destruct (recommendation_on_candidates str user_request
              (OutfitRecommender._format_wardrobe_for_llm items)
              (formatted_items_are_candidates items))
    as (recommendation & Hrun & Htop & Hbottom).
  exists recommendation. split; [exact Hrun|].
  rewrite Htop, Hbottom, !first_id_formatted. split; reflexivity.
Qed.

(** X19. The defaults of the demo texts never apply to a row of the inventory:
    [_format_wardrobe_for_llm] writes every key, with [None] for a null
    column, so [item.get('style', 'casual')] is the column, and a null style or
    type is printed as [str(None)]. *)
Theorem demo_defaults_never_apply_to_the_inventory
    (str : Json -> string) (item : OutfitRecommender.ClothingItem) :
  DemoLLMService.top_reason str (OutfitRecommender.formatted_item item)
  = "Perfect " ++ str (OutfitRecommender.nullable (OutfitRecommender.item_style item))
    ++ " " ++ str (OutfitRecommender.nullable (OutfitRecommender.item_clothing_type item))
    ++ " for this occasion"
  /\ DemoLLMService.bottom_reason str (OutfitRecommender.formatted_item item)
     = "Comfortable "
       ++ str (OutfitRecommender.nullable (OutfitRecommender.item_color item))
       ++ " " ++ str (OutfitRecommender.nullable (OutfitRecommender.item_clothing_type item)).
Proof.
  unfold DemoLLMService.top_reason, DemoLLMService.bottom_reason, DemoLLMService.get.
  assert (Hstyle : OutfitRecommender.formatted_item item !! "style"
                   = Some (OutfitRecommender.nullable (OutfitRecommender.item_style item)))
    by (vm_compute; reflexivity).
  assert (Htype : OutfitRecommender.formatted_item item !! "clothing_type"
                  = Some (OutfitRecommender.nullable
                            (OutfitRecommender.item_clothing_type item)))
    by (vm_compute; reflexivity).
  assert (Hcolor : OutfitRecommender.formatted_item item !! "color"
                   = Some (OutfitRecommender.nullable (OutfitRecommender.item_color item)))
    by (vm_compute; reflexivity).
  rewrite Hstyle, Htype, Hcolor. split; reflexivity.
Qed.

(** ** Enriching the answer of the model *)

Section Enriching.
Import Enrich.
Variable d : gmap Z Row.

Lemma items_get_set (key key' : string) (v : Json) (kvs : list (string * Json)) :
  items_get key' (items_set key v kvs)
  = if String.eqb key key' then Some v else items_get key' kvs.
Proof.
  destruct (String.eqb_spec key key') as [<-|Hne];
    [apply items_get_set_eq | now apply items_get_set_ne].
Qed.

Lemma wardrobe_row_some (v : Json) (r : Row) :
  wardrobe_row d v = inr (Some r) -> from_wardrobe d (_item_to_dict r).
Proof.
  unfold wardrobe_row. destruct (Prompt.truthy v); [|discriminate].
  destruct (as_key v) as [e|[k|]]; simpl; try discriminate.
  intros H. injection H as H. exists k, r. auto.
Qed.

Lemma outfit_ok_nil : outfit_ok d [].
Proof. intros key v H. discriminate. Qed.

Lemma outfit_ok_set_entry (role : string) (entry : Json) (kvs : list (string * Json)) :
  role = "top" \/ role = "bottom" -> entry_ok d entry -> outfit_ok d kvs ->
  outfit_ok d (items_set role entry kvs).
Proof.
  intros Hrole Hentry Hok key v. rewrite items_get_set.
  destruct (String.eqb_spec role key) as [<-|Hne]; [|apply Hok].
  intros H; injection H as <-. split; [auto|].
  intros ->. destruct Hrole; discriminate.
Qed.

Lemma outfit_ok_set_additional (l : list Json) (kvs : list (string * Json)) :
  Forall (entry_ok d) l -> outfit_ok d kvs ->
  outfit_ok d (items_set "additional" (JList l) kvs).
Proof.
  intros Hl Hok key v. rewrite items_get_set.
  destruct (String.eqb_spec "additional" key) as [<-|Hne]; [|apply Hok].
  intros H; injection H as <-. split; [intros [|]; discriminate | eauto].
Qed.

Lemma outfit_ok_set_other (key : string) (v : Json) (kvs : list (string * Json)) :
  key <> "top" -> key <> "bottom" -> key <> "additional" -> outfit_ok d kvs ->
  outfit_ok d (items_set key v kvs).
Proof.
  intros H1 H2 H3 Hok key' v'. rewrite items_get_set.
  destruct (String.eqb_spec key key') as [<-|Hne]; [|apply Hok].
  intros _. split; [intros [|]; congruence | congruence].
Qed.

Lemma enrich_role_ok (role : string) (outfit : Json)
    (acc acc' : list (string * Json)) :
  role = "top" \/ role = "bottom" -> outfit_ok d acc ->
  enrich_role d role outfit acc = inr acc' -> outfit_ok d acc'.
Proof.
  intros Hrole Hacc. unfold enrich_role, mbind, exn_bind.
  destruct (contains role outfit) as [e|[|]]; try discriminate;
    [|intros H; injection H as <-; exact Hacc].
  destruct (subscript role outfit) as [e|entry]; [discriminate|].
  destruct (Prompt.truthy entry); [|intros H; injection H as <-; exact Hacc].
  destruct (get entry "id" JNull) as [e|id]; [discriminate|].
  destruct (wardrobe_row d id) as [e|[r|]] eqn:Hrow; try discriminate;
    [|intros H; injection H as <-; exact Hacc].
  destruct (get entry "reason" (JStr "")) as [e|reason]; [discriminate|].
  intros H; injection H as <-.
  apply outfit_ok_set_entry; [exact Hrole | | exact Hacc].
  exists (_item_to_dict r), reason. split; [reflexivity|].
  eapply wardrobe_row_some; exact Hrow.
Qed.

Lemma additional_items_ok (elements : list Json) :
  forall acc out, Forall (entry_ok d) acc ->
    additional_items d elements acc = inr out -> Forall (entry_ok d) out.
Proof.
  induction elements as [|x elements IH]; intros acc out Hacc; simpl.
  { intros H; injection H as <-; exact Hacc. }
  unfold mbind, exn_bind.
  destruct (get x "id" JNull) as [e|id]; [discriminate|].
  destruct (wardrobe_row d id) as [e|[r|]] eqn:Hrow; try discriminate;
    [|apply IH; exact Hacc].
  destruct (get x "reason" (JStr "")) as [e|reason]; [discriminate|].
  apply IH. apply Forall_app. split; [exact Hacc|].
  constructor; [|constructor].
  exists (_item_to_dict r), reason. split; [reflexivity|].
  eapply wardrobe_row_some; exact Hrow.
Qed.

Lemma enrich_additional_ok (outfit : Json) (acc acc' : list (string * Json)) :
  outfit_ok d acc -> enrich_additional d outfit acc = inr acc' -> outfit_ok d acc'.
Proof.
  intros Hacc. unfold enrich_additional, mbind, exn_bind.
  destruct (contains "additional" outfit) as [e|[|]]; try discriminate;
    [|intros H; injection H as <-; exact Hacc].
  destruct (subscript "additional" outfit) as [e|entry]; [discriminate|].
  destruct (Prompt.truthy entry); [|intros H; injection H as <-; exact Hacc].
  destruct (iterate entry) as [e|elements]; [discriminate|].
  destruct (additional_items d elements []) as [e|added] eqn:Hadd; [discriminate|].
  intros H; injection H as <-.
  apply outfit_ok_set_additional; [|exact Hacc].
  eapply additional_items_ok; [constructor | exact Hadd].
Qed.

Lemma alternative_items_ok (elements : list Json) :
  forall acc out, Forall (alternative_ok d) acc ->
    alternative_items d elements acc = inr out -> Forall (alternative_ok d) out.
Proof.
  induction elements as [|alt elements IH]; intros acc out Hacc; simpl.
  { intros H; injection H as <-; exact Hacc. }
  unfold mbind, exn_bind.
  destruct (get alt "top_id" JNull) as [e|top_id]; [discriminate|].
  destruct (get alt "bottom_id" JNull) as [e|bottom_id]; [discriminate|].
  destruct (get alt "reason" (JStr "")) as [e|reason]; [discriminate|].
  destruct (wardrobe_row d top_id) as [e|top] eqn:Htop; [discriminate|].
  destruct (wardrobe_row d bottom_id) as [e|bottom] eqn:Hbottom; [discriminate|].
  destruct top as [t|], bottom as [b|]; try (apply IH; exact Hacc);
    apply IH; apply Forall_app; (split; [exact Hacc|]);
    constructor; try constructor; eexists; (split; [reflexivity|]); simpl; split.
  - intros role item [->| ->]; simpl; intros H; injection H as <-;
      eapply wardrobe_row_some; eassumption.
  - left; eauto.
  - intros role item [->| ->]; simpl; intros H; try discriminate; injection H as <-;
      eapply wardrobe_row_some; eassumption.
  - left; eauto.
  - intros role item [->| ->]; simpl; intros H; try discriminate; injection H as <-;
      eapply wardrobe_row_some; eassumption.
  - right; eauto.
Qed.

End Enriching.

(** The shape of every answer that [_enrich_outfit_with_items] returns. *)
Lemma enriched_shape
    (outfit_response : list (string * Json)) (d : gmap Z Enrich.Row) (result : Json) :
  Enrich._enrich_outfit_with_items outfit_response d = inr result ->
  exists enriched_outfit alternatives metadata confidence,
    result = JDict [("request_fulfilled", JBool true);
                    ("outfit", JDict enriched_outfit);
                    ("alternatives", JList alternatives);
                    ("metadata", metadata);
                    ("confidence", confidence)]
    /\ Enrich.outfit_ok d enriched_outfit
    /\ Forall (Enrich.alternative_ok d) alternatives.
Proof.
  unfold Enrich._enrich_outfit_with_items, mbind, exn_bind.
  set (outfit := default (JDict []) (items_get "outfit" outfit_response)).
  destruct (Enrich.enrich_role d "top" outfit []) as [e|e1] eqn:H1; [discriminate|].
  destruct (Enrich.enrich_role d "bottom" outfit e1) as [e|e2] eqn:H2; [discriminate|].
  destruct (Enrich.enrich_additional d outfit e2) as [e|e3] eqn:H3; [discriminate|].
  destruct (Enrich.get outfit "description" (JStr "")) as [e|description];
    [discriminate|].
  destruct (Enrich.get outfit "styling_tips" (JStr "")) as [e|tips]; [discriminate|].
  destruct (match items_get "alternatives" outfit_response with
            | Some v =>
                match Enrich.iterate v with
                | inl e => inl e
                | inr a => Enrich.alternative_items d a []
                end
            | None => inr []
            end) as [e|alternatives] eqn:Halt; [discriminate|].
  destruct (Enrich.get outfit "confidence" (JStr "medium")) as [e|confidence];
    [discriminate|].
  intros H; injection H as <-.
  do 4 eexists. split; [reflexivity|]. split.
  - apply outfit_ok_set_other; try discriminate.
    apply outfit_ok_set_other; try discriminate.
    apply (enrich_additional_ok d outfit e2 e3); [|exact H3].
    apply (enrich_role_ok d "bottom" outfit e1 e2); [auto| |exact H2].
    apply (enrich_role_ok d "top" outfit [] e1); [auto| |exact H1].
    apply outfit_ok_nil.
  - destruct (items_get "alternatives" outfit_response) as [v|];
      [|injection Halt as <-; constructor].
    destruct (Enrich.iterate v) as [e|elements]; [discriminate|].
    eapply alternative_items_ok; [constructor | exact Halt].
Qed.

(** X20. Whatever the model answered, what [_enrich_outfit_with_items] returns
    shows rows of the wardrobe only: the items under [top], [bottom] and
    [additional] and those of every alternative are dicts of rows of
    [items_dict]; an alternative is kept only with a top or a bottom; and
    [request_fulfilled] is true on every answer it accepts. *)
Theorem enriched_items_come_from_the_wardrobe
    (outfit_response : list (string * Json)) (d : gmap Z Enrich.Row) (result : Json) :
  Enrich._enrich_outfit_with_items outfit_response d = inr result ->
  exists enriched_outfit alternatives metadata confidence,
    result = JDict [("request_fulfilled", JBool true);
                    ("outfit", JDict enriched_outfit);
                    ("alternatives", JList alternatives);
                    ("metadata", metadata);
                    ("confidence", confidence)]
    /\ Enrich.outfit_ok d enriched_outfit
    /\ Forall (Enrich.alternative_ok d) alternatives.
Proof. exact (enriched_shape outfit_response d result). Qed.

Lemma enriched_items_come_from_the_wardrobe_witness :
  exists result enriched_outfit,
    Enrich._enrich_outfit_with_items Cases.answer (Enrich.items_dict Cases.rows)
    = inr result
    /\ dict_get "outfit" result = Some (JDict enriched_outfit)
    /\ Enrich.outfit_ok (Enrich.items_dict Cases.rows) enriched_outfit.
Proof.
  destruct (Enrich._enrich_outfit_with_items Cases.answer (Enrich.items_dict Cases.rows))
    as [e|result] eqn:Hrun; [vm_compute in Hrun; discriminate|].
  destruct (enriched_items_come_from_the_wardrobe Cases.answer
              (Enrich.items_dict Cases.rows) result Hrun)
    as (enriched_outfit & alternatives & metadata & confidence & -> & Hok & _).
  exists (JDict [("request_fulfilled", JBool true);
                 ("outfit", JDict enriched_outfit);
                 ("alternatives", JList alternatives);
                 ("metadata", metadata);
                 ("confidence", confidence)]), enriched_outfit.
  split; [reflexivity|]. split; [reflexivity | exact Hok].
Defined.



Section OutfitShape.
Import Enrich.
Variable d : gmap Z Row.

Lemma enrich_role_no_object (role : string) (outfit : Json) (acc : list (string * Json)) :
  (forall kvs, outfit <> JDict kvs) ->
  enrich_role d role outfit acc = inl TypeError \/ enrich_role d role outfit acc = inr acc.
Proof.
  intros Hshape. unfold enrich_role, mbind, exn_bind.
  destruct outfit as [ | | | | s|l|kvs]; simpl; auto.
  - destruct (is_substring role s); auto.
  - destruct (existsb _ l); auto.
  - exfalso. eapply Hshape; reflexivity.
Qed.

Lemma enrich_additional_no_object (outfit : Json) (acc : list (string * Json)) :
  (forall kvs, outfit <> JDict kvs) ->
  enrich_additional d outfit acc = inl TypeError \/ enrich_additional d outfit acc = inr acc.
Proof.
  intros Hshape. unfold enrich_additional, mbind, exn_bind.
  destruct outfit as [ | | | | s|l|kvs]; simpl; auto.
  - destruct (is_substring "additional" s); auto.
  - destruct (existsb _ l); auto.
  - exfalso. eapply Hshape; reflexivity.
Qed.

Lemma get_no_object (outfit : Json) (key : string) (dflt : Json) :
  (forall kvs, outfit <> JDict kvs) -> get outfit key dflt = inl AttributeError.
Proof.
  intros Hshape. destruct outfit; try reflexivity. exfalso. eapply Hshape; reflexivity.
Qed.

End OutfitShape.

(** X22. An answer whose [outfit] is not an object (a list, a text, a number,
    [null]) is never enriched: the method raises [TypeError] or
    [AttributeError]. *)
Theorem outfit_that_is_no_object_is_refused
    (outfit_response : list (string * Json)) (d : gmap Z Enrich.Row) (outfit : Json) :
  items_get "outfit" outfit_response = Some outfit ->
  (forall kvs, outfit <> JDict kvs) ->
  Enrich._enrich_outfit_with_items outfit_response d = inl TypeError
  \/ Enrich._enrich_outfit_with_items outfit_response d = inl AttributeError.
Proof.
  intros Hget Hshape. unfold Enrich._enrich_outfit_with_items. rewrite Hget. simpl default.
  unfold mbind, exn_bind.
  destruct (enrich_role_no_object d "top" outfit [] Hshape) as [-> | ->];
    [left; reflexivity | cbv beta iota].
  destruct (enrich_role_no_object d "bottom" outfit [] Hshape) as [-> | ->];
    [left; reflexivity | cbv beta iota].
  destruct (enrich_additional_no_object d outfit [] Hshape) as [-> | ->];
    [left; reflexivity | cbv beta iota].
  rewrite (get_no_object outfit "description" (JStr "") Hshape). right; reflexivity.
Qed.

Lemma outfit_that_is_no_object_is_refused_witness :
  Enrich._enrich_outfit_with_items [("outfit", JStr "laptop")]
    (Enrich.items_dict Cases.rows) = inl TypeError
  \/ Enrich._enrich_outfit_with_items [("outfit", JStr "laptop")]
       (Enrich.items_dict Cases.rows) = inl AttributeError.
Proof.
  refine (outfit_that_is_no_object_is_refused [("outfit", JStr "laptop")]
            (Enrich.items_dict Cases.rows) (JStr "laptop") _ _).
  - reflexivity.
  - discriminate.
Defined.
(** ** Making the service *)

Lemma new_tracker_run
    (environ : string -> option string) (to_int : string -> string + Z)
    (to_float : string -> string + float) (clock : nat -> datetime) (p : App.Process) :
  App.new_tracker environ to_int to_float clock p
  = (match to_int (App.getenv environ "LLM_MAX_REQUESTS_PER_DAY" "230") with
     | inl msg => inl (App.ValueError msg)
     | inr maxd =>
         match to_int (App.getenv environ "LLM_MAX_REQUESTS_PER_HOUR" "10") with
         | inl msg => inl (App.ValueError msg)
         | inr maxh =>
             match to_float (App.getenv environ "LLM_MONTHLY_BUDGET_USD" "5.00") with
             | inl msg => inl (App.ValueError msg)
             | inr budget =>
                 inr (UsageTracker.init (clock (App.reads p)) (clock (S (App.reads p)))
                        (clock (S (S (App.reads p)))) maxd maxh budget)
             end
         end
     end,
     {| App._llm_service := App._llm_service p;
        App._outfit_recommender := App._outfit_recommender p;
        App.reads := S (S (S (App.reads p)));
        App.sent := App.sent p |}).
Proof.
  unfold App.new_tracker, mbind, App.P_bind, App.datetime_now, App.lift_value, mret,
    App.P_ret.
  cbn.
  destruct (to_int (App.getenv environ "LLM_MAX_REQUESTS_PER_DAY" "230")); [reflexivity|].
  destruct (to_int (App.getenv environ "LLM_MAX_REQUESTS_PER_HOUR" "10")); [reflexivity|].
  destruct (to_float (App.getenv environ "LLM_MONTHLY_BUDGET_USD" "5.00")); reflexivity.
Qed.

Section Construction.

Variable environ : string -> option string.
Variable to_int : string -> string + Z.
Variable to_float : string -> string + float.
Variable clock : nat -> datetime.

Lemma new_service_process (p : App.Process) :
  (App.new_service environ to_int to_float clock p).2 = App.after_reads 3 p.
Proof.
  unfold App.new_service, mbind, App.P_bind. rewrite new_tracker_run.
  destruct (to_int (App.getenv environ "LLM_MAX_REQUESTS_PER_DAY" "230")); [reflexivity|].
  destruct (to_int (App.getenv environ "LLM_MAX_REQUESTS_PER_HOUR" "10")); [reflexivity|].
  destruct (to_float (App.getenv environ "LLM_MONTHLY_BUDGET_USD" "5.00")); [reflexivity|].
  destruct (String.eqb _ "openai"); [|reflexivity].
  destruct (environ "OPENAI_API_KEY") as [key|]; [|reflexivity].
  destruct (String.eqb key ""); reflexivity.
Qed.

Lemma new_service_configured (p : App.Process) :
  (exists s, (App.new_service environ to_int to_float clock p).1 = inr s)
  <-> App.configured environ to_int to_float.
Proof.
  unfold App.configured, App.new_service, mbind, App.P_bind. rewrite new_tracker_run.
  destruct (to_int (App.getenv environ "LLM_MAX_REQUESTS_PER_DAY" "230")) as [e|maxd];
    [split; [intros [s Hs]; discriminate | intros (_ & _ & [x Hx] & _); discriminate]|].
  destruct (to_int (App.getenv environ "LLM_MAX_REQUESTS_PER_HOUR" "10")) as [e|maxh];
    [split; [intros [s Hs]; discriminate | intros (_ & _ & _ & [x Hx] & _); discriminate]|].
  destruct (to_float (App.getenv environ "LLM_MONTHLY_BUDGET_USD" "5.00")) as [e|budget];
    [split; [intros [s Hs]; discriminate | intros (_ & _ & _ & _ & [x Hx]); discriminate]|].
  destruct (String.eqb_spec (App.getenv environ "LLM_PROVIDER" "openai") "openai")
    as [Hprov|Hprov];
    [|split; [intros [s Hs]; discriminate | intros (H & _); contradiction]].
  destruct (environ "OPENAI_API_KEY") as [key|];
    [|split; [intros [s Hs]; discriminate | intros (_ & (k & Hk & _) & _); discriminate]].
  destruct (String.eqb_spec key "") as [Hkey|Hkey].
  - split; [intros [s Hs]; discriminate|].
    intros (_ & (k & Hk & Hne) & _). injection Hk as <-. contradiction.
  - split; [|intros _; eexists; reflexivity].
    intros _. repeat split; eauto.
Qed.

Lemma new_service_unconfigured (p : App.Process) :
  (environ "OPENAI_API_KEY" = None \/ environ "OPENAI_API_KEY" = Some "") ->
  exists e, (App.new_service environ to_int to_float clock p).1 = inl e.
Proof.
  intros Hkey.
  destruct (App.new_service environ to_int to_float clock p).1 as [e|s] eqn:Hrun;
    [eauto|].
  assert (Hc : App.configured environ to_int to_float)
    by (apply (new_service_configured p); eauto).
  destruct Hc as (_ & (key & Hk & Hne) & _).
  destruct Hkey as [Hkey|Hkey]; rewrite Hkey in Hk; [discriminate|].
  injection Hk as <-. contradiction.
Qed.

End Construction.

(** X24. On a process without a service, [get_llm_service] gives one exactly when
    the environment is configured: the provider is "openai" (or unset), the
    key is set and not empty, and the three limits (or their defaults) are
    texts that [int] and [float] read. When it raises, no service is kept:
    the process has only read the clock three times, and the next call
    constructs again. *)
Theorem service_is_built_exactly_when
    (environ : string -> option string) (to_int : string -> string + Z)
    (to_float : string -> string + float) (clock : nat -> datetime) (p : App.Process) :
  App._llm_service p = None ->
  ((exists s, (App.get_llm_service environ to_int to_float clock p).1 = inr s)
   <-> App.configured environ to_int to_float)
  /\ ((forall s, (App.get_llm_service environ to_int to_float clock p).1 <> inr s) ->
      (App.get_llm_service environ to_int to_float clock p).2 = App.after_reads 3 p).
Proof.
  intros Hnone. unfold App.get_llm_service. rewrite Hnone.
  unfold mbind, App.P_bind.
  pose proof (new_service_configured environ to_int to_float clock p) as Hiff.
  pose proof (new_service_process environ to_int to_float clock p) as Hproc.
  destruct (App.new_service environ to_int to_float clock p) as [[e|s] p3];
    simpl in *.
  - split; [exact Hiff | intros _; exact Hproc].
  - split; [exact Hiff | intros Hno; destruct (Hno s); reflexivity].
Qed.

Lemma service_is_built_exactly_when_witness :
  (exists s, (App.get_llm_service Cases.environ_with_key Cases.to_int Cases.to_float
                Scenario.clock Cases.fresh).1 = inr s)
  /\ (App.get_llm_service Cases.environ_without_key Cases.to_int Cases.to_float
        Scenario.clock Cases.fresh).2 = App.after_reads 3 Cases.fresh.
Proof.
  split.
  - apply (proj2 (proj1 (service_is_built_exactly_when Cases.environ_with_key
                           Cases.to_int Cases.to_float Scenario.clock Cases.fresh
                           eq_refl))).
    unfold App.configured. repeat split; try (eexists; reflexivity).
    exists "sk-scenario". split; [reflexivity | discriminate].
  - apply (proj2 (service_is_built_exactly_when Cases.environ_without_key Cases.to_int
                    Cases.to_float Scenario.clock Cases.fresh eq_refl)).
    intros s Hs. vm_compute in Hs. discriminate.
Defined.

(** X25. Once [get_llm_service] has returned a service, every later call returns
    that same service and changes nothing, whatever the environment and the
    clock are by then: the provider, the model, the key and the three limits
    are read once per process. *)
Theorem service_is_built_once
    (environ environ' : string -> option string) (to_int to_int' : string -> string + Z)
    (to_float to_float' : string -> string + float) (clock clock' : nat -> datetime)
    (p : App.Process) (s : App.LLM) :
  (App.get_llm_service environ to_int to_float clock p).1 = inr s ->
  App.get_llm_service environ' to_int' to_float' clock'
    (App.get_llm_service environ to_int to_float clock p).2
  = (inr s, (App.get_llm_service environ to_int to_float clock p).2).
Proof.
  unfold App.get_llm_service at 1 3 4.
  destruct (App._llm_service p) as [s0|] eqn:Hs.
  - simpl. intros H; injection H as <-. unfold App.get_llm_service. rewrite Hs.
    reflexivity.
  - unfold mbind, App.P_bind.
    destruct (App.new_service environ to_int to_float clock p) as [[e|s1] p3];
      simpl; [discriminate|].
    intros H; injection H as <-. reflexivity.
Qed.

Lemma service_is_built_once_witness :
  exists s,
    (App.get_llm_service Cases.environ_with_key Cases.to_int Cases.to_float
       Scenario.clock Cases.fresh).1 = inr s
    /\ App.get_llm_service Cases.environ_without_key Cases.to_int Cases.to_float
         Scenario.clock
         (App.get_llm_service Cases.environ_with_key Cases.to_int Cases.to_float
            Scenario.clock Cases.fresh).2
       = (inr s,
          (App.get_llm_service Cases.environ_with_key Cases.to_int Cases.to_float
             Scenario.clock Cases.fresh).2).
Proof.
  destruct (App.get_llm_service Cases.environ_with_key Cases.to_int Cases.to_float
              Scenario.clock Cases.fresh).1 as [e|s] eqn:Hrun;
    [vm_compute in Hrun; discriminate|].
  exists s. split; [reflexivity|].
  exact (service_is_built_once Cases.environ_with_key Cases.environ_without_key
           Cases.to_int Cases.to_int Cases.to_float Cases.to_float
           Scenario.clock Scenario.clock Cases.fresh s Hrun).
Defined.

(** ** The endpoint that suggests an outfit *)

Lemma recommender_with_service
    (environ : string -> option string) (to_int : string -> string + Z)
    (to_float : string -> string + float) (clock : nat -> datetime)
    (p : App.Process) (s : App.LLM) :
  App._llm_service p = Some s ->
  App.get_outfit_recommender environ to_int to_float clock p
  = (inr tt, App.with_recommender p).
Proof.
  intros Hs. unfold App.get_outfit_recommender, App.with_recommender.
  destruct p as [svc [|] reads sent]; simpl in *; [reflexivity|].
  unfold App.new_recommender, mbind, App.P_bind, App.get_llm_service. simpl.
  rewrite Hs. reflexivity.
Qed.

Lemma is_substring_prefix (a b : string) : Enrich.is_substring a (a ++ b) = true.
Proof.
  assert (H : String.prefix a (a ++ b) = true).
  { induction a as [|c a IH]; simpl.
    - now destruct b.
    - destruct (Ascii.ascii_dec c c); [exact IH | contradiction]. }
  destruct a; simpl in *; [now destruct b | now rewrite H].
Qed.

Lemma items_dict_rows (rows : list Enrich.Row) (k : Z) (r : Enrich.Row) :
  Enrich.items_dict rows !! k = Some r ->
  r ∈ rows /\ OutfitRecommender.item_id (Enrich.row_item r) = k.
Proof.
  unfold Enrich.items_dict.
  assert (H : forall acc : gmap Z Enrich.Row,
             foldl (fun d r => <[OutfitRecommender.item_id (Enrich.row_item r) := r]> d)
               acc rows !! k = Some r ->
             (r ∈ rows /\ OutfitRecommender.item_id (Enrich.row_item r) = k)
             \/ acc !! k = Some r).
  { induction rows as [|r0 rows IH]; intros acc; simpl; [auto|].
    intros Hk. destruct (IH _ Hk) as [[Hin Hid] | Hacc].
    - left. split; [now apply list_elem_of_further | exact Hid].
    - destruct (decide (OutfitRecommender.item_id (Enrich.row_item r0) = k)) as [Heq|Hne].
      + subst k. rewrite lookup_insert_eq in Hacc. injection Hacc as ->.
        left. split; [apply list_elem_of_here | reflexivity].
      + rewrite lookup_insert_ne in Hacc by exact Hne. now right. }
  intros Hk. destruct (H ∅ Hk) as [Hok | Hempty]; [exact Hok|].
  rewrite lookup_empty in Hempty. discriminate.
Qed.

(** X26. Without a key in the environment the first suggestion of a process is
    refused with an HTTP error for every wardrobe, the empty one included,
    whose "No items in wardrobe" answer needs no model: the recommender is
    made before the wardrobe is looked at. Nothing is sent, and neither the
    service nor the recommender is kept. *)
Theorem no_suggestion_without_a_key
    (environ : string -> option string) (to_int : string -> string + Z)
    (to_float : string -> string + float) (clock : nat -> datetime)
    (client : nat -> ChatRequest -> exn + ChatResponse)
    (json_loads : option string -> exn + Json)
    (upper : string -> string) (str : Json -> string) (lower : string -> string)
    (other_text : App.error -> string)
    (wardrobe_items : list Enrich.Row) (user_request : string) (p : App.Process) :
  App._llm_service p = None ->
  App._outfit_recommender p = false ->
  (environ "OPENAI_API_KEY" = None \/ environ "OPENAI_API_KEY" = Some "") ->
  exists status detail,
    App.suggest_outfit environ to_int to_float clock client json_loads upper str lower
      other_text wardrobe_items user_request p
    = (App.HTTPException status detail, App.after_reads 3 p).
Proof.
  intros Hnone Hrec Hkey.
  unfold App.suggest_outfit, mbind, App.P_bind, App.get_outfit_recommender.
  rewrite Hrec. unfold App.new_recommender, mbind, App.P_bind, App.get_llm_service.
  rewrite Hnone. unfold mbind, App.P_bind.
  destruct (new_service_unconfigured environ to_int to_float clock p Hkey) as [e He].
  pose proof (new_service_process environ to_int to_float clock p) as Hproc.
  destruct (App.new_service environ to_int to_float clock p) as [[e'|s] p3];
    simpl in He, Hproc; [|discriminate].
  subst p3.
  destruct (_ || _); eauto.
Qed.

Lemma no_suggestion_without_a_key_witness :
  exists status detail,
    App.suggest_outfit Cases.environ_without_key Cases.to_int Cases.to_float
      Scenario.clock Scenario.client Scenario.json_loads Cases.upper_ascii Scenario.str
      Cases.lower_ascii Cases.other_text [] "casual friday" Cases.fresh
    = (App.HTTPException status detail, App.after_reads 3 Cases.fresh).
Proof.
  apply (no_suggestion_without_a_key Cases.environ_without_key Cases.to_int
           Cases.to_float Scenario.clock Scenario.client Scenario.json_loads
           Cases.upper_ascii Scenario.str Cases.lower_ascii Cases.other_text
           [] "casual friday" Cases.fresh).
  - reflexivity.
  - reflexivity.
  - left; reflexivity.
Defined.

(** X27. When the tracker of the service denies and the wardrobe is not empty,
    the endpoint answers 429 with "Rate limit exceeded: " and the reason of
    the denial as detail, whatever [str.lower] does; nothing is sent, and the
    tracker is the one that the boundary reset leaves. *)
Theorem denied_suggestion_answers_429
    (environ : string -> option string) (to_int : string -> string + Z)
    (to_float : string -> string + float) (clock : nat -> datetime)
    (client : nat -> ChatRequest -> exn + ChatResponse)
    (json_loads : option string -> exn + Json)
    (upper : string -> string) (str : Json -> string) (lower : string -> string)
    (other_text : App.error -> string)
    (wardrobe_items : list Enrich.Row) (user_request : string) (p : App.Process)
    (s : App.LLM) (reason : string) :
  App._llm_service p = Some s ->
  wardrobe_items <> [] ->
  snd (UsageTracker.can_make_request (clock (App.reads p)) (App.tracker s))
  = (false, reason) ->
  App.suggest_outfit environ to_int to_float clock client json_loads upper str lower
    other_text wardrobe_items user_request p
  = (App.HTTPException 429 ("Rate limit exceeded: " ++ reason),
     {| App._llm_service :=
          Some {| App.provider := App.provider s;
                  App.model := App.model s;
                  App.api_key := App.api_key s;
                  App.tracker :=
                    UsageTracker.reset_if_needed (clock (App.reads p)) (App.tracker s) |};
        App._outfit_recommender := true;
        App.reads := S (App.reads p);
        App.sent := App.sent p |}).
Proof.
  intros Hs Hrows Hgate.
  unfold App.suggest_outfit, mbind, App.P_bind.
  rewrite (recommender_with_service environ to_int to_float clock p s Hs).
  destruct wardrobe_items as [|row rows]; [contradiction|].
  unfold App.generate_outfit, mbind, App.P_bind, App.on_service, App.with_recommender.
  cbn [App._llm_service App.reads App.sent App._outfit_recommender]. rewrite Hs.
  rewrite generate_outfit_recommendation_run. cbv zeta.
  cbn [usage_tracker clock_reads dispatched]. rewrite Hgate.
  cbn [negb App.error_text].
  change ("Rate limit exceeded: " ++ reason)
    with ("Rate limit exceeded" ++ (": " ++ reason)) at 1.
  rewrite is_substring_prefix. reflexivity.
Qed.

Lemma denied_suggestion_answers_429_witness :
  App.suggest_outfit Cases.environ_without_key Cases.to_int Cases.to_float
    Scenario.clock Scenario.client Scenario.json_loads Cases.upper_ascii Scenario.str
    Cases.lower_ascii Cases.other_text Cases.rows "casual friday"
    (Cases.process_of Scenario.exhausted)
  = (App.HTTPException 429 "Rate limit exceeded: Monthly budget limit reached ($5.00)",
     {| App._llm_service := Some (Cases.service_of Scenario.exhausted);
        App._outfit_recommender := true;
        App.reads := 1;
        App.sent := [] |}).
Proof.
  rewrite (denied_suggestion_answers_429 Cases.environ_without_key Cases.to_int
             Cases.to_float Scenario.clock Scenario.client Scenario.json_loads
             Cases.upper_ascii Scenario.str Cases.lower_ascii Cases.other_text
             Cases.rows "casual friday" (Cases.process_of Scenario.exhausted)
             (Cases.service_of Scenario.exhausted)
             "Monthly budget limit reached ($5.00)").
  - vm_compute. reflexivity.
  - reflexivity.
  - discriminate.
  - vm_compute. reflexivity.
Defined.

(** X28. Every answer of the endpoint on a wardrobe that is not empty is the
    enriched outfit, and the items it shows under [top], [bottom],
    [additional] and in the alternatives are dicts of rows that the query
    returned, whatever ids the model named: an id outside the queried rows,
    such as one of a season the request filtered out, never reaches the
    answer. *)
Theorem suggested_items_are_rows_of_the_query
    (environ : string -> option string) (to_int : string -> string + Z)
    (to_float : string -> string + float) (clock : nat -> datetime)
    (client : nat -> ChatRequest -> exn + ChatResponse)
    (json_loads : option string -> exn + Json)
    (upper : string -> string) (str : Json -> string) (lower : string -> string)
    (other_text : App.error -> string)
    (wardrobe_items : list Enrich.Row) (user_request : string) (p p' : App.Process)
    (body : Json) :
  wardrobe_items <> [] ->
  App.suggest_outfit environ to_int to_float clock client json_loads upper str lower
    other_text wardrobe_items user_request p
  = (App.Response body, p') ->
  exists enriched_outfit alternatives metadata confidence,
    body = JDict [("request_fulfilled", JBool true);
                  ("outfit", JDict enriched_outfit);
                  ("alternatives", JList alternatives);
                  ("metadata", metadata);
                  ("confidence", confidence)]
    /\ Enrich.outfit_ok (Enrich.items_dict wardrobe_items) enriched_outfit
    /\ Forall (Enrich.alternative_ok (Enrich.items_dict wardrobe_items)) alternatives
    /\ (forall v, Enrich.from_wardrobe (Enrich.items_dict wardrobe_items) v ->
                  App.row_of wardrobe_items v).
Proof.
  intros Hrows. unfold App.suggest_outfit, mbind, App.P_bind.
  destruct (App.get_outfit_recommender environ to_int to_float clock p) as [[e|[]] p1];
    [destruct (_ || _); discriminate|].
  destruct wardrobe_items as [|row rows]; [contradiction|].
  unfold App.generate_outfit, mbind, App.P_bind.
  set (wardrobe := row :: rows).
  destruct (App.on_service _ p1) as [[e|llm_response] p2];
    [destruct (_ || _); discriminate|].
  destruct llm_response as [| | | | | |outfit_response];
    try (unfold App.fail; destruct (_ || _); discriminate).
  unfold App.lift_parse.
  destruct (Enrich._enrich_outfit_with_items outfit_response (Enrich.items_dict wardrobe))
    as [e|result] eqn:Hrun; [destruct (_ || _); discriminate|].
  intros H; injection H as <- <-.
  destruct (enriched_shape outfit_response _ result Hrun)
    as (enriched_outfit & alternatives & metadata & confidence & -> & Hok & Halt).
  exists enriched_outfit, alternatives, metadata, confidence.
  split; [reflexivity|]. split; [exact Hok|]. split; [exact Halt|].
  intros v (k & r & Hk & ->). exists r. split; [|reflexivity].
  exact (proj1 (items_dict_rows wardrobe k r Hk)).
Qed.

Lemma suggested_items_are_rows_of_the_query_witness :
  exists body p' enriched_outfit,
    App.suggest_outfit Cases.environ_without_key Cases.to_int Cases.to_float
      Scenario.clock Scenario.client Cases.parses_answer Cases.upper_ascii Scenario.str
      Cases.lower_ascii Cases.other_text Cases.rows "casual friday"
      (Cases.process_of Scenario.fresh_hour)
    = (App.Response body, p')
    /\ dict_get "outfit" body = Some (JDict enriched_outfit)
    /\ Enrich.outfit_ok (Enrich.items_dict Cases.rows) enriched_outfit.
Proof.
  destruct (App.suggest_outfit Cases.environ_without_key Cases.to_int Cases.to_float
              Scenario.clock Scenario.client Cases.parses_answer Cases.upper_ascii
              Scenario.str Cases.lower_ascii Cases.other_text Cases.rows
              "casual friday" (Cases.process_of Scenario.fresh_hour))
    as [[body|status detail] p'] eqn:Hrun; [|vm_compute in Hrun; discriminate].
  destruct (suggested_items_are_rows_of_the_query Cases.environ_without_key Cases.to_int
              Cases.to_float Scenario.clock Scenario.client Cases.parses_answer
              Cases.upper_ascii Scenario.str Cases.lower_ascii Cases.other_text
              Cases.rows "casual friday" (Cases.process_of Scenario.fresh_hour) p' body
              ltac:(discriminate) Hrun)
    as (enriched_outfit & alternatives & metadata & confidence & -> & Hok & _).
  exists (JDict [("request_fulfilled", JBool true);
                 ("outfit", JDict enriched_outfit);
                 ("alternatives", JList alternatives);
                 ("metadata", metadata);
                 ("confidence", confidence)]), p', enriched_outfit.
  split; [reflexivity|]. split; [reflexivity | exact Hok].
Defined.

(** ** The endpoint that saves an outfit *)

Section Saving.

Variable environ : string -> option string.
Variable to_int : string -> string + Z.
Variable to_float : string -> string + float.
Variable clock : nat -> datetime.
Variable client : nat -> ChatRequest -> exn + ChatResponse.
Variable str : Json -> string.
Variable other_text : App.error -> string.
Variable strip_name : string -> string.
Variable db_save : App.SavedOutfit -> exn + Z * string.

(** What follows the naming leaves the process as it is. *)
Lemma save_body_after_naming (outfit_data : list (string * Json)) (p : App.Process)
    (s : App.LLM) (description : Json) :
  App._llm_service p = Some s ->
  Enrich.get (default (JDict []) (items_get "outfit" outfit_data)) "description" (JStr "")
  = inr description ->
  let prompt :=
    App.name_prompt str (default (JStr "") (items_get "original_request" outfit_data))
      description in
  (App.save_body environ to_int to_float clock client str strip_name db_save
     outfit_data p).2
  = (App.name_outfit client strip_name prompt p).2
  /\ (forall e, (App.name_outfit client strip_name prompt p).1 = inl e ->
        (App.save_body environ to_int to_float clock client str strip_name db_save
           outfit_data p).1 = inl e).
Proof.
  intros Hs Hdesc prompt.
  unfold App.save_body, mbind, App.P_bind, App.get_llm_service. rewrite Hs.
  rewrite Hdesc.
  change (App.lift_parse (inr description) p) with (@inr App.error _ description, p).
  cbv beta iota. fold prompt.
  destruct (App.name_outfit client strip_name prompt p) as [[e|outfit_name] p1];
    [split; [reflexivity | intros e0 He; simpl in *; congruence]|].
  split; [|intros e He; discriminate].
  unfold App.lift_parse, mret, App.P_ret.
  repeat match goal with
         | |- context [match ?r with inl _ => _ | inr _ => _ end] =>
             destruct r; try reflexivity
         end.
Qed.

Lemma name_outfit_recorded (prompt : string) (p : App.Process) (s : App.LLM)
    (response : ChatResponse) (text : string) (rest : list (option string))
    (u : Usage) (cost : float) :
  App._llm_service p = Some s ->
  client (length (App.sent p)) (App.name_request (App.model s) prompt) = inr response ->
  choices response = Some text :: rest ->
  usage response = Some u ->
  LLMService._estimate_cost (App.model s) (prompt_tokens u) (completion_tokens u)
  = inr cost ->
  App.name_outfit client strip_name prompt p
  = (inr (strip_name text),
     {| App._llm_service := Some (App.recorded cost s);
        App._outfit_recommender := App._outfit_recommender p;
        App.reads := App.reads p;
        App.sent := (App.sent p ++ [App.name_request (App.model s) prompt])%list |}).
Proof.
  intros Hs Hclient Hchoice Husage Hcost.
  unfold App.name_outfit, App.on_service. rewrite Hs.
  unfold App.name_body, LLMService.create, LLMService.tracker_record_request,
    LLMService.on_tracker, mbind, M_bind, bind, lift, mret, M_ret, ret.
  cbn [usage_tracker clock_reads dispatched]. rewrite Hclient.
  cbn [usage_tracker clock_reads dispatched]. rewrite Hchoice, Husage.
  cbn [usage_tracker clock_reads dispatched]. rewrite Hcost. reflexivity.
Qed.

Lemma name_outfit_unnamed (prompt : string) (p : App.Process) (s : App.LLM) :
  App._llm_service p = Some s ->
  App.no_name_or_usage (client (length (App.sent p)) (App.name_request (App.model s) prompt)) ->
  App.name_outfit client strip_name prompt p
  = (inl (App.NameError "datetime"),
     {| App._llm_service := Some s;
        App._outfit_recommender := App._outfit_recommender p;
        App.reads := App.reads p;
        App.sent := (App.sent p ++ [App.name_request (App.model s) prompt])%list |}).
Proof.
  intros Hs Hno.
  unfold App.name_outfit, App.on_service. rewrite Hs.
  unfold App.name_body, LLMService.create, LLMService.tracker_record_request,
    LLMService.on_tracker, mbind, M_bind, bind, lift, mret, M_ret, ret.
  cbn [usage_tracker clock_reads dispatched].
  unfold App.no_name_or_usage in Hno.
  destruct s as [provider model api_key tracker].
  cbn [App.model App.provider App.api_key App.tracker] in *.
  destruct (client _ _) as [e|response]; [reflexivity|].
  cbn [usage_tracker clock_reads dispatched].
  destruct (choices response) as [|[text|] rest]; [reflexivity| |reflexivity].
  cbn [usage_tracker clock_reads dispatched]. rewrite Hno. reflexivity.
Qed.

End Saving.

(** X29. Saving an outfit sends a request for a name and records its cost
    without asking the tracker: whatever the counts, the cost and the limits
    are, the request goes out, and when the provider answers with a text and
    a usage both counts rise by one and the cost is added. No window is
    brought up to date and the clock is not read. This holds whatever the
    session then does with the row. *)
Theorem saving_never_asks_the_tracker
    (environ : string -> option string) (to_int : string -> string + Z)
    (to_float : string -> string + float) (clock : nat -> datetime)
    (client : nat -> ChatRequest -> exn + ChatResponse)
    (str : Json -> string) (other_text : App.error -> string)
    (strip_name : string -> string) (db_save : App.SavedOutfit -> exn + Z * string)
    (outfit_data : list (string * Json)) (p : App.Process) (s : App.LLM)
    (description : Json) (response : ChatResponse) (text : string)
    (rest : list (option string)) (u : Usage) (cost : float) :
  App._llm_service p = Some s ->
  Enrich.get (default (JDict []) (items_get "outfit" outfit_data)) "description" (JStr "")
  = inr description ->
  let request :=
    App.name_request (App.model s)
      (App.name_prompt str (default (JStr "") (items_get "original_request" outfit_data))
         description) in
  client (length (App.sent p)) request = inr response ->
  choices response = Some text :: rest ->
  usage response = Some u ->
  LLMService._estimate_cost (App.model s) (prompt_tokens u) (completion_tokens u)
  = inr cost ->
  (App.save_outfit environ to_int to_float clock client str other_text strip_name db_save
     outfit_data p).2
  = {| App._llm_service := Some (App.recorded cost s);
       App._outfit_recommender := App._outfit_recommender p;
       App.reads := App.reads p;
       App.sent := (App.sent p ++ [request])%list |}.
Proof.
  intros Hs Hdesc request Hclient Hchoice Husage Hcost.
  pose proof (save_body_after_naming environ to_int to_float clock client str strip_name
                db_save outfit_data p s description Hs Hdesc) as [Hproc _].
  cbv zeta in Hproc.
  rewrite (name_outfit_recorded client strip_name _ p s response text rest u cost
             Hs Hclient Hchoice Husage Hcost) in Hproc.
  unfold App.save_outfit.
  destruct (App.save_body _ _ _ _ _ _ _ _ _ _) as [[e|body] p1]; exact Hproc.
Qed.

Lemma saving_never_asks_the_tracker_witness :
  snd (UsageTracker.can_make_request Scenario.mar10_1430 Scenario.exhausted)
  = (false, "Monthly budget limit reached ($5.00)")
  /\ exists cost,
      (App.save_outfit Cases.environ_without_key Cases.to_int Cases.to_float
         Scenario.clock Cases.answers Scenario.str Cases.other_text Cases.strip_name
         Cases.db_save Cases.outfit_data (Cases.process_of Scenario.exhausted)).2
      = {| App._llm_service :=
             Some (App.recorded cost (Cases.service_of Scenario.exhausted));
           App._outfit_recommender := true;
           App.reads := 0;
           App.sent :=
             [App.name_request "gpt-3.5-turbo"
                (App.name_prompt Scenario.str (JStr "a day at the beach")
                   (JStr "linen shirt and shorts"))] |}.
Proof.
  split; [vm_compute; reflexivity|].
  destruct (LLMService._estimate_cost "gpt-3.5-turbo" 60 4) as [e|cost] eqn:Hcost;
    [vm_compute in Hcost; discriminate|].
  exists cost.
  exact (saving_never_asks_the_tracker Cases.environ_without_key Cases.to_int
           Cases.to_float Scenario.clock Cases.answers Scenario.str Cases.other_text
           Cases.strip_name Cases.db_save Cases.outfit_data
           (Cases.process_of Scenario.exhausted) (Cases.service_of Scenario.exhausted)
           (JStr "linen shirt and shorts")
           {| choices := [Some "Linen Days"];
              usage := Some {| prompt_tokens := 60; completion_tokens := 4 |} |}
           "Linen Days" [] {| prompt_tokens := 60; completion_tokens := 4 |} cost
           eq_refl eq_refl eq_refl eq_refl eq_refl Hcost).
Defined.

(** X30. When the request for a name fails (the provider raises, or answers
    without a choice, without a content or without a usage), the outfit is
    not saved under a dated name: the handler of the inner [try] reads
    [datetime], which [main.py] never imports, so the endpoint answers 500
    with the text of that [NameError]. The request counts as sent and
    nothing is recorded, even if the provider had answered with a name. *)
Theorem failed_naming_fails_the_save
    (environ : string -> option string) (to_int : string -> string + Z)
    (to_float : string -> string + float) (clock : nat -> datetime)
    (client : nat -> ChatRequest -> exn + ChatResponse)
    (str : Json -> string) (other_text : App.error -> string)
    (strip_name : string -> string) (db_save : App.SavedOutfit -> exn + Z * string)
    (outfit_data : list (string * Json)) (p : App.Process) (s : App.LLM)
    (description : Json) :
  App._llm_service p = Some s ->
  Enrich.get (default (JDict []) (items_get "outfit" outfit_data)) "description" (JStr "")
  = inr description ->
  let request :=
    App.name_request (App.model s)
      (App.name_prompt str (default (JStr "") (items_get "original_request" outfit_data))
         description) in
  App.no_name_or_usage (client (length (App.sent p)) request) ->
  App.save_outfit environ to_int to_float clock client str other_text strip_name db_save
    outfit_data p
  = (App.HTTPException 500 "name 'datetime' is not defined",
     {| App._llm_service := Some s;
        App._outfit_recommender := App._outfit_recommender p;
        App.reads := App.reads p;
        App.sent := (App.sent p ++ [request])%list |}).
Proof.
  intros Hs Hdesc request Hno.
  pose proof (save_body_after_naming environ to_int to_float clock client str strip_name
                db_save outfit_data p s description Hs Hdesc) as [Hproc Herr].
  cbv zeta in Hproc, Herr.
  rewrite (name_outfit_unnamed client strip_name _ p s Hs Hno) in Hproc, Herr.
  specialize (Herr _ eq_refl).
  unfold App.save_outfit.
  destruct (App.save_body _ _ _ _ _ _ _ _ _ _) as [[e|body] p1];
    simpl in Hproc, Herr; [|discriminate].
  injection Herr as ->. subst p1. reflexivity.
Qed.

Lemma failed_naming_fails_the_save_witness :
  App.save_outfit Cases.environ_without_key Cases.to_int Cases.to_float
    Scenario.clock Cases.unreachable Scenario.str Cases.other_text Cases.strip_name
    Cases.db_save Cases.outfit_data (Cases.process_of Scenario.fresh_hour)
  = (App.HTTPException 500 "name 'datetime' is not defined",
     {| App._llm_service := Some (Cases.service_of Scenario.fresh_hour);
        App._outfit_recommender := true;
        App.reads := 0;
        App.sent :=
          [App.name_request "gpt-3.5-turbo"
             (App.name_prompt Scenario.str (JStr "a day at the beach")
                (JStr "linen shirt and shorts"))] |}).
Proof.
  exact (failed_naming_fails_the_save Cases.environ_without_key Cases.to_int
           Cases.to_float Scenario.clock Cases.unreachable Scenario.str Cases.other_text
           Cases.strip_name Cases.db_save Cases.outfit_data
           (Cases.process_of Scenario.fresh_hour) (Cases.service_of Scenario.fresh_hour)
           (JStr "linen shirt and shorts") eq_refl eq_refl I).
Defined.
